(** * Agrivoltaics simulation core: embedding and properties

    A shallow embedding of the per-day models of
    [app/services/ml_service.py] and [app/services/simulation_service.py]
    (energy, crop growth and yield, shadow geometry, water balance,
    financial metrics), of the optimizer's candidate search and of the
    status machine of [run_simulation], followed by the properties that the
    specification states about them.

    Numbers.  Python floats are modelled by exact rationals ([Q], compared
    with [==]); the two places where the code produces a non-number on
    purpose or by accident ([float('inf')] sentinels, [np.sqrt] of a
    negative difference) use the extended type [xfloat].  The shadow model
    calls [np.sin] and [np.tan] and is embedded over the real numbers.
    Rounding is not modelled.  A division by zero raises, as it does on
    Python numbers; the properties that involve a division whose operands
    may be NumPy scalars assume a divisor that is not zero.

    Dictionaries.  [config] and the weather records are Python dicts (rows
    of a DataFrame for the functions that receive one, every row holding
    the same columns); they are finite maps from strings to numbers, read
    with [d.get(k, default)] and [k in d].  The configuration of
    [_calculate_financial_metrics] keeps the Python type of its numbers
    ([int] or [float]), which decides whether [range] accepts the project
    lifetime.  [crop_data], which the services build as a literal, is a
    record.

    Time.  [_aggregate_monthly] reads the clock; the date it gets is a
    parameter of [_simulate_energy_production].

    Learned models.  [MLService] uses a model loaded from disk when the
    file exists and a simplified formula otherwise; a learned model is an
    arbitrary function that may raise. *)

From Stdlib Require Import ZArith QArith Qround Qpower Lia Lqa List String.
From Stdlib Require Import Reals Lra.
From stdpp Require Import base strings pretty gmap.

Local Open Scope Q_scope.

(** * Part I: the embedding *)

(** ** Python values, exceptions and the builtins the models use *)

Module Py.

(** The exceptions that the modelled code can raise. [ModelError] stands
    for whatever a learned model loaded from disk may raise. *)
Inductive exn : Type :=
| ZeroDivisionError
| ValueError (msg : string)
| ModelError (msg : string)
| TypeError
| AttributeError
| OverflowError.

(** A computation either raises or returns. *)
Definition result (A : Type) : Type := (exn + A)%type.

Definition ret {A : Type} (a : A) : result A := inr a.
Definition raise {A : Type} (e : exn) : result A := inl e.

Definition bind {A B : Type} (c : result A) (k : A -> result B) : result B :=
  match c with
  | inl e => inl e
  | inr a => k a
  end.

(** [try: body except: handler] with a bare [except], which catches every
    exception. *)
Definition try_except {A : Type} (body : result A) (handler : result A)
  : result A :=
  match body with
  | inl _ => handler
  | inr a => inr a
  end.

(** A dict with string keys and numeric values. *)
Abbreviation dict := (gmap string Q).

(** [d.get(k, dflt)]; [k in d] is a match on [d !! k]. *)
Definition get (d : dict) (k : string) (dflt : Q) : Q :=
  default dflt (d !! k).

(** [a / b] on numbers: true division, which raises on a zero divisor. *)
Definition div (a b : Q) : result Q :=
  if Qeq_bool b 0 then raise ZeroDivisionError else ret (a / b).

(** [max(a, b)]: the first argument unless the second is greater. *)
Definition max (a b : Q) : Q := if Qlt_le_dec a b then b else a.

(** [min(a, b)]: the first argument unless the second is smaller. *)
Definition min (a b : Q) : Q := if Qlt_le_dec b a then b else a.

(** [sum(l)] *)
Definition sum (l : list Q) : Q := fold_left Qplus l 0.

(** [max(l)] and [min(l)] of a non-empty list. *)
Definition max_list (x : Q) (l : list Q) : Q := fold_left max l x.
Definition min_list (x : Q) (l : list Q) : Q := fold_left min l x.

(** [abs(a)] *)
Definition abs (a : Q) : Q := if Qlt_le_dec a 0 then - a else a.

(** A number of a configuration as Python holds it: an [int] or a
    [float]. The arithmetic of the models treats both alike; [range] does
    not. *)
Inductive number : Type :=
| PyInt (z : Z)
| PyFloat (q : Q).

Definition to_Q (n : number) : Q :=
  match n with
  | PyInt z => inject_Z z
  | PyFloat q => q
  end.

(** A dict whose numbers keep their Python type, and its numeric view. *)
Abbreviation typed_dict := (gmap string number).

Definition values (d : typed_dict) : dict := to_Q <$> d.

(** [range(1, n + 1)]: the bound has to be an [int]. *)
Definition range_from_1 (n : number) : result (list Z) :=
  match n with
  | PyInt z => ret (map (fun i => Z.of_nat i) (seq 1 (Z.to_nat z)))
  | PyFloat _ => raise TypeError
  end.

End Py.

Notation "'let*' x ':=' c1 'in' c2" := (Py.bind c1 (fun x => c2))
  (at level 10, x name, c1 at level 100, c2 at level 200).

(** ** Energy production ([_simplified_energy_model],
       [predict_energy_production], [_simulate_energy_production]) *)

Module Energy.
Import Py.

(** The optional learned model that [MLService] loads from disk; when the
    file is absent the attribute is [None]. *)
Definition learned_model : Type := list dict -> dict -> result (list Q).

(** One iteration of the loop of [_simplified_energy_model]. *)
Definition simplified_energy_day (config : dict) (day : dict) : Q :=
  let panel_efficiency := get config "panel_efficiency" 0.2 in
  let panel_area := get config "panel_area" 1.7 in
  let num_panels := get config "num_panels" 100 in
  let solar_radiation := get day "solar_radiation" 5 in
  let temp_avg :=
    (get day "temperature_high" 25 + get day "temperature_low" 15) / 2 in
  let temp_coeff := - 0.004 in
  let temp_factor := 1 + temp_coeff * (temp_avg - 25) in
  let cloud_factor := 1 - get day "cloud_cover" 0 * 0.7 in
  solar_radiation * panel_area * num_panels * panel_efficiency
    * temp_factor * cloud_factor.

Definition _simplified_energy_model (weather_data : list dict)
    (config : dict) : list Q :=
  map (simplified_energy_day config) weather_data.

Definition predict_energy_production (energy_model : option learned_model)
    (weather_data : list dict) (config : dict) : result (list Q) :=
  match energy_model with
  | Some model => model weather_data config
  | None => ret (_simplified_energy_model weather_data config)
  end.

(** One iteration of the loop in the [except] branch of
    [_simulate_energy_production]. *)
Definition fallback_energy_day (config : dict) (day : dict) : Q :=
  let panel_efficiency := get config "panel_efficiency" 0.2 in
  let panel_area := get config "panel_area" 1.7 in
  let num_panels := get config "num_panels" 100 in
  let efficiency_factor := panel_efficiency in
  let efficiency_factor :=
    match day !! "temperature_high" with
    | Some temperature_high =>
        let temp_coeff := get config "temp_coefficient" (- 0.004) in
        let reference_temp := get config "reference_temp" 25 in
        efficiency_factor + temp_coeff * (temperature_high - reference_temp)
    | None => efficiency_factor
    end in
  let efficiency_factor :=
    match day !! "cloud_cover" with
    | Some cloud_cover => efficiency_factor * (1 - cloud_cover * 0.7)
    | None => efficiency_factor
    end in
  match day !! "solar_radiation" with
  | Some solar_radiation =>
      solar_radiation * panel_area * num_panels * efficiency_factor
  | None => 0
  end.

(** [avg / (24 * pe * pa * n) if pe * pa * n > 0 else 0] *)
Definition capacity_factor (avg_daily_energy panel_efficiency panel_area
    num_panels : Q) : result Q :=
  if Qlt_le_dec 0 (panel_efficiency * panel_area * num_panels)
  then div avg_daily_energy (24 * panel_efficiency * panel_area * num_panels)
  else ret 0.

(** *** [_aggregate_monthly] *)

(** A calendar date, as far as the aggregation reads it. *)
Record date : Type := { year : Z; month : Z; day : Z }.

Definition is_leap (y : Z) : bool :=
  ((y mod 4 =? 0) && (negb (y mod 100 =? 0) || (y mod 400 =? 0)))%Z.

Definition days_in_month (y m : Z) : Z :=
  if (m =? 2)%Z then (if is_leap y then 29 else 28)%Z
  else if ((m =? 4) || (m =? 6) || (m =? 9) || (m =? 11))%Z then 30%Z
  else 31%Z.

(** [d + timedelta(days=1)] *)
Definition next_day (d : date) : date :=
  if (day d <? days_in_month (year d) (month d))%Z
  then {| year := year d; month := month d; day := (day d + 1)%Z |}
  else if (month d <? 12)%Z
  then {| year := year d; month := (month d + 1)%Z; day := 1%Z |}
  else {| year := (year d + 1)%Z; month := 1%Z; day := 1%Z |}.

(** [[start + timedelta(days=i) for i in range(n)]]; a [datetime] ends
    with the year 9999. *)
Fixpoint dates_from (start : date) (n : nat) : result (list date) :=
  match n with
  | O => ret []
  | S n' =>
      if (9999 <? year start)%Z then raise OverflowError
      else
        let* rest := dates_from (next_day start) n' in
        ret (start :: rest)
  end.

(** [df.groupby("month")["value"].sum().to_dict()] *)
Definition group_sum (months : list Z) (daily_values : list Q) : gmap Z Q :=
  fold_left
    (fun totals mv => <[mv.1 := default 0 (totals !! mv.1) + mv.2]> totals)
    (zip months daily_values) ∅.

(** ["ds" in weather_df.columns]: the columns of the frame are the keys of
    its records. *)
Definition has_ds (weather_data : list dict) : bool :=
  existsb (fun day => bool_decide (is_Some (day !! "ds"))) weather_data.

(** [now] is what [datetime.now()] returns. A [ds] column of numbers has
    no [.dt] accessor, and neither has the column built from an empty list
    of dates; a [ds] column that is not as long as [daily_values] does not
    fit into one frame. *)
Definition _aggregate_monthly (now : date) (daily_values : list Q)
    (weather_data : list dict) : result (gmap Z Q) :=
  if has_ds weather_data then
    if Nat.eqb (length daily_values) (length weather_data)
    then raise AttributeError
    else raise (ValueError ("array length " +:+ pretty (length daily_values)
                            +:+ " does not match index length "
                            +:+ pretty (length weather_data)))
  else
    let start_date :=
      {| year := year now; month := month now; day := 1%Z |} in
    let* dates := dates_from start_date (length daily_values) in
    match dates with
    | [] => raise AttributeError
    | _ :: _ => ret (group_sum (map month dates) daily_values)
    end.

(** The summary that [_simulate_energy_production] returns. *)
Record energy_result : Type := {
  total_annual_energy_kwh : Q;
  average_daily_energy_kwh : Q;
  peak_daily_production_kwh : Q;
  min_daily_production_kwh : Q;
  monthly_production_kwh : gmap Z Q;
  daily_production : list Q;
  energy_capacity_factor : Q
}.

Definition energy_daily (energy_model : option learned_model)
    (config : dict) (weather_data : list dict) : result (list Q) :=
  try_except
    (predict_energy_production energy_model weather_data config)
    (ret (map (fallback_energy_day config) weather_data)).

(** The entries of the returned dict are evaluated in the order in which
    they are written: the monthly aggregation before the capacity
    factor. *)
Definition _simulate_energy_production (energy_model : option learned_model)
    (now : date) (config : dict) (weather_data : list dict)
  : result energy_result :=
  let panel_efficiency := get config "panel_efficiency" 0.2 in
  let panel_area := get config "panel_area" 1.7 in
  let num_panels := get config "num_panels" 100 in
  let* daily := energy_daily energy_model config weather_data in
  let total_energy := sum daily in
  let* avg_daily_energy :=
    match daily with
    | [] => ret 0
    | _ :: _ => div total_energy (inject_Z (Z.of_nat (length daily)))
    end in
  let peak_day := match daily with [] => 0 | x :: l => max_list x l end in
  let min_day := match daily with [] => 0 | x :: l => min_list x l end in
  let* monthly := _aggregate_monthly now daily weather_data in
  let* cf := capacity_factor avg_daily_energy panel_efficiency panel_area
               num_panels in
  ret {| total_annual_energy_kwh := total_energy;
         average_daily_energy_kwh := avg_daily_energy;
         peak_daily_production_kwh := peak_day;
         min_daily_production_kwh := min_day;
         monthly_production_kwh := monthly;
         daily_production := daily;
         energy_capacity_factor := cf |}.

(** The formula of the specification, section 4.2, for one day whose
    record holds the four numbers, with the stated defaults for the two
    temperature parameters. *)
Definition spec_energy_day (config : dict)
    (solar_radiation temperature_high cloud_cover : Q) : Q :=
  let panel_efficiency := get config "panel_efficiency" 0.2 in
  let panel_area := get config "panel_area" 1.7 in
  let num_panels := get config "num_panels" 100 in
  let temp_coefficient := get config "temp_coefficient" (- 0.004) in
  let reference_temp := get config "reference_temp" 25 in
  let efficiency_factor :=
    panel_efficiency
    * (1 + temp_coefficient * (temperature_high - reference_temp))
    * (1 - cloud_cover * 0.7) in
  solar_radiation * panel_area * num_panels * efficiency_factor.

End Energy.

(** ** Crop growth and yield ([_simplified_crop_growth_model],
       [predict_crop_growth], [predict_crop_yield], [_simulate_crop_yield]) *)

Module Crop.
Import Py.

(** The [crop_data] dict: both services build it as a literal with these
    six keys, the growth period being an [int]. *)
Record crop_data : Type := {
  growth_period_days : Z;
  optimal_temp_min : Q;
  optimal_temp_max : Q;
  water_requirement_mm_day : Q;
  shade_tolerance : Q;
  typical_yield_per_plant : Q
}.

(** The literal of [_simulate_crop_yield] and [_evaluate_configuration]. *)
Definition default_crop_data : crop_data := {|
  growth_period_days := 60;
  optimal_temp_min := 15;
  optimal_temp_max := 25;
  water_requirement_mm_day := 4.5;
  shade_tolerance := 0.7;
  typical_yield_per_plant := 0.25
|}.

Definition learned_model : Type :=
  list dict -> dict -> crop_data -> result (list Q).

(** The [if/elif/else] on the average temperature, shared verbatim by the
    two services. *)
Definition raw_temp_stress (temp_avg temp_min temp_max : Q) : Q :=
  if Qlt_le_dec temp_avg temp_min then 1 - (temp_min - temp_avg) / 10
  else if Qlt_le_dec temp_max temp_avg then 1 - (temp_avg - temp_max) / 10
  else 1.

(** *** [MLService._simplified_crop_growth_model], one loop iteration *)

Definition ml_temp_stress (crop : crop_data) (day : dict) : Q :=
  let temp_avg :=
    (get day "temperature_high" 25 + get day "temperature_low" 15) / 2 in
  let temp_min := optimal_temp_min crop in
  let temp_max := optimal_temp_max crop in
  let temp_stress := raw_temp_stress temp_avg temp_min temp_max in
  max 0.1 (min 1 temp_stress).

Definition ml_water_stress (config : dict) (crop : crop_data) (day : dict)
  : result Q :=
  let water_req := water_requirement_mm_day crop in
  let precip := get day "precipitation" 0 in
  let irrigation := get config "irrigation_amount" 5 in
  let irrigation_eff := get config "irrigation_efficiency" 0.85 in
  let effective_water := precip + irrigation * irrigation_eff in
  let* ratio := div effective_water water_req in
  let water_stress := min 1 ratio in
  ret (max 0.1 water_stress).

Definition ml_shade_stress (config : dict) (crop : crop_data) : Q :=
  let shade_coverage := get config "shadow_coverage_percent" 30 / 100 in
  let shade_tolerance := shade_tolerance crop in
  1 - shade_coverage * (1 - shade_tolerance).

Definition ml_growth_day (config : dict) (crop : crop_data) (day : dict)
  : result Q :=
  let temp_stress := ml_temp_stress crop day in
  let* water_stress := ml_water_stress config crop day in
  let shade_stress := ml_shade_stress config crop in
  ret (temp_stress * water_stress * shade_stress).

(** The loop: the first day that raises aborts the whole call. *)
Fixpoint _simplified_crop_growth_model (weather_data : list dict)
    (config : dict) (crop : crop_data) : result (list Q) :=
  match weather_data with
  | [] => ret []
  | day :: rest =>
      let* growth_factor := ml_growth_day config crop day in
      let* daily_growth := _simplified_crop_growth_model rest config crop in
      ret (growth_factor :: daily_growth)
  end.

Definition predict_crop_growth (crop_model : option learned_model)
    (weather_data : list dict) (config : dict) (crop : crop_data)
  : result (list Q) :=
  match crop_model with
  | Some model => model weather_data config crop
  | None => _simplified_crop_growth_model weather_data config crop
  end.

(** [l[:k]] for an integer [k]: a negative [k] counts from the end. *)
Definition slice_to {A : Type} (l : list A) (k : Z) : list A :=
  if (k <? 0)%Z then firstn (Z.to_nat (Z.of_nat (length l) + k)) l
  else firstn (Z.to_nat k) l.

(** [min(a, b)] on integers. *)
Definition min_int (a b : Z) : Z := if (b <? a)%Z then b else a.

(** [sum(daily_growth[:n]) / n] *)
Definition average_growth (daily_growth : list Q) (period : Z) : result Q :=
  let n := min_int period (Z.of_nat (length daily_growth)) in
  div (sum (slice_to daily_growth n)) (inject_Z n).

Definition predict_crop_yield (daily_growth : list Q) (config : dict)
    (crop : crop_data) : result Q :=
  let planting_density := get config "planting_density" 25 in
  let field_size := get config "field_size" 10000 in
  let base_yield :=
    typical_yield_per_plant crop * planting_density * field_size in
  let* avg_growth_factor :=
    average_growth daily_growth (growth_period_days crop) in
  ret (base_yield * avg_growth_factor).

(** *** The [except] branch of [SimulationService._simulate_crop_yield] *)

Definition fallback_temp_stress (crop : crop_data) (day : dict) : Q :=
  match day !! "temperature_high", day !! "temperature_low" with
  | Some temperature_high, Some temperature_low =>
      let avg_temp := (temperature_high + temperature_low) / 2 in
      let stress :=
        raw_temp_stress avg_temp (optimal_temp_min crop)
          (optimal_temp_max crop) in
      max 0.1 (min 1 stress)
  | _, _ => 0.8
  end.

Definition fallback_water_stress (config : dict) (crop : crop_data)
    (day : dict) : result Q :=
  let irrigation_efficiency := get config "irrigation_efficiency" 0.85 in
  match day !! "precipitation" with
  | Some precipitation =>
      let irrigation_amount := get config "irrigation_amount" 0 in
      let effective_water :=
        (precipitation + irrigation_amount) * irrigation_efficiency in
      let* ratio := div effective_water (water_requirement_mm_day crop) in
      let stress := min 1 ratio in
      ret (max 0.1 stress)
  | None => ret 0.8
  end.

Definition fallback_shade_stress (config : dict) (crop : crop_data) : Q :=
  let shade_impact := get config "shade_impact" 0.2 in
  1 - shade_impact * (1 - shade_tolerance crop).

Fixpoint fallback_water_stresses (config : dict) (crop : crop_data)
    (weather_data : list dict) : result (list Q) :=
  match weather_data with
  | [] => ret []
  | day :: rest =>
      let* stress := fallback_water_stress config crop day in
      let* water_stress := fallback_water_stresses config crop rest in
      ret (stress :: water_stress)
  end.

(** [[temp_stress[i] * water_stress[i] * shade_stress for i in
    range(len(temp_stress))]]: the two lists have the same length. *)
Fixpoint combine_stress (temp_stress water_stress : list Q) (shade_stress : Q)
  : list Q :=
  match temp_stress, water_stress with
  | t :: ts, w :: ws => t * w * shade_stress :: combine_stress ts ws shade_stress
  | _, _ => []
  end.

Definition fallback_daily_growth (config : dict) (weather_data : list dict)
  : result (list Q) :=
  let crop := default_crop_data in
  let temp_stress := map (fallback_temp_stress crop) weather_data in
  let* water_stress := fallback_water_stresses config crop weather_data in
  let shade_stress := fallback_shade_stress config crop in
  ret (combine_stress temp_stress water_stress shade_stress).

Definition fallback_total_yield (config : dict) (weather_data : list dict)
  : result Q :=
  let crop := default_crop_data in
  let planting_density := get config "planting_density" 25 in
  let field_size := get config "field_size" 10000 in
  let* daily_growth := fallback_daily_growth config weather_data in
  let* avg_growth_factor :=
    average_growth daily_growth (growth_period_days crop) in
  let base_yield :=
    typical_yield_per_plant crop * planting_density * field_size in
  ret (base_yield * avg_growth_factor).

(** *** [SimulationService._simulate_crop_yield] *)

(** The yield of one harvest: the service path, and the simple model when
    the service raises. *)
Definition total_yield (crop_model : option learned_model) (config : dict)
    (weather_data : list dict) : result Q :=
  let crop := default_crop_data in
  try_except
    (let* daily_growth :=
       predict_crop_growth crop_model weather_data config crop in
     predict_crop_yield daily_growth config crop)
    (fallback_total_yield config weather_data).

Record crop_result : Type := {
  total_annual_yield_kg : Q;
  yield_per_harvest_kg : Q;
  average_yield_per_sqm_kg : Q;
  number_of_harvest_cycles : Z;
  harvest_cycle_yields_kg : list Q;
  estimated_market_value : Q
}.

(** [random] lists the successive values of [np.random.random()]. *)
Definition _simulate_crop_yield (crop_model : option learned_model)
    (random : nat -> Q) (config : dict) (weather_data : list dict)
  : result crop_result :=
  let crop := default_crop_data in
  let field_size := get config "field_size" 10000 in
  let* total_yield := total_yield crop_model config weather_data in
  let num_cycles := (365 / growth_period_days crop)%Z in
  let cycle_yields :=
    map (fun i => total_yield * (0.9 + 0.2 * random i))
      (seq 0 (Z.to_nat num_cycles)) in
  let* per_sqm := div (sum cycle_yields) field_size in
  ret {| total_annual_yield_kg := sum cycle_yields;
         yield_per_harvest_kg := total_yield;
         average_yield_per_sqm_kg := per_sqm;
         number_of_harvest_cycles := num_cycles;
         harvest_cycle_yields_kg := cycle_yields;
         estimated_market_value :=
           sum cycle_yields * get config "crop_price_per_kg" 2.5 |}.

(** *** The specification's words, section 4.3 *)

(** Water stress: [min(1, effective_water / water_requirement_mm_day)]
    floored at 0.1, with
    [effective_water = precipitation + irrigation_amount * irrigation_efficiency]. *)
Definition spec_water_stress (precipitation irrigation_amount
    irrigation_efficiency water_requirement : Q) : Q :=
  let effective_water :=
    precipitation + irrigation_amount * irrigation_efficiency in
  max 0.1 (min 1 (effective_water / water_requirement)).

End Crop.

(** ** Shadow geometry ([calculate_shadow_patterns],
       [_simulate_shadow_patterns]), over the real numbers *)

Module Shadow.
Import Py.
Local Open Scope R_scope.

(** The configuration and the weather records, with real values. Only the
    number of weather records matters to the shadow model. *)
Abbreviation rdict := (gmap string R).

Definition rget (d : rdict) (k : string) (dflt : R) : R :=
  default dflt (d !! k).

Definition rdiv (a b : R) : result R :=
  if Req_dec_T b 0 then raise ZeroDivisionError else ret (a / b).

Definition rmax (a b : R) : R := if Rlt_dec a b then b else a.
Definition rmin (a b : R) : R := if Rlt_dec b a then b else a.
Definition rsum (l : list R) : R := fold_left Rplus l 0.

(** [np.radians] *)
Definition radians (deg : R) : R := deg * PI / 180.

(** Solar declination of day [i] of the series, in degrees. *)
Definition declination (i : nat) : R :=
  let day_of_year := (Z.of_nat i mod 365)%Z in
  23.45 * sin (radians (360 / 365 * IZR (day_of_year - 81))).

(** Noon shadow length of day [i], already clamped by [max(0, _)]. *)
Definition shadow_length (config : rdict) (i : nat) : R :=
  let panel_height := rget config "panel_height" 2.5 in
  let panel_angle := rget config "panel_angle" 30 in
  let latitude := rget config "latitude" 40 in
  let elevation_angle := 90 - latitude + declination i in
  let shadow_length :=
    panel_height * tan (radians (90 - elevation_angle - panel_angle)) in
  rmax 0 shadow_length.

Definition shadow_area (config : rdict) (i : nat) : R :=
  let panel_width := rget config "panel_width" 1 in
  let panel_angle := rget config "panel_angle" 30 in
  let panel_rows := rget config "panel_rows" 10 in
  let panels_per_row := rget config "panels_per_row" 10 in
  let shadow_width :=
    panel_width + shadow_length config i * sin (radians panel_angle) in
  shadow_width * panels_per_row * panel_rows.

(** The local [coverage] of [calculate_shadow_patterns]. *)
Definition coverage (config : rdict) (i : nat) : result R :=
  let field_size := rget config "field_size" 10000 in
  let* ratio := rdiv (shadow_area config i) field_size in
  ret (rmin 1 ratio).

(** The three values appended by one iteration of the service's loop. *)
Record day_shadow : Type := {
  day_length : R;
  day_area : R;
  day_coverage_percent : R
}.

Fixpoint shadow_days (config : rdict) (i : nat) (weather_data : list rdict)
  : result (list day_shadow) :=
  match weather_data with
  | [] => ret []
  | _ :: rest =>
      let* c := coverage config i in
      let d := {| day_length := shadow_length config i;
                  day_area := shadow_area config i;
                  day_coverage_percent := c * 100 |} in
      let* ds := shadow_days config (S i) rest in
      ret (d :: ds)
  end.

(** The returned dict; the fallback of the simulation service has no
    per-day coverage list. *)
Record shadow_data : Type := {
  average_shadow_length_m : R;
  maximum_shadow_length_m : R;
  minimum_shadow_length_m : R;
  average_shadow_coverage_percent : R;
  daily_shadow_lengths_m : list R;
  daily_shadow_areas_sqm : list R;
  daily_shadow_coverage_percent : option (list R)
}.

(** [max(l)] and [min(l)]: [ValueError] on an empty list. *)
Definition rmax_list (l : list R) : result R :=
  match l with
  | [] => raise (ValueError "max() arg is an empty sequence")
  | x :: rest => ret (fold_left rmax rest x)
  end.

Definition rmin_list (l : list R) : result R :=
  match l with
  | [] => raise (ValueError "min() arg is an empty sequence")
  | x :: rest => ret (fold_left rmin rest x)
  end.

Definition rlen {A : Type} (l : list A) : R := INR (length l).

Definition calculate_shadow_patterns (weather_data : list rdict)
    (config : rdict) : result shadow_data :=
  let* days := shadow_days config 0 weather_data in
  let shadow_lengths := map day_length days in
  let shadow_areas := map day_area days in
  let shadow_coverages := map day_coverage_percent days in
  let* avg_shadow_length := rdiv (rsum shadow_lengths) (rlen shadow_lengths) in
  let* max_shadow_length := rmax_list shadow_lengths in
  let* min_shadow_length := rmin_list shadow_lengths in
  let* avg_coverage := rdiv (rsum shadow_coverages) (rlen shadow_coverages) in
  ret {| average_shadow_length_m := avg_shadow_length;
         maximum_shadow_length_m := max_shadow_length;
         minimum_shadow_length_m := min_shadow_length;
         average_shadow_coverage_percent := avg_coverage;
         daily_shadow_lengths_m := shadow_lengths;
         daily_shadow_areas_sqm := shadow_areas;
         daily_shadow_coverage_percent := Some shadow_coverages |}.

(** The [except] branch of [_simulate_shadow_patterns]: the same lengths
    and areas (the two counts are multiplied in the other order there), and
    an average coverage without the [min(1, _)]. *)
Definition fallback_shadow_patterns (weather_data : list rdict)
    (config : rdict) : result shadow_data :=
  let indices := seq 0 (length weather_data) in
  let shadow_lengths := map (shadow_length config) indices in
  let shadow_areas := map (shadow_area config) indices in
  let* avg_shadow_length :=
    match shadow_lengths with
    | [] => ret 0
    | _ => rdiv (rsum shadow_lengths) (rlen shadow_lengths)
    end in
  let* max_shadow_length :=
    match shadow_lengths with [] => ret 0 | _ => rmax_list shadow_lengths end in
  let* min_shadow_length :=
    match shadow_lengths with [] => ret 0 | _ => rmin_list shadow_lengths end in
  let field_size := rget config "field_size" 10000 in
  let* avg_shadow_coverage :=
    match shadow_areas with
    | [] => ret 0
    | _ =>
        let* per_day := rdiv (rsum shadow_areas) (rlen shadow_areas) in
        rdiv per_day field_size
    end in
  ret {| average_shadow_length_m := avg_shadow_length;
         maximum_shadow_length_m := max_shadow_length;
         minimum_shadow_length_m := min_shadow_length;
         average_shadow_coverage_percent := avg_shadow_coverage * 100;
         daily_shadow_lengths_m := shadow_lengths;
         daily_shadow_areas_sqm := shadow_areas;
         daily_shadow_coverage_percent := None |}.

Definition _simulate_shadow_patterns (config : rdict)
    (weather_data : list rdict) : result shadow_data :=
  try_except (calculate_shadow_patterns weather_data config)
             (fallback_shadow_patterns weather_data config).

End Shadow.

(** ** Floats that may be infinite or not a number *)

Module XFloat.
Import Py.

Inductive xfloat : Type :=
| Fin (q : Q)
| PInf
| NInf
| NaN.

(** [float('inf')] *)
Definition inf : xfloat := PInf.

Definition is_nan (x : xfloat) : bool :=
  match x with
  | NaN => true
  | _ => false
  end.

Definition xopp (x : xfloat) : xfloat :=
  match x with
  | Fin q => Fin (- q)
  | PInf => NInf
  | NInf => PInf
  | NaN => NaN
  end.

Definition xadd (x y : xfloat) : xfloat :=
  match x, y with
  | NaN, _ | _, NaN => NaN
  | PInf, NInf | NInf, PInf => NaN
  | PInf, _ | _, PInf => PInf
  | NInf, _ | _, NInf => NInf
  | Fin a, Fin b => Fin (a + b)
  end.

Definition xsub (x y : xfloat) : xfloat := xadd x (xopp y).

(** The infinity that has the sign of [q], or no number when [q] is zero. *)
Definition signed_inf (positive : bool) (q : Q) : xfloat :=
  if Qeq_bool q 0 then NaN
  else if Qlt_le_dec 0 q then (if positive then PInf else NInf)
  else (if positive then NInf else PInf).

Definition xmul (x y : xfloat) : xfloat :=
  match x, y with
  | NaN, _ | _, NaN => NaN
  | Fin a, Fin b => Fin (a * b)
  | PInf, Fin q | Fin q, PInf => signed_inf true q
  | NInf, Fin q | Fin q, NInf => signed_inf false q
  | PInf, PInf | NInf, NInf => PInf
  | PInf, NInf | NInf, PInf => NInf
  end.

(** [x / c] for a numeric constant [c] that is not zero. *)
Definition xdiv_const (x : xfloat) (c : Q) : xfloat := xmul x (Fin (/ c)).

(** [x / 0] on a NumPy scalar: a warning and an infinity or no number. *)
Definition xdiv_zero_np (x : xfloat) : xfloat :=
  match x with
  | Fin q => signed_inf true q
  | other => other
  end.

(** [x < y]: every comparison with no number is false. *)
Definition xlt (x y : xfloat) : bool :=
  match x, y with
  | NaN, _ | _, NaN => false
  | Fin a, Fin b => if Qlt_le_dec a b then true else false
  | NInf, NInf => false
  | NInf, _ => true
  | _, NInf => false
  | PInf, _ => false
  | Fin _, PInf => true
  end.

(** [max(a, b)]: the first argument unless the second is greater. *)
Definition xmax (a b : xfloat) : xfloat := if xlt a b then b else a.

(** [sum(l)] *)
Definition xsum (l : list xfloat) : xfloat := fold_left xadd l (Fin 0).

End XFloat.

(** ** Water balance ([_simulate_water_usage]) *)

Module Water.
Import Py XFloat.

Section WithSqrt.

(** The square root of a non-negative number, as [np.sqrt] computes it. *)
Variable sqrt_nonneg : Q -> Q.

(** [np.sqrt]: a warning and no number on a negative argument. *)
Definition np_sqrt (x : Q) : xfloat :=
  if Qlt_le_dec x 0 then NaN else Fin (sqrt_nonneg x).

(** Crop evapotranspiration [etc] of one day. *)
Definition day_water_need (config : dict) (day : dict) : xfloat :=
  let temp_avg :=
    (get day "temperature_high" 25 + get day "temperature_low" 15) / 2 in
  let et0 :=
    xmul
      (xmul (Fin (0.0023 * (temp_avg + 17.8)))
            (np_sqrt (get day "temperature_high" 25
                      - get day "temperature_low" 15)))
      (Fin 6) in
  xmul et0 (Fin (get config "crop_coefficient" 1)).

(** [irrig_need = max(0, etc - precip)] *)
Definition day_irrigation_need (config : dict) (day : dict) : xfloat :=
  let precip := get day "precipitation" 0 in
  let etc := day_water_need config day in
  xmax (Fin 0) (xsub etc (Fin precip)).

Record water_result : Type := {
  total_water_requirement_cubic_m : xfloat;
  total_irrigation_need_cubic_m : xfloat;
  total_irrigation_volume_cubic_m : xfloat;
  total_precipitation_cubic_m : xfloat;
  water_savings_from_panels_cubic_m : xfloat;
  water_savings_percent : Q;
  daily_irrigation_needs_mm : list xfloat;
  daily_precipitation_mm : list Q;
  irrigation_efficiency : Q
}.

(** [total_irrigation_need / irrigation_efficiency]. The total is a NumPy
    scalar as soon as one day's need is [etc - precip] rather than the
    integer 0 of [max]; a Python float divided by zero raises. *)
Definition irrigation_volume (daily_irrigation_needs : list xfloat)
    (total_irrigation_need : xfloat) (irrigation_efficiency : Q)
  : result xfloat :=
  if Qeq_bool irrigation_efficiency 0 then
    if existsb (xlt (Fin 0)) daily_irrigation_needs
    then ret (xdiv_zero_np total_irrigation_need)
    else raise ZeroDivisionError
  else ret (xdiv_const total_irrigation_need irrigation_efficiency).

Definition _simulate_water_usage (config : dict) (weather_data : list dict)
  : result water_result :=
  let field_size := get config "field_size" 10000 in
  let irrigation_efficiency := get config "irrigation_efficiency" 0.85 in
  let daily_precipitation :=
    map (fun day => get day "precipitation" 0) weather_data in
  let daily_water_needs := map (day_water_need config) weather_data in
  let daily_irrigation_needs :=
    map (day_irrigation_need config) weather_data in
  let total_water_need :=
    xdiv_const (xmul (xsum daily_water_needs) (Fin field_size)) 1000 in
  let total_irrigation_need :=
    xdiv_const (xmul (xsum daily_irrigation_needs) (Fin field_size)) 1000 in
  let total_precipitation := sum daily_precipitation * field_size / 1000 in
  let* actual_irrigation_volume :=
    irrigation_volume daily_irrigation_needs total_irrigation_need
      irrigation_efficiency in
  let shadow_coverage := get config "shadow_coverage_percent" 30 / 100 in
  let water_savings_percent :=
    shadow_coverage * get config "evaporation_reduction_factor" 0.3 in
  let water_savings_volume :=
    xmul total_water_need (Fin water_savings_percent) in
  ret {| total_water_requirement_cubic_m := total_water_need;
         total_irrigation_need_cubic_m := total_irrigation_need;
         total_irrigation_volume_cubic_m := actual_irrigation_volume;
         total_precipitation_cubic_m := Fin total_precipitation;
         water_savings_from_panels_cubic_m := water_savings_volume;
         water_savings_percent := water_savings_percent * 100;
         daily_irrigation_needs_mm := daily_irrigation_needs;
         daily_precipitation_mm := daily_precipitation;
         irrigation_efficiency := irrigation_efficiency |}.

End WithSqrt.

End Water.

(** ** Financial metrics ([_calculate_financial_metrics]) *)

Module Finance.
Import Py XFloat.

Definition total_capex (config : dict) : Q :=
  let panel_cost := get config "panel_cost" 250 in
  let num_panels := get config "num_panels" 100 in
  let mounting_cost := get config "mounting_cost" 150 in
  let inverter_cost := get config "inverter_cost" 10000 in
  let installation_cost := get config "installation_cost" 15000 in
  let total_panel_cost := panel_cost * num_panels in
  let total_mounting_cost := mounting_cost * num_panels in
  let total_capex :=
    total_panel_cost + total_mounting_cost + inverter_cost
    + installation_cost in
  let ag_equipment_cost := get config "ag_equipment_cost" 5000 in
  total_capex + ag_equipment_cost.

Definition total_opex_annual (config : dict) : Q :=
  get config "maintenance_cost_annual" 1000
  + get config "insurance_cost_annual" 500
  + get config "labor_cost_annual" 2000
  + get config "seeds_cost_annual" 1000
  + get config "fertilizer_cost_annual" 500
  + get config "pesticide_cost_annual" 300
  + get config "water_cost_annual" 800
  + get config "ag_labor_cost_annual" 3000.

Definition energy_revenue_annual (config : dict) : Q :=
  get config "energy_production_annual" 40000 * get config "energy_price" 0.12.

Definition crop_revenue_annual (config : dict) : Q :=
  get config "crop_yield_annual" 5000 * get config "crop_price" 2.5.

Definition net_profit_annual (config : dict) : Q :=
  energy_revenue_annual config + crop_revenue_annual config
  - total_opex_annual config.

(** [capex / net if net > 0 else float('inf')] *)
Definition payback_period (total_capex net_profit_annual : Q)
  : result xfloat :=
  if Qlt_le_dec 0 net_profit_annual then
    let* years := div total_capex net_profit_annual in ret (Fin years)
  else ret inf.

(** [cost / energy if energy > 0 else float('inf')] *)
Definition lcoe (total_lifetime_cost total_lifetime_energy : Q)
  : result xfloat :=
  if Qlt_le_dec 0 total_lifetime_energy then
    let* cost := div total_lifetime_cost total_lifetime_energy in ret (Fin cost)
  else ret inf.

(** The loop [for year in range(1, project_lifetime + 1)] over the
    remaining years. *)
Fixpoint npv_loop (net_profit discount_rate : Q) (years : list Z) (npv : Q)
  : result Q :=
  match years with
  | [] => ret npv
  | year :: rest =>
      let* term := div net_profit (Qpower (1 + discount_rate) year) in
      npv_loop net_profit discount_rate rest (npv + term)
  end.

Record financial_metrics : Type := {
  fm_total_capex : Q;
  fm_total_opex_annual : Q;
  fm_total_revenue_annual : Q;
  fm_net_profit_annual : Q;
  payback_period_years : xfloat;
  roi_percent : Q;
  npv : Q;
  irr_approx : Q;
  fm_lcoe : xfloat
}.

(** The configuration keeps the Python type of its numbers, because
    [project_lifetime] is the bound of a [range]: an [int] (as the default
    25 is) gives the years, a [float] raises [TypeError]. Everything else
    is arithmetic on the numeric view. The two breakdown dicts repeat
    inputs and are left out. *)
Definition _calculate_financial_metrics (typed_config : typed_dict)
  : result financial_metrics :=
  let config := values typed_config in
  let capex := total_capex config in
  let opex := total_opex_annual config in
  let energy_production_annual := get config "energy_production_annual" 40000 in
  let net_profit := net_profit_annual config in
  let* payback := payback_period capex net_profit in
  let project_lifetime := get config "project_lifetime" 25 in
  let discount_rate := get config "discount_rate" 0.05 in
  let lifetime_profit := net_profit * project_lifetime in
  let* roi_ratio := div (lifetime_profit - capex) capex in
  let roi := roi_ratio * 100 in
  let* years :=
    range_from_1 (default (PyInt 25) (typed_config !! "project_lifetime")) in
  let* npv := npv_loop net_profit discount_rate years (- capex) in
  let* irr := div net_profit capex in
  let total_lifetime_energy := energy_production_annual * project_lifetime in
  let total_lifetime_cost := capex + opex * project_lifetime in
  let* lcoe := lcoe total_lifetime_cost total_lifetime_energy in
  ret {| fm_total_capex := capex;
         fm_total_opex_annual := opex;
         fm_total_revenue_annual :=
           energy_revenue_annual config + crop_revenue_annual config;
         fm_net_profit_annual := net_profit;
         payback_period_years := payback;
         roi_percent := roi;
         npv := npv;
         irr_approx := irr;
         fm_lcoe := lcoe |}.

End Finance.

(** ** Configuration optimizer ([_generate_candidate_configurations],
       [_simplified_optimization]) *)

Module Optimizer.
Import Py.

Record candidate : Type := {
  panel_height : Q;
  panel_angle : Q;
  panel_spacing : Q;
  irrigation_amount : Q;
  tracking_type : string
}.

(** The [constraints] dict: numeric bounds, and the optional list under the
    key [tracking_options]. *)
Record constraints : Type := {
  bounds : dict;
  tracking_options : option (list string)
}.

(** The random source: [sample k] is the value in [[0, 1)] behind the k-th
    call of [np.random.uniform], [pick i n] the result of
    [np.random.randint(0, n)] for candidate [i]. *)
Record random_source : Type := {
  sample : nat -> Q;
  pick : nat -> nat -> nat
}.

(** [np.random.uniform(low, high)] *)
Definition uniform (rnd : random_source) (k : nat) (low high : Q) : Q :=
  low + (high - low) * sample rnd k.

(** The body of the sampling loop for candidate number [i]. *)
Definition generate_candidate (rnd : random_source) (c : constraints)
    (i : nat) : result candidate :=
  let b := bounds c in
  let height :=
    uniform rnd (4 * i) (get b "min_panel_height" 1.5)
      (get b "max_panel_height" 4) in
  let angle :=
    uniform rnd (4 * i + 1) (get b "min_panel_angle" 10)
      (get b "max_panel_angle" 40) in
  let spacing :=
    uniform rnd (4 * i + 2) (get b "min_panel_spacing" 3)
      (get b "max_panel_spacing" 8) in
  let irrigation :=
    uniform rnd (4 * i + 3) (get b "min_irrigation" 0)
      (get b "max_irrigation" 10) in
  let* tracking :=
    match tracking_options c with
    | Some options =>
        match options with
        | [] => raise (ValueError "high <= 0")
        | _ :: _ =>
            match nth_error options (pick rnd i (length options)) with
            | Some t => ret t
            | None => raise (ValueError "index out of range")
            end
        end
    | None => ret "fixed"%string
    end in
  ret {| panel_height := height;
         panel_angle := angle;
         panel_spacing := spacing;
         irrigation_amount := irrigation;
         tracking_type := tracking |}.

(** Collects the results of a loop whose body may raise. *)
Fixpoint collect {A B : Type} (f : A -> result B) (l : list A)
  : result (list B) :=
  match l with
  | [] => ret []
  | a :: rest =>
      let* b := f a in
      let* bs := collect f rest in
      ret (b :: bs)
  end.

Definition _generate_candidate_configurations (rnd : random_source)
    (c : constraints) (num_candidates : nat) : result (list candidate) :=
  collect (generate_candidate rnd c) (seq 0 num_candidates).

(** The score that [_simplified_optimization] gives to one candidate. *)
Definition simplified_score (optimization_goals : dict) (cand : candidate)
  : result Q :=
  let energy_weight := get optimization_goals "energy" 0.5 in
  let crop_weight := get optimization_goals "crop" 0.5 in
  let optimal_angle := 30 in
  let angle_diff := abs (panel_angle cand - optimal_angle) in
  let energy_score := 1 - angle_diff / 30 in
  let* height_ratio := div (panel_height cand) (panel_spacing cand) in
  let shade_factor := min 1 (height_ratio * 1.5) in
  let crop_score := 1 - shade_factor * (1 - 0.7) in
  ret (energy_weight * energy_score + crop_weight * crop_score).

(** [np.argmax] scanning from position [i], the best so far being [best] at
    [best_idx]: only a strictly greater score replaces it. *)
Fixpoint argmax_from (best_idx : nat) (best : Q) (i : nat) (scores : list Q)
  : nat :=
  match scores with
  | [] => best_idx
  | s :: rest =>
      if Qlt_le_dec best s then argmax_from i s (S i) rest
      else argmax_from best_idx best (S i) rest
  end.

Definition argmax (scores : list Q) : result nat :=
  match scores with
  | [] => raise (ValueError "attempt to get argmax of an empty sequence")
  | s :: rest => ret (argmax_from 0%nat s 1%nat rest)
  end.

(** The end of both searches: [best_idx = np.argmax(scores)] over the
    scores of the candidates in order, then [candidates[best_idx]]. *)
Definition select_best (score : candidate -> result Q)
    (candidates : list candidate) : result candidate :=
  let* scores := collect score candidates in
  let* best_idx := argmax scores in
  match nth_error candidates best_idx with
  | Some c => ret c
  | None => raise (ValueError "index out of range")
  end.

Definition default_num_candidates : nat := 1000.

Definition _simplified_optimization (rnd : random_source)
    (weather_data : list dict) (c : constraints) (optimization_goals : dict)
  : result candidate :=
  let* candidates :=
    _generate_candidate_configurations rnd c default_num_candidates in
  select_best (simplified_score optimization_goals) candidates.

(** The models that [MLService] may have loaded from disk; of the
    optimization model only the presence is read. *)
Record ml_service : Type := {
  energy_model : option Energy.learned_model;
  crop_model : option Crop.learned_model;
  optimization_model : bool
}.

(** A candidate as the dict that the models read; the tracking type, a
    string, is read by none of the simplified models. *)
Definition candidate_config (cand : candidate) : dict :=
  list_to_map [("panel_height"%string, panel_height cand);
               ("panel_angle"%string, panel_angle cand);
               ("panel_spacing"%string, panel_spacing cand);
               ("irrigation_amount"%string, irrigation_amount cand)].

(** [_evaluate_configuration]; the shadow coverage that it also computes
    does not enter the score and is left out. *)
Definition _evaluate_configuration (svc : ml_service) (cand : candidate)
    (weather_data : list dict) (optimization_goals : dict) : result Q :=
  let config := candidate_config cand in
  let* energy_production :=
    Energy.predict_energy_production (energy_model svc) weather_data config in
  let total_energy := sum energy_production in
  let crop_data := Crop.default_crop_data in
  let* crop_growth :=
    Crop.predict_crop_growth (crop_model svc) weather_data config crop_data in
  let* crop_yield := Crop.predict_crop_yield crop_growth config crop_data in
  let max_energy := 100000 in
  let max_yield := 20000 in
  let norm_energy := total_energy / max_energy in
  let norm_yield := crop_yield / max_yield in
  let energy_weight := get optimization_goals "energy" 0.5 in
  let crop_weight := get optimization_goals "crop" 0.5 in
  ret (energy_weight * norm_energy + crop_weight * norm_yield).

Definition optimize_system_configuration (svc : ml_service)
    (rnd : random_source) (weather_data : list dict) (c : constraints)
    (optimization_goals : dict) : result candidate :=
  if optimization_model svc then
    let* candidates := _generate_candidate_configurations rnd c 1000 in
    select_best
      (fun cand =>
         _evaluate_configuration svc cand weather_data optimization_goals)
      candidates
  else _simplified_optimization rnd weather_data c optimization_goals.

(** The score under which [optimize_system_configuration] ranks a
    candidate: the one of the branch it takes. *)
Definition candidate_score (svc : ml_service) (weather_data : list dict)
    (optimization_goals : dict) (cand : candidate) : result Q :=
  if optimization_model svc
  then _evaluate_configuration svc cand weather_data optimization_goals
  else simplified_score optimization_goals cand.

End Optimizer.

(** ** The status machine of [run_simulation] *)

Module Orchestrator.
Import Py.

Inductive status : Type := Pending | Running | Completed | Failed.

Section Pipeline.

(** The shapes of the values that the steps exchange are irrelevant to the
    status machine. *)
Context {params config weather timestamp : Type}.
Context {energy crop shadow water financial environmental : Type}.

(** The six entries of the [results] dict, besides the configuration id. *)
Record outputs : Type := {
  energy_production : energy;
  crop_yield : crop;
  shadow_patterns : shadow;
  water_usage : water;
  financial_metrics : financial;
  environmental_metrics : environmental;
  configuration_id : option nat
}.

(** [simulation.results]: the full dict, or [{"error": str(e)}]. *)
Inductive results : Type :=
| Full (o : outputs)
| ErrorOnly (message : exn).

(** A row of the [Simulation] table. *)
Record simulation : Type := {
  sim_status : status;
  sim_parameters : params;
  sim_results : option results;
  sim_completed_at : option timestamp
}.

(** The session: the row as the object in memory holds it, and as last
    committed. *)
Record db : Type := {
  row : option simulation;
  committed : option simulation
}.

(** The collaborators of the [try] block; each may raise. *)
Variable select_config : params -> result (option nat * config).
Variable _get_weather_data : params -> result weather.
Variable _simulate_energy_production : config -> weather -> result energy.
Variable _simulate_crop_yield : config -> weather -> result crop.
Variable _simulate_shadow_patterns : config -> weather -> result shadow.
Variable _simulate_water_usage : config -> weather -> result water.
Variable _calculate_financial_metrics : config -> result financial.
Variable _calculate_environmental_metrics : config -> result environmental.
Variable now : timestamp.

(** A computation on the session that may raise. *)
Definition action (A : Type) : Type := db -> result A * db.

Definition commit : action unit :=
  fun s => (ret tt, {| row := row s; committed := row s |}).

Definition update (f : simulation -> simulation) : action unit :=
  fun s => (ret tt, {| row := option_map f (row s);
                       committed := committed s |}).

Definition lift {A : Type} (c : result A) : action A := fun s => (c, s).

Definition seq_action {A B : Type} (a : action A) (k : A -> action B)
  : action B :=
  fun s =>
    match a s with
    | (inl e, s') => (inl e, s')
    | (inr x, s') => k x s'
    end.

(** [try: body except Exception as e: handler(e)] *)
Definition try_catch {A : Type} (body : action A) (handler : exn -> action A)
  : action A :=
  fun s =>
    match body s with
    | (inl e, s') => handler e s'
    | (inr x, s') => (inr x, s')
    end.

(** The dict built by the [try] block, in evaluation order. *)
Definition model_pipeline (p : params) : result outputs :=
  let* selected := select_config p in
  let config_id := fst selected in
  let config_params := snd selected in
  let* weather_data := _get_weather_data p in
  let* e := _simulate_energy_production config_params weather_data in
  let* c := _simulate_crop_yield config_params weather_data in
  let* sh := _simulate_shadow_patterns config_params weather_data in
  let* w := _simulate_water_usage config_params weather_data in
  let* f := _calculate_financial_metrics config_params in
  let* env := _calculate_environmental_metrics config_params in
  ret {| energy_production := e;
         crop_yield := c;
         shadow_patterns := sh;
         water_usage := w;
         financial_metrics := f;
         environmental_metrics := env;
         configuration_id := config_id |}.

Definition set_status (st : status) (sim : simulation) : simulation :=
  {| sim_status := st;
     sim_parameters := sim_parameters sim;
     sim_results := sim_results sim;
     sim_completed_at := sim_completed_at sim |}.

Definition set_results (r : results) (sim : simulation) : simulation :=
  {| sim_status := sim_status sim;
     sim_parameters := sim_parameters sim;
     sim_results := Some r;
     sim_completed_at := sim_completed_at sim |}.

Definition set_completed_at (t : timestamp) (sim : simulation) : simulation :=
  {| sim_status := sim_status sim;
     sim_parameters := sim_parameters sim;
     sim_results := sim_results sim;
     sim_completed_at := Some t |}.

Definition run_simulation : action unit :=
  fun s =>
    match row s with
    | None => (ret tt, s)
    | Some sim =>
        seq_action (update (set_status Running)) (fun _ =>
        seq_action commit (fun _ =>
        try_catch
          (seq_action (lift (model_pipeline (sim_parameters sim))) (fun r =>
           seq_action (update (set_status Completed)) (fun _ =>
           seq_action (update (set_results (Full r))) (fun _ =>
           seq_action (update (set_completed_at now)) (fun _ =>
           commit)))))
          (fun e =>
           seq_action (update (set_status Failed)) (fun _ =>
           seq_action (update (set_results (ErrorOnly e))) (fun _ =>
           commit))))) s
    end.

End Pipeline.

End Orchestrator.

(** ** Environmental metrics ([_calculate_environmental_metrics]) *)

Module Environment.
Import Py.

Record environmental_metrics : Type := {
  carbon_emissions_avoided_kg : Q;
  system_carbon_footprint_kg : Q;
  net_carbon_benefit_kg : Q;
  carbon_payback_years : Q;
  land_use_efficiency_ratio : Q;
  dual_purpose_land_area_sqm : Q;
  water_savings_cubic_m : Q;
  env_water_savings_percent : Q
}.

Definition _calculate_environmental_metrics (config : dict)
  : result environmental_metrics :=
  let energy_production_annual := get config "energy_production_annual" 40000 in
  let project_lifetime := get config "project_lifetime" 25 in
  let grid_carbon_intensity := get config "grid_carbon_intensity" 0.5 in
  let system_carbon_footprint := get config "system_carbon_footprint" 50 in
  let num_panels := get config "num_panels" 100 in
  let field_size := get config "field_size" 10000 in
  let conventional_solar_land_use :=
    get config "conventional_solar_land_use" 0.02 in
  let water_usage_annual := get config "water_usage_annual" 500 in
  let conventional_water_usage := get config "conventional_water_usage" 700 in
  let lifetime_energy_production :=
    energy_production_annual * project_lifetime in
  let carbon_emissions_avoided :=
    lifetime_energy_production * grid_carbon_intensity in
  let system_total_carbon := system_carbon_footprint * num_panels in
  let net_carbon_benefit := carbon_emissions_avoided - system_total_carbon in
  let* carbon_payback_years :=
    div system_total_carbon
      (energy_production_annual * grid_carbon_intensity) in
  let conventional_land_required :=
    energy_production_annual * conventional_solar_land_use in
  let* land_use_efficiency := div conventional_land_required field_size in
  let water_savings := conventional_water_usage - water_usage_annual in
  let* savings_percent :=
    if Qlt_le_dec 0 conventional_water_usage then
      let* ratio := div water_savings conventional_water_usage in
      ret (ratio * 100)
    else ret 0 in
  ret {| carbon_emissions_avoided_kg := carbon_emissions_avoided;
         system_carbon_footprint_kg := system_total_carbon;
         net_carbon_benefit_kg := net_carbon_benefit;
         carbon_payback_years := carbon_payback_years;
         land_use_efficiency_ratio := land_use_efficiency;
         dual_purpose_land_area_sqm := field_size;
         water_savings_cubic_m := water_savings;
         env_water_savings_percent := savings_percent |}.

End Environment.

(** ** The simulation endpoints that drive [run_simulation]
       ([api/routers/simulation.py]) *)

Module Router.
Import Py Orchestrator.

(** What an endpoint answers: a body, or an HTTP error. *)
Inductive response (A : Type) : Type :=
| Ok (body : A)
| NotFound
| BadRequest
| ServerError.

Arguments Ok {A} body.
Arguments NotFound {A}.
Arguments BadRequest {A}.
Arguments ServerError {A}.

Section Endpoints.

Context {params timestamp : Type}.
Context {energy crop shadow water financial environmental : Type}.

Abbreviation sim_row :=
  (@simulation params timestamp energy crop shadow water financial
     environmental).
Abbreviation session :=
  (@db params timestamp energy crop shadow water financial environmental).

(** [db_simulation.status == "running"] *)
Definition is_running (st : status) : bool :=
  match st with
  | Running => true
  | _ => false
  end.

(** [POST /{simulation_id}/run]. The session holds the row that the query
    by id and owner finds, if any. *)
Definition request_run (s : session) : response sim_row * session :=
  match row s with
  | None => (NotFound, s)
  | Some sim =>
      if is_running (sim_status sim) then (BadRequest, s)
      else
        let reset := {| sim_status := Pending;
                        sim_parameters := sim_parameters sim;
                        sim_results := None;
                        sim_completed_at := None |} in
        (Ok reset, {| row := Some reset; committed := Some reset |})
  end.

(** [DELETE /{simulation_id}] *)
Definition delete_simulation (s : session) : response unit * session :=
  match row s with
  | None => (NotFound, s)
  | Some sim =>
      if is_running (sim_status sim) then (BadRequest, s)
      else (Ok tt, {| row := None; committed := None |})
  end.

(** [GET /{simulation_id}/results]. A result dict that only holds an error
    does not validate against the response schema. *)
Definition get_simulation_results (s : session)
  : response (@outputs energy crop shadow water financial environmental) :=
  match row s with
  | None => NotFound
  | Some sim =>
      match sim_status sim with
      | Completed =>
          match sim_results sim with
          | None => NotFound
          | Some (Full o) => Ok o
          | Some (ErrorOnly _) => ServerError
          end
      | _ => BadRequest
      end
  end.

End Endpoints.

End Router.

(** ** Synthetic weather ([WeatherService.generate_synthetic_weather]),
       over the real numbers *)

Module SyntheticWeather.
Import Py Shadow.
Local Open Scope R_scope.

(** The random numbers drawn for one day, in the order of the source:
    [np.random.random()] for the temperature, for the rain gate, the
    [np.random.exponential(5)] rain amount (drawn only on a rainy day),
    [random()] for cloud and for radiation, [np.random.gamma(2, 2)],
    [np.random.randint(0, 360)] and [random()] for the humidity. *)
Record draws : Type := {
  u_temp : R;
  u_rain_gate : R;
  rain_amount : R;
  u_cloud : R;
  u_solar : R;
  wind_gamma : R;
  wind_randint : Z;
  u_humidity : R
}.

Record weather_record : Type := {
  location_lat : R;
  location_lng : R;
  temperature_high : R;
  temperature_low : R;
  humidity : R;
  precipitation : R;
  cloud_cover : R;
  wind_speed : R;
  wind_direction : Z;
  solar_radiation : R
}.

Definition seasonal_factor (day_of_year : Z) : R :=
  sin (radians (IZR (day_of_year - 15) / 365 * 360)) * 0.5 + 0.5.

Definition precip_seasonal (day_of_year : Z) : R :=
  sin (radians (IZR (day_of_year - 80) / 365 * 720)) * 0.5 + 0.5.

(** The body of the loop over the dates. *)
Definition synthetic_day (lat lng : R) (day_of_year : Z) (d : draws)
  : weather_record :=
  let seasonal_factor := seasonal_factor day_of_year in
  let random_factor := u_temp d * 0.4 - 0.2 in
  let temp_high := 15 + seasonal_factor * 25 + random_factor * 10 in
  let temp_low := 5 + seasonal_factor * 15 + random_factor * 8 in
  let precip_chance := precip_seasonal day_of_year * 0.5 in
  let precipitation :=
    if Rlt_dec precip_chance (u_rain_gate d) then 0 else rain_amount d in
  let cloud_base := 0.2 + precipitation / 20 in
  let cloud_cover := rmin 1 (rmax 0 (cloud_base + u_cloud d * 0.3)) in
  let solar_rad_base := (1 - cloud_cover) * 7 * seasonal_factor in
  let solar_radiation := rmax 0.1 (solar_rad_base + u_solar d * 1.5) in
  let wind_speed := 2 + wind_gamma d in
  let wind_direction := wind_randint d in
  let humidity_base :=
    40 + 30 * (1 - seasonal_factor) + precipitation * 3 in
  let humidity := rmin 100 (rmax 10 (humidity_base + u_humidity d * 20)) in
  {| location_lat := lat;
     location_lng := lng;
     temperature_high := temp_high;
     temperature_low := temp_low;
     humidity := humidity;
     precipitation := precipitation;
     cloud_cover := cloud_cover;
     wind_speed := wind_speed;
     wind_direction := wind_direction;
     solar_radiation := solar_radiation |}.

(** [generate_synthetic_weather]. The calendar is a parameter:
    [day_of_year i] is [tm_yday] of the start date plus [i] days;
    [draw i] holds the random numbers of day [i]. *)
Definition generate_synthetic_weather (day_of_year : nat -> Z)
    (draw : nat -> draws) (location : rdict) (duration_days : Z)
  : list weather_record :=
  let duration_days := if (duration_days <=? 0)%Z then 7%Z else duration_days in
  let lat := rget location "lat" 40 in
  let lng := rget location "lng" (- 75) in
  map (fun i => synthetic_day lat lng (day_of_year i) (draw i))
    (seq 0 (Z.to_nat duration_days)).

(** The ranges that a generated record keeps. *)
Definition plausible (r : weather_record) : Prop :=
  0 <= cloud_cover r <= 1
  /\ 0.1 <= solar_radiation r
  /\ 10 <= humidity r <= 100
  /\ 0 <= precipitation r
  /\ 2 <= wind_speed r
  /\ 13 <= temperature_high r <= 42
  /\ 3.4 <= temperature_low r <= 21.6
  /\ 9.6 <= temperature_high r - temperature_low r.

End SyntheticWeather.

(** ** The weather of a run ([SimulationService._get_weather_data]) *)

Module WeatherSource.
Import Py Shadow SyntheticWeather.

(** The keys of [simulation.parameters] that choose the weather; [None]
    is an absent key. The start date is part of the calendar. *)
Record weather_params : Type := {
  weather_data_id : option Z;
  custom_weather_data : option (list weather_record);
  location : option rdict;
  duration_days : option Z
}.

Definition default_location : rdict :=
  list_to_map [("lat"%string, 40%R); ("lng"%string, (- 75)%R)].

(** The call of [generate_synthetic_weather] that two branches share. *)
Definition synthetic (day_of_year : nat -> Z) (draw : nat -> draws)
    (p : weather_params) : list weather_record :=
  generate_synthetic_weather day_of_year draw
    (default default_location (location p))
    (default 365%Z (duration_days p)).

(** [stored id] is what the query for the rows of that id returns. An id
    of 0 and an empty list are false in a condition. *)
Definition _get_weather_data (stored : Z -> list weather_record)
    (day_of_year : nat -> Z) (draw : nat -> draws) (p : weather_params)
  : list weather_record :=
  let otherwise :=
    match custom_weather_data p with
    | Some (w :: ws) => w :: ws
    | _ => synthetic day_of_year draw p
    end in
  match weather_data_id p with
  | Some id =>
      if (id =? 0)%Z then otherwise
      else
        match stored id with
        | [] => synthetic day_of_year draw p
        | w :: ws => w :: ws
        end
  | None => otherwise
  end.

End WeatherSource.

(** ** The crop yield prediction endpoint
       ([api/routers/crop_prediction.py], [POST /predict]) *)

Module CropPrediction.
Import Py.

(** What interrupts the [try] block: an exception of the services, or a
    missing key of a dict. *)
Inductive failure : Type :=
| Service (e : exn)
| KeyError (key : string).

Definition outcome (A : Type) : Type := (failure + A)%type.

Definition lift {A : Type} (c : result A) : outcome A :=
  match c with
  | inl e => inl (Service e)
  | inr a => inr a
  end.

Definition and_then {A B : Type} (c : outcome A) (k : A -> outcome B)
  : outcome B :=
  match c with
  | inl e => inl e
  | inr a => k a
  end.

(** [d[k]] *)
Definition item (d : dict) (k : string) : outcome Q :=
  match d !! k with
  | Some v => inr v
  | None => inl (KeyError k)
  end.

(** The columns of a [CropData] row that the endpoint reads. *)
Record crop_row : Type := {
  row_growth_period_days : Z;
  optimal_temperature_min : Q;
  optimal_temperature_max : Q;
  row_water_requirement_mm_day : Q;
  row_shade_tolerance : Q;
  typical_yield_per_sqm : Q
}.

(** The [crop_dict] that the endpoint hands to the services. *)
Definition crop_dict (c : crop_row) : dict :=
  list_to_map
    [("optimal_temp_min"%string, optimal_temperature_min c);
     ("optimal_temp_max"%string, optimal_temperature_max c);
     ("water_requirement_mm_day"%string, row_water_requirement_mm_day c);
     ("shade_tolerance"%string, row_shade_tolerance c);
     ("typical_yield_per_sqm"%string, typical_yield_per_sqm c);
     ("growth_period_days"%string, inject_Z (row_growth_period_days c))].

(** The four keys that the growth model reads, in the order of their first
    use; it reads neither the yield nor the growth period. *)
Definition growth_crop_data (crop : dict) : outcome Crop.crop_data :=
  and_then (item crop "optimal_temp_min") (fun temp_min =>
  and_then (item crop "optimal_temp_max") (fun temp_max =>
  and_then (item crop "water_requirement_mm_day") (fun water_req =>
  and_then (item crop "shade_tolerance") (fun tolerance =>
  inr {| Crop.growth_period_days := 0;
         Crop.optimal_temp_min := temp_min;
         Crop.optimal_temp_max := temp_max;
         Crop.water_requirement_mm_day := water_req;
         Crop.shade_tolerance := tolerance;
         Crop.typical_yield_per_plant := 0 |})))).

(** [MLService.predict_crop_growth] on a crop dict: a learned model, or the
    simplified model, whose loop body reads the dict (not at all on an
    empty series). *)
Definition predict_crop_growth (crop_model : option (list dict -> result (list Q)))
    (weather_data : list dict) (config : dict) (crop : dict)
  : outcome (list Q) :=
  match crop_model with
  | Some model => lift (model weather_data)
  | None =>
      match weather_data with
      | [] => inr []
      | _ :: _ =>
          and_then (growth_crop_data crop) (fun data =>
          lift (Crop._simplified_crop_growth_model weather_data config data))
      end
  end.

(** [MLService.predict_crop_yield] on a crop dict. *)
Definition predict_crop_yield (daily_growth : list Q) (config : dict)
    (crop : dict) : outcome Q :=
  let planting_density := get config "planting_density" 25 in
  let field_size := get config "field_size" 10000 in
  and_then (item crop "typical_yield_per_plant") (fun per_plant =>
  let base_yield := per_plant * planting_density * field_size in
  and_then (item crop "growth_period_days") (fun period =>
  and_then (lift (Crop.average_growth daily_growth (Qfloor period)))
    (fun avg_growth_factor =>
  inr (base_yield * avg_growth_factor)))).

(** The endpoint: 404 without the crop, 400 without weather, 500 when the
    [try] block raises. [finish] stands for the rest of the block (shadow
    patterns, water usage, assembling the answer). *)
Definition predict_endpoint {body : Type}
    (crop_model : option (list dict -> result (list Q)))
    (crop : option crop_row) (panel_config : dict) (weather_data : list dict)
    (finish : list Q -> Q -> outcome body) : Router.response body :=
  match crop with
  | None => Router.NotFound
  | Some c =>
      match weather_data with
      | [] => Router.BadRequest
      | _ :: _ =>
          let crop_dict := crop_dict c in
          match
            and_then
              (predict_crop_growth crop_model weather_data panel_config
                 crop_dict)
              (fun daily_growth =>
            and_then (predict_crop_yield daily_growth panel_config crop_dict)
              (fun total_yield => finish daily_growth total_yield))
          with
          | inl _ => Router.ServerError
          | inr answer => Router.Ok answer
          end
      end
  end.

End CropPrediction.

(** ** What the sampled candidates are expected to satisfy *)

(** A candidate whose four numbers lie within the bounds of the
    constraints and whose tracking type is one of the options (or
    [fixed] without options). *)
Definition within_constraints (c : Optimizer.constraints)
    (cand : Optimizer.candidate) : Prop :=
  let b := Optimizer.bounds c in
  Py.get b "min_panel_height" 1.5 <= Optimizer.panel_height cand
    <= Py.get b "max_panel_height" 4
  /\ Py.get b "min_panel_angle" 10 <= Optimizer.panel_angle cand
     <= Py.get b "max_panel_angle" 40
  /\ Py.get b "min_panel_spacing" 3 <= Optimizer.panel_spacing cand
     <= Py.get b "max_panel_spacing" 8
  /\ Py.get b "min_irrigation" 0 <= Optimizer.irrigation_amount cand
     <= Py.get b "max_irrigation" 10
  /\ match Optimizer.tracking_options c with
     | Some options => In (Optimizer.tracking_type cand) options
     | None => Optimizer.tracking_type cand = "fixed"%string
     end.

(** ** What the capital items of a project are expected to satisfy *)

Definition costs_not_negative (config : Py.dict) : Prop :=
  0 <= Py.get config "panel_cost" 250
  /\ 0 <= Py.get config "mounting_cost" 150
  /\ 0 <= Py.get config "num_panels" 100
  /\ 0 <= Py.get config "inverter_cost" 10000
  /\ 0 <= Py.get config "installation_cost" 15000
  /\ 0 <= Py.get config "ag_equipment_cost" 5000.

(** ** [len(l)] as a number *)

Definition count (l : list Q) : Q := inject_Z (Z.of_nat (length l)).

(** ** Inputs used in the examples *)

Section Samples.
Import Py Crop Shadow Optimizer Orchestrator.

(** A clear day at 35 / 15 degrees with 5 kWh/m2 of radiation. *)
Definition warm_clear_day : dict :=
  list_to_map [("solar_radiation"%string, 5); ("temperature_high"%string, 35);
               ("temperature_low"%string, 15); ("cloud_cover"%string, 0)].

(** A clear day at 300 degrees. *)
Definition scorching_day : dict :=
  list_to_map [("solar_radiation"%string, 5); ("temperature_high"%string, 300);
               ("temperature_low"%string, 300); ("cloud_cover"%string, 0)].

(** A clear day at 40 / 20 degrees. *)
Definition hot_clear_day : dict :=
  list_to_map [("solar_radiation"%string, 5); ("temperature_high"%string, 40);
               ("temperature_low"%string, 20); ("cloud_cover"%string, 0)].

(** A fully overcast day at 30 / 20 degrees. *)
Definition overcast_day : dict :=
  list_to_map [("solar_radiation"%string, 4); ("temperature_high"%string, 30);
               ("temperature_low"%string, 20); ("cloud_cover"%string, 1)].

(** Panels of 5 % efficiency. *)
Definition thin_film_config : dict :=
  list_to_map [("panel_efficiency"%string, 0.05)].

(** A crop without shade tolerance; the crop schema accepts 0. *)
Definition shade_intolerant_crop : crop_data := {|
  growth_period_days := 60;
  optimal_temp_min := 15;
  optimal_temp_max := 25;
  water_requirement_mm_day := 4.5;
  shade_tolerance := 0;
  typical_yield_per_plant := 0.25
|}.

(** A crop that is harvested after two days. *)
Definition two_day_crop : crop_data := {|
  growth_period_days := 2;
  optimal_temp_min := 15;
  optimal_temp_max := 25;
  water_requirement_mm_day := 4.5;
  shade_tolerance := 0.7;
  typical_yield_per_plant := 0.25
|}.

(** A day at 2 / -8 degrees. *)
Definition frosty_day : dict :=
  list_to_map [("temperature_high"%string, 2);
               ("temperature_low"%string, - 8);
               ("precipitation"%string, 0)].

(** A day without rain, and a configuration without irrigation. *)
Definition dry_day : dict :=
  list_to_map [("temperature_high"%string, 25); ("temperature_low"%string, 15);
               ("precipitation"%string, 0)].

Definition dry_config : dict :=
  list_to_map [("irrigation_amount"%string, 0)].

(** Full shadow coverage; the prediction request schema accepts 100. *)
Definition full_shadow_config : dict :=
  list_to_map [("shadow_coverage_percent"%string, 100)].

(** A mild day with 10 mm of rain. *)
Definition mild_wet_day : dict :=
  list_to_map [("temperature_high"%string, 25); ("temperature_low"%string, 15);
               ("precipitation"%string, 10)].

(** A mild day with 3 mm of rain. *)
Definition light_rain_day : dict :=
  list_to_map [("temperature_high"%string, 25); ("temperature_low"%string, 15);
               ("precipitation"%string, 3)].

(** A learned crop model whose prediction fails. *)
Definition raising_crop_model : Crop.learned_model :=
  fun _ _ _ => raise (ModelError "predict failed").

(** 1 mm/day of irrigation. *)
Definition light_irrigation_config : dict :=
  list_to_map [("irrigation_amount"%string, 1)].

(** Two days for the shadow model, which reads none of their fields. *)
Definition two_days : list rdict := [∅; ∅].

(** A field of one square metre under the default array of 10 x 10 panels
    of width 1. *)
Definition tiny_field_config : rdict :=
  list_to_map [("field_size"%string, 1%R)].

(** A record whose low temperature exceeds its high temperature. *)
Definition inverted_day : dict :=
  list_to_map [("temperature_high"%string, 10); ("temperature_low"%string, 20);
               ("precipitation"%string, 2)].

(** A stand-in for the square root on the rationals; it is never called on
    [inverted_day]. *)
Definition crude_sqrt (x : Q) : Q := x.

(** A random source that cycles through eleven values of [[0, 1)]. *)
Definition cycling_source : random_source := {|
  sample := fun k => inject_Z (Z.of_nat ((7 * k) mod 11)) / 11;
  pick := fun i n => (i mod n)%nat
|}.

(** Constraints that leave every bound to its default and offer two
    tracking types. *)
Definition two_tracking_options : constraints := {|
  bounds := ∅;
  tracking_options := Some ["fixed"%string; "single-axis"%string]
|}.

(** A project whose equipment costs nothing, one discounted at -100 %, one
    whose lifetime is written as a float and one that sells nothing. *)
Definition free_equipment_config : typed_dict :=
  list_to_map [("panel_cost"%string, PyInt 0);
               ("mounting_cost"%string, PyInt 0);
               ("inverter_cost"%string, PyInt 0);
               ("installation_cost"%string, PyInt 0);
               ("ag_equipment_cost"%string, PyInt 0)].

Definition total_discount_config : typed_dict :=
  list_to_map [("discount_rate"%string, PyInt (-1))].

Definition float_lifetime_config : typed_dict :=
  list_to_map [("project_lifetime"%string, PyFloat 25)].

Definition unprofitable_config : typed_dict :=
  list_to_map [("energy_production_annual"%string, PyInt 0);
               ("energy_price"%string, PyFloat 0.12);
               ("crop_price"%string, PyInt 0)].

(** A field without panels, and the day on which the examples run. *)
Definition no_panels_config : dict :=
  list_to_map [("num_panels"%string, 0)].

Definition mid_january : Energy.date :=
  {| Energy.year := 2025; Energy.month := 1; Energy.day := 15 |}.

(** An array that produces no energy. *)
Definition idle_array_config : dict :=
  list_to_map [("energy_production_annual"%string, 0)].

(** Two candidates that differ in everything but the irrigation. *)
Definition low_flat_candidate : candidate := {|
  panel_height := 1.5;
  panel_angle := 10;
  panel_spacing := 8;
  irrigation_amount := 4;
  tracking_type := "fixed"
|}.

Definition tall_steep_candidate : candidate := {|
  panel_height := 4;
  panel_angle := 40;
  panel_spacing := 3;
  irrigation_amount := 4;
  tracking_type := "dual-axis"
|}.

(** Every bound pinned to one value. *)
Definition pinned_constraints : constraints := {|
  bounds :=
    list_to_map
      [("min_panel_height"%string, 2); ("max_panel_height"%string, 2);
       ("min_panel_angle"%string, 30); ("max_panel_angle"%string, 30);
       ("min_panel_spacing"%string, 5); ("max_panel_spacing"%string, 5);
       ("min_irrigation"%string, 4); ("max_irrigation"%string, 4)];
  tracking_options := None
|}.

(** No learned model on disk, and the models loaded except the two
    predictors. *)
Definition no_models : ml_service := {|
  energy_model := None;
  crop_model := None;
  optimization_model := false
|}.

Definition ranking_model_only : ml_service := {|
  energy_model := None;
  crop_model := None;
  optimization_model := true
|}.

(** A crop step that divides by zero. *)
Definition failing_crop_step (_ : unit) (_ : list nat) : result nat :=
  raise ZeroDivisionError.

(** A step that returns. *)
Definition constant_step (_ : unit) (_ : list nat) : result nat := ret 1%nat.

(** A run that has not started. *)
Definition pending_run : @simulation unit nat nat nat nat nat nat nat := {|
  sim_status := Pending;
  sim_parameters := tt;
  sim_results := None;
  sim_completed_at := None
|}.

(** A session that holds it. *)
Definition pending_db : db :=
  {| row := Some pending_run; committed := Some pending_run |}.

(** A run in progress, and a session that holds it. *)
Definition running_run : @simulation unit nat nat nat nat nat nat nat := {|
  sim_status := Running;
  sim_parameters := tt;
  sim_results := None;
  sim_completed_at := None
|}.

Definition running_db : db :=
  {| row := Some running_run; committed := Some running_run |}.

(** The same draws every day, and a calendar that starts on 1 January. *)
Definition steady_draws (_ : nat) : SyntheticWeather.draws := {|
  SyntheticWeather.u_temp := 0.5%R;
  SyntheticWeather.u_rain_gate := 0.5%R;
  SyntheticWeather.rain_amount := 3%R;
  SyntheticWeather.u_cloud := 0.5%R;
  SyntheticWeather.u_solar := 0.5%R;
  SyntheticWeather.wind_gamma := 4%R;
  SyntheticWeather.wind_randint := 180;
  SyntheticWeather.u_humidity := 0.5%R
|}.

Definition from_new_year (i : nat) : Z := Z.of_nat i + 1.

(** A row of the crop table. *)
Definition lettuce_row : CropPrediction.crop_row := {|
  CropPrediction.row_growth_period_days := 60;
  CropPrediction.optimal_temperature_min := 15;
  CropPrediction.optimal_temperature_max := 25;
  CropPrediction.row_water_requirement_mm_day := 4.5;
  CropPrediction.row_shade_tolerance := 0.7;
  CropPrediction.typical_yield_per_sqm := 3
|}.

(** Constraints with an empty list of tracking options, and constraints
    that pin the row spacing to 0. *)
Definition no_tracking_options : constraints := {|
  bounds := ∅;
  tracking_options := Some []
|}.

Definition touching_rows : constraints := {|
  bounds := list_to_map [("min_panel_spacing"%string, 0);
                         ("max_panel_spacing"%string, 0)];
  tracking_options := None
|}.

(** Parameters that name a stored series and also carry custom data. *)
Definition stale_id_params : WeatherSource.weather_params := {|
  WeatherSource.weather_data_id := Some 12%Z;
  WeatherSource.custom_weather_data :=
    Some [SyntheticWeather.synthetic_day 40 (- 75) 1 (steady_draws 0)];
  WeatherSource.location := None;
  WeatherSource.duration_days := Some 30%Z
|}.

End Samples.

(** * Part II: properties *)

(** ** Builtins *)

Section PyFacts.
Import Py.

Lemma max_lower (a b : Q) : a <= max a b.
Proof. unfold max. destruct (Qlt_le_dec a b); Lqa.lra. Qed.

Lemma max_upper (a b c : Q) : a <= c -> b <= c -> max a b <= c.
Proof. unfold max. destruct (Qlt_le_dec a b); Lqa.lra. Qed.

Lemma min_upper (a b : Q) : min a b <= a.
Proof. unfold min. destruct (Qlt_le_dec b a); Lqa.lra. Qed.

(** A stress clamped by [max(0.1, min(1.0, _))] lies in [[0.1, 1]]. *)
Lemma clamp_range (x : Q) : 0.1 <= max 0.1 (min 1 x) <= 1.
Proof.
  split.
  - apply max_lower.
  - apply max_upper; [Lqa.lra | apply min_upper].
Qed.

Lemma div_nonzero (a b : Q) : ~ b == 0 -> div a b = ret (a / b).
Proof.
  intros Hb. unfold div.
  destruct (Qeq_bool b 0) eqn:E; [| reflexivity].
  apply Qeq_bool_iff in E. contradiction.
Qed.

Lemma div_zero (a b : Q) : b == 0 -> div a b = raise ZeroDivisionError.
Proof.
  intros Hb. unfold div. apply Qeq_bool_iff in Hb. now rewrite Hb.
Qed.

Lemma get_some (d : dict) (k : string) (dflt v : Q) :
  d !! k = Some v -> get d k dflt = v.
Proof. intros H. unfold get. now rewrite H. Qed.

(** Reading position [i] of a list built by a comprehension. *)
Lemma lookup_map {A B : Type} (f : A -> B) (l : list A) (i : nat) (a : A) :
  l !! i = Some a -> map f l !! i = Some (f a).
Proof.
  revert i. induction l as [| x l IH]; intros [| i] H; simpl in *;
    try discriminate.
  - now inversion H.
  - now apply IH.
Qed.

End PyFacts.

(** ** Energy production *)

Section EnergyFacts.
Import Py Energy.

(** On [warm_clear_day] with the default configuration the formula of the
    specification gives 163.2 kWh, [_simplified_energy_model] 170 kWh (its
    derating uses the average temperature, here 25 degrees) and the
    [except] branch of [_simulate_energy_production] 136 kWh (it adds the
    temperature term to the efficiency). *)
Lemma energy_formula_counterexample :
  ~ (simplified_energy_day ∅ warm_clear_day == spec_energy_day ∅ 5 35 0
     /\ fallback_energy_day ∅ warm_clear_day == spec_energy_day ∅ 5 35 0).
Proof. vm_compute. intros [H _]. discriminate H. Qed.

Example energy_formula_values :
  spec_energy_day ∅ 5 35 0 == 163.2
  /\ simplified_energy_day ∅ warm_clear_day == 170
  /\ fallback_energy_day ∅ warm_clear_day == 136.
Proof. vm_compute. repeat split. Qed.

(** What one iteration of [_simplified_energy_model] computes, in the
    shape of the specification's formula. *)
Lemma simplified_energy_day_formula (config day : dict) :
  let panel_efficiency := get config "panel_efficiency" 0.2 in
  let panel_area := get config "panel_area" 1.7 in
  let num_panels := get config "num_panels" 100 in
  let temp_avg :=
    (get day "temperature_high" 25 + get day "temperature_low" 15) / 2 in
  let efficiency_factor :=
    panel_efficiency * (1 + - 0.004 * (temp_avg - 25))
    * (1 - get day "cloud_cover" 0 * 0.7) in
  simplified_energy_day config day
  == get day "solar_radiation" 5 * panel_area * num_panels * efficiency_factor.
Proof. unfold simplified_energy_day. cbv zeta. ring. Qed.

(** What one iteration of the [except] branch computes on a record that
    holds the three numbers. *)
Lemma fallback_energy_day_formula (config day : dict) (sr th cc : Q) :
  day !! "solar_radiation" = Some sr ->
  day !! "temperature_high" = Some th ->
  day !! "cloud_cover" = Some cc ->
  fallback_energy_day config day
  == sr * get config "panel_area" 1.7 * get config "num_panels" 100
     * ((get config "panel_efficiency" 0.2
         + get config "temp_coefficient" (- 0.004)
           * (th - get config "reference_temp" 25))
        * (1 - cc * 0.7)).
Proof.
  intros Hsr Hth Hcc. unfold fallback_energy_day.
  rewrite Hsr, Hth, Hcc. cbv zeta. ring.
Qed.

(** C1 (amended). For every weather series and configuration, the entry of
    [_simplified_energy_model] for a day whose record holds solar
    radiation, high and low temperature and cloud cover is
    solar_radiation * panel_area * num_panels * efficiency_factor with
    efficiency_factor = panel_efficiency * (1 - 0.004 * (temp_avg - 25))
    * (1 - cloud_cover * 0.7), where temp_avg is the mean of the high and
    the low temperature; the coefficient and the reference temperature are
    constants of the code, not read from the configuration. *)
Theorem simplified_energy_model_formula
    (config : dict) (weather_data : list dict) (i : nat) (day : dict)
    (sr th tl cc : Q) :
  weather_data !! i = Some day ->
  day !! "solar_radiation" = Some sr ->
  day !! "temperature_high" = Some th ->
  day !! "temperature_low" = Some tl ->
  day !! "cloud_cover" = Some cc ->
  exists energy,
    _simplified_energy_model weather_data config !! i = Some energy
    /\ energy
       == sr * get config "panel_area" 1.7 * get config "num_panels" 100
          * (get config "panel_efficiency" 0.2
             * (1 + - 0.004 * ((th + tl) / 2 - 25))
             * (1 - cc * 0.7)).
Proof.
  intros Hday Hsr Hth Htl Hcc.
  exists (simplified_energy_day config day). split.
  - unfold _simplified_energy_model.
    now apply lookup_map.
  - rewrite simplified_energy_day_formula. cbv zeta.
    rewrite (get_some _ _ _ _ Hsr), (get_some _ _ _ _ Hth),
      (get_some _ _ _ _ Htl), (get_some _ _ _ _ Hcc).
    ring.
Qed.

Lemma simplified_energy_model_formula_witness :
  exists energy,
    _simplified_energy_model [warm_clear_day] ∅ !! 0%nat = Some energy
    /\ energy
       == 5 * get ∅ "panel_area" 1.7 * get ∅ "num_panels" 100
          * (get ∅ "panel_efficiency" 0.2
             * (1 + - 0.004 * ((35 + 15) / 2 - 25))
             * (1 - 0 * 0.7)).
Proof.
  apply (simplified_energy_model_formula ∅ [warm_clear_day] 0 warm_clear_day
           5 35 15 0); reflexivity.
Defined.

(** With no cloud, positive radiation and a positive efficiency, area and
    panel count, [_simplified_energy_model] yields -17 kWh on
    [scorching_day] (its derating factor is 1 - 0.004 * 275 = -0.1), and
    the [except] branch of [_simulate_energy_production] yields -8.5 kWh on
    [hot_clear_day] for [thin_film_config] (0.05 - 0.004 * 15 = -0.01). *)
Lemma energy_positive_counterexample :
  (0 < get ∅ "panel_efficiency" 0.2
   /\ 0 < get ∅ "panel_area" 1.7
   /\ 0 < get ∅ "num_panels" 100
   /\ scorching_day !! "cloud_cover" = Some 0
   /\ scorching_day !! "solar_radiation" = Some 5
   /\ simplified_energy_day ∅ scorching_day == - 17)
  /\ (0 < get thin_film_config "panel_efficiency" 0.2
      /\ 0 < get thin_film_config "panel_area" 1.7
      /\ 0 < get thin_film_config "num_panels" 100
      /\ hot_clear_day !! "cloud_cover" = Some 0
      /\ hot_clear_day !! "solar_radiation" = Some 5
      /\ fallback_energy_day thin_film_config hot_clear_day == - 8.5)
  /\ ~ (0 < simplified_energy_day ∅ scorching_day)
  /\ ~ (0 < fallback_energy_day thin_film_config hot_clear_day).
Proof. vm_compute. repeat split; intros H; discriminate H. Qed.

Lemma simplified_energy_day_positive (config day : dict) :
  0 < get config "panel_efficiency" 0.2 ->
  0 < get config "panel_area" 1.7 ->
  0 < get config "num_panels" 100 ->
  get day "cloud_cover" 0 == 0 ->
  0 < get day "solar_radiation" 5 ->
  (get day "temperature_high" 25 + get day "temperature_low" 15) / 2 < 275 ->
  0 < simplified_energy_day config day.
Proof.
  intros Hpe Hpa Hn Hcc Hsr Ht.
  unfold simplified_energy_day. cbv zeta. rewrite Hcc.
  repeat apply Qmult_lt_0_compat; try assumption; Lqa.lra.
Qed.

(** C4 (amended). For every weather sequence in which every day has
    cloud_cover = 0, solar_radiation > 0 and an average temperature below
    275 degrees (so that the derating factor 1 - 0.004 * (temp_avg - 25) is
    positive), and every configuration with positive panel_efficiency,
    panel_area and num_panels, the daily energy of
    [_simplified_energy_model] is strictly positive on every day. *)
Theorem simplified_energy_model_positive
    (config : dict) (weather_data : list dict) :
  0 < get config "panel_efficiency" 0.2 ->
  0 < get config "panel_area" 1.7 ->
  0 < get config "num_panels" 100 ->
  Forall (fun day =>
            get day "cloud_cover" 0 == 0
            /\ 0 < get day "solar_radiation" 5
            /\ (get day "temperature_high" 25
                + get day "temperature_low" 15) / 2 < 275)
         weather_data ->
  Forall (fun energy => 0 < energy)
         (_simplified_energy_model weather_data config).
Proof.
  intros Hpe Hpa Hn Hdays. unfold _simplified_energy_model.
  induction Hdays as [| day rest (Hcc & Hsr & Ht) _ IH]; simpl.
  - constructor.
  - constructor; [| exact IH].
    now apply simplified_energy_day_positive.
Qed.

Lemma simplified_energy_model_positive_witness :
  Forall (fun energy => 0 < energy)
         (_simplified_energy_model [warm_clear_day; hot_clear_day] ∅).
Proof.
  apply simplified_energy_model_positive; try reflexivity.
  repeat constructor; vm_compute; reflexivity.
Defined.

End EnergyFacts.

(** ** Crop growth and yield *)

Section CropFacts.
Import Py Crop.

Lemma ml_temp_stress_range (crop : crop_data) (day : dict) :
  0.1 <= ml_temp_stress crop day <= 1.
Proof. unfold ml_temp_stress. cbv zeta. apply clamp_range. Qed.

Lemma ml_water_stress_range (config : dict) (crop : crop_data) (day : dict) :
  ~ water_requirement_mm_day crop == 0 ->
  exists stress,
    ml_water_stress config crop day = inr stress /\ 0.1 <= stress <= 1.
Proof.
  intros Hreq. unfold ml_water_stress. cbv zeta.
  rewrite (div_nonzero _ _ Hreq). simpl.
  eexists. split; [reflexivity | apply clamp_range].
Qed.

Lemma fallback_temp_stress_range (crop : crop_data) (day : dict) :
  0.1 <= fallback_temp_stress crop day <= 1.
Proof.
  unfold fallback_temp_stress.
  destruct (day !! "temperature_high"); [destruct (day !! "temperature_low") |].
  - cbv zeta. apply clamp_range.
  - split; Lqa.lra.
  - split; Lqa.lra.
Qed.

(** The shade stress has no floor: it is below 0.1 as soon as
    coverage * (1 - tolerance) exceeds 0.9. *)
Lemma ml_shade_stress_range (config : dict) (crop : crop_data) :
  0 <= get config "shadow_coverage_percent" 30 <= 100 ->
  0.1 <= shade_tolerance crop <= 1 ->
  0.1 <= ml_shade_stress config crop <= 1.
Proof.
  intros [Hc0 Hc1] [Ht0 Ht1]. unfold ml_shade_stress. cbv zeta.
  set (c := get config "shadow_coverage_percent" 30) in *.
  set (t := shade_tolerance crop) in *.
  assert (Hx : 0 <= c / 100 <= 1).
  { split.
    - apply Qle_shift_div_l; Lqa.lra.
    - apply Qle_shift_div_r; Lqa.lra. }
  set (x := c / 100) in *. split; Lqa.nra.
Qed.

Lemma product_of_stresses_range (t w s : Q) :
  0.1 <= t <= 1 -> 0.1 <= w <= 1 -> 0.1 <= s <= 1 ->
  0.001 <= t * w * s <= 1.
Proof.
  intros [Ht0 Ht1] [Hw0 Hw1] [Hs0 Hs1].
  assert (Htw : 0.01 <= t * w <= 1) by (split; Lqa.nra).
  set (p := t * w) in *. split; Lqa.nra.
Qed.

(** There the temperature and water stresses are 1, the shade stress is
    1 - 1 * (1 - 0) = 0, below the alleged floor, and the growth factor is
    0, below 0.001. *)
Lemma growth_factor_counterexample :
  ml_temp_stress shade_intolerant_crop mild_wet_day == 1
  /\ (exists w, ml_water_stress full_shadow_config shade_intolerant_crop
                  mild_wet_day = inr w /\ w == 1)
  /\ ml_shade_stress full_shadow_config shade_intolerant_crop == 0
  /\ ~ (0.1 <= ml_shade_stress full_shadow_config shade_intolerant_crop)
  /\ exists g,
       _simplified_crop_growth_model [mild_wet_day] full_shadow_config
         shade_intolerant_crop = inr [g]
       /\ ~ (0.001 <= g <= 1).
Proof.
  split; [vm_compute; reflexivity |].
  split; [eexists; split; [vm_compute; reflexivity | vm_compute; reflexivity] |].
  split; [vm_compute; reflexivity |].
  split; [vm_compute; intros H; now apply H |].
  eexists. split; [vm_compute; reflexivity |].
  vm_compute. intros [H _]. now apply H.
Qed.

(** C2 (amended). For every weather day, the simplified crop growth model
    floors the temperature stress and the water stress at 0.1 (each lies in
    [0.1, 1]); the shade stress is not floored, it is
    1 - coverage * (1 - shade_tolerance). Whenever the crop's water
    requirement is not zero, the configured shadow coverage lies in
    [0, 100] percent and the shade tolerance in [0.1, 1], the model returns
    one growth factor per day and each lies in [0.001, 1]. *)
Theorem crop_growth_factor_range
    (config : dict) (crop : crop_data) (weather_data : list dict) :
  ~ water_requirement_mm_day crop == 0 ->
  0 <= get config "shadow_coverage_percent" 30 <= 100 ->
  0.1 <= shade_tolerance crop <= 1 ->
  exists daily_growth,
    _simplified_crop_growth_model weather_data config crop = inr daily_growth
    /\ Forall2
         (fun day growth_factor =>
            0.1 <= ml_temp_stress crop day <= 1
            /\ (exists water_stress,
                  ml_water_stress config crop day = inr water_stress
                  /\ 0.1 <= water_stress <= 1
                  /\ growth_factor
                     == ml_temp_stress crop day * water_stress
                        * (1 - get config "shadow_coverage_percent" 30 / 100
                               * (1 - shade_tolerance crop)))
            /\ 0.001 <= growth_factor <= 1)
         weather_data daily_growth.
Proof.
  intros Hreq Hcov Htol.
  induction weather_data as [| day rest IH]; simpl.
  - exists []. split; [reflexivity | constructor].
  - destruct IH as (growth & Hrest & Hall).
    destruct (ml_water_stress_range config crop day Hreq) as (w & Hw & Hwr).
    unfold ml_growth_day. cbv zeta. rewrite Hw. simpl. rewrite Hrest. simpl.
    eexists. split; [reflexivity |].
    constructor; [| exact Hall].
    split; [apply ml_temp_stress_range |].
    split.
    + exists w. split; [exact Hw | split; [exact Hwr |]].
      unfold ml_shade_stress. reflexivity.
    + apply product_of_stresses_range.
      * apply ml_temp_stress_range.
      * exact Hwr.
      * now apply ml_shade_stress_range.
Qed.

Lemma crop_growth_factor_range_witness :
  exists daily_growth,
    _simplified_crop_growth_model [mild_wet_day; mild_wet_day]
      full_shadow_config default_crop_data = inr daily_growth
    /\ Forall2
         (fun day growth_factor =>
            0.1 <= ml_temp_stress default_crop_data day <= 1
            /\ (exists water_stress,
                  ml_water_stress full_shadow_config default_crop_data day
                  = inr water_stress
                  /\ 0.1 <= water_stress <= 1
                  /\ growth_factor
                     == ml_temp_stress default_crop_data day * water_stress
                        * (1 - get full_shadow_config
                                 "shadow_coverage_percent" 30 / 100
                               * (1 - shade_tolerance default_crop_data)))
            /\ 0.001 <= growth_factor <= 1)
         [mild_wet_day; mild_wet_day] daily_growth.
Proof.
  apply (crop_growth_factor_range full_shadow_config default_crop_data
           [mild_wet_day; mild_wet_day]).
  - vm_compute. discriminate.
  - vm_compute. split; discriminate.
  - vm_compute. split; discriminate.
Defined.

(** *** Water stress *)

(** [_simplified_crop_growth_model] computes the water stress of the
    specification: the efficiency scales the irrigation only. *)
Lemma ml_water_stress_spec (config : dict) (crop : crop_data) (day : dict) :
  ~ water_requirement_mm_day crop == 0 ->
  ml_water_stress config crop day
  = inr (spec_water_stress (get day "precipitation" 0)
           (get config "irrigation_amount" 5)
           (get config "irrigation_efficiency" 0.85)
           (water_requirement_mm_day crop)).
Proof.
  intros Hreq. unfold ml_water_stress, spec_water_stress. cbv zeta.
  now rewrite (div_nonzero _ _ Hreq).
Qed.

(** The [except] branch of [_simulate_crop_yield] scales the sum of
    precipitation and irrigation. *)
Lemma fallback_water_stress_formula (config : dict) (crop : crop_data)
    (day : dict) (precipitation : Q) :
  ~ water_requirement_mm_day crop == 0 ->
  day !! "precipitation" = Some precipitation ->
  fallback_water_stress config crop day
  = inr (max 0.1
           (min 1 ((precipitation + get config "irrigation_amount" 0)
                   * get config "irrigation_efficiency" 0.85
                   / water_requirement_mm_day crop))).
Proof.
  intros Hreq Hp. unfold fallback_water_stress. cbv zeta. rewrite Hp.
  now rewrite (div_nonzero _ _ Hreq).
Qed.

(** C3 (failing input). On [light_rain_day] with 1 mm/day of irrigation at
    the default efficiency 0.85 and a requirement of 4.5 mm/day, the claim
    gives min(1, (3 + 1 * 0.85) / 4.5) = 77/90, and so does
    [_simplified_crop_growth_model]; the [except] branch of
    [_simulate_crop_yield], which runs when the learned crop model raises,
    computes (3 + 1) * 0.85 / 4.5 = 34/45 and from it the growth factor
    1 * 34/45 * 0.94 = 799/1125. *)
Theorem fallback_water_stress_scales_precipitation :
  spec_water_stress 3 1 0.85 4.5 == 77 # 90
  /\ (exists w,
        ml_water_stress light_irrigation_config default_crop_data
          light_rain_day = inr w /\ w == 77 # 90)
  /\ (exists w,
        fallback_water_stress light_irrigation_config default_crop_data
          light_rain_day = inr w
        /\ w == 34 # 45
        /\ ~ w == spec_water_stress 3 1 0.85 4.5)
  /\ total_yield (Some raising_crop_model) light_irrigation_config
       [light_rain_day]
     = fallback_total_yield light_irrigation_config [light_rain_day]
  /\ (exists g,
        fallback_daily_growth light_irrigation_config [light_rain_day]
        = inr [g]
        /\ g == 799 # 1125).
Proof.
  split; [vm_compute; reflexivity |].
  split; [eexists; split; vm_compute; reflexivity |].
  split.
  { eexists. split; [vm_compute; reflexivity |].
    split; vm_compute; [reflexivity | discriminate]. }
  split; [reflexivity |].
  eexists. split; vm_compute; reflexivity.
Qed.

(** *** Total yield *)

Lemma average_growth_empty (period : Z) :
  (0 <= period)%Z -> average_growth [] period = raise ZeroDivisionError.
Proof.
  intros Hp. unfold average_growth, min_int. cbv zeta. simpl length.
  assert (Hn : (if (Z.of_nat 0 <? period)%Z then Z.of_nat 0 else period) = 0%Z).
  { destruct (Z.ltb_spec (Z.of_nat 0) period); simpl in *; lia. }
  rewrite Hn. reflexivity.
Qed.

Lemma average_growth_nonempty (daily_growth : list Q) (period : Z) :
  daily_growth <> [] -> (0 < period)%Z ->
  exists avg, average_growth daily_growth period = inr avg.
Proof.
  intros Hne Hp. unfold average_growth. cbv zeta.
  set (n := min_int period (Z.of_nat (length daily_growth))).
  assert (Hn : (0 < n)%Z).
  { unfold n, min_int. destruct daily_growth as [| g l]; [congruence |].
    destruct (Z.ltb_spec (Z.of_nat (length (g :: l))) period);
      simpl length in *; lia. }
  rewrite div_nonzero; [eexists; reflexivity |].
  intros H. unfold Qeq in H. simpl in H. lia.
Qed.

(** A non-empty series and a positive growth period give a yield. *)
Lemma predict_crop_yield_nonempty (daily_growth : list Q) (config : dict)
    (crop : crop_data) :
  daily_growth <> [] -> (0 < growth_period_days crop)%Z ->
  exists y, predict_crop_yield daily_growth config crop = inr y.
Proof.
  intros Hne Hp. unfold predict_crop_yield. cbv zeta.
  destruct (average_growth_nonempty daily_growth _ Hne Hp) as (avg & Havg).
  rewrite Havg. simpl. eexists. reflexivity.
Qed.

(** C10. For the empty weather series the total crop yield is undefined:
    with a growth period that is not negative, [predict_crop_yield]
    divides the sum of the first min(growth_period_days, 0) = 0 growth
    factors by 0 and raises a division-by-zero error; so does the fallback
    of [_simulate_crop_yield], and therefore [_simulate_crop_yield] itself
    when no learned model is loaded. *)
Theorem crop_yield_empty_series (config : dict) (crop : crop_data) :
  (0 <= growth_period_days crop)%Z ->
  min_int (growth_period_days crop) (Z.of_nat (length (@nil Q))) = 0%Z
  /\ predict_crop_yield [] config crop = raise ZeroDivisionError
  /\ fallback_total_yield config [] = raise ZeroDivisionError
  /\ forall random,
       _simulate_crop_yield None random config [] = raise ZeroDivisionError.
Proof.
  intros Hp. split; [| split; [| split]].
  - unfold min_int. simpl length.
    destruct (Z.ltb_spec (Z.of_nat 0) (growth_period_days crop));
      simpl in *; lia.
  - unfold predict_crop_yield. cbv zeta.
    now rewrite (average_growth_empty _ Hp).
  - reflexivity.
  - intros random. reflexivity.
Qed.

Lemma crop_yield_empty_series_witness :
  min_int (growth_period_days default_crop_data)
    (Z.of_nat (length (@nil Q))) = 0%Z
  /\ predict_crop_yield [] ∅ default_crop_data = raise ZeroDivisionError
  /\ fallback_total_yield ∅ [] = raise ZeroDivisionError
  /\ forall random,
       _simulate_crop_yield None random ∅ [] = raise ZeroDivisionError.
Proof.
  apply (crop_yield_empty_series ∅ default_crop_data). vm_compute. discriminate.
Defined.

End CropFacts.

(** ** Shadow geometry *)

Section ShadowFacts.
Import Py Shadow.
Local Open Scope R_scope.

Lemma rmax_lower (a b : R) : a <= rmax a b.
Proof. unfold rmax. destruct (Rlt_dec a b); Lra.lra. Qed.

Lemma rmin_range (b : R) : 0 <= b -> 0 <= rmin 1 b <= 1.
Proof. intros Hb. unfold rmin. destruct (Rlt_dec b 1); Lra.lra. Qed.

Lemma rdiv_nonzero (a b : R) : b <> 0 -> rdiv a b = ret (a / b).
Proof. intros Hb. unfold rdiv. now destruct (Req_dec_T b 0). Qed.

Lemma rdiv_zero (a : R) : rdiv a 0 = raise ZeroDivisionError.
Proof. unfold rdiv. now destruct (Req_dec_T 0 0). Qed.

Lemma shadow_length_nonneg (config : rdict) (i : nat) :
  0 <= shadow_length config i.
Proof. unfold shadow_length. cbv zeta. apply rmax_lower. Qed.

(** A tilt between 0 and 90 degrees has a sine that is not negative. *)
Lemma sin_tilt_nonneg (angle : R) :
  0 <= angle <= 90 -> 0 <= sin (radians angle).
Proof.
  intros [H0 H90]. unfold radians. pose proof PI_RGT_0 as Hpi.
  apply sin_ge_0.
  - apply Rmult_le_pos; [apply Rmult_le_pos |]; Lra.lra.
  - assert (H : angle * PI <= 90 * PI) by (apply Rmult_le_compat_r; Lra.lra).
    Lra.lra.
Qed.

Section ValidGeometry.

Variable config : rdict.
Hypothesis width_pos : 0 < rget config "panel_width" 1.
Hypothesis rows_pos : 0 < rget config "panel_rows" 10.
Hypothesis per_row_pos : 0 < rget config "panels_per_row" 10.
Hypothesis field_pos : 0 < rget config "field_size" 10000.
Hypothesis angle_range : 0 <= rget config "panel_angle" 30 <= 90.

Lemma shadow_area_nonneg (i : nat) : 0 <= shadow_area config i.
Proof.
  unfold shadow_area. cbv zeta.
  pose proof (shadow_length_nonneg config i) as Hl.
  pose proof (sin_tilt_nonneg _ angle_range) as Hs.
  apply Rmult_le_pos; [apply Rmult_le_pos |]; try Lra.lra.
  pose proof (Rmult_le_pos _ _ Hl Hs). Lra.lra.
Qed.

Lemma coverage_range (i : nat) :
  exists c, coverage config i = inr c /\ 0 <= c <= 1.
Proof.
  unfold coverage. cbv zeta. rewrite rdiv_nonzero by Lra.lra. simpl.
  eexists. split; [reflexivity |]. apply rmin_range.
  apply Rmult_le_pos; [apply shadow_area_nonneg |].
  apply Rlt_le, Rinv_0_lt_compat, field_pos.
Qed.

Lemma shadow_days_range (weather_data : list rdict) (i : nat) :
  exists days,
    shadow_days config i weather_data = inr days
    /\ length days = length weather_data
    /\ Forall (fun p => 0 <= p <= 100) (map day_coverage_percent days).
Proof.
  revert i. induction weather_data as [| day rest IH]; intros i; simpl.
  - exists []. repeat split. constructor.
  - destruct (coverage_range i) as (c & Hc & Hc0 & Hc1).
    destruct (IH (S i)) as (days & Hdays & Hlen & Hall).
    rewrite Hc. simpl. rewrite Hdays. simpl.
    eexists. split; [reflexivity |]. split; [simpl; congruence |].
    simpl. constructor; [Lra.lra | exact Hall].
Qed.

End ValidGeometry.

(** The sum and the mean of percentages are percentages. *)
Lemma fold_sum_bounds (l : list R) (acc : R) :
  Forall (fun p => 0 <= p <= 100) l ->
  acc <= fold_left Rplus l acc <= acc + 100 * INR (length l).
Proof.
  intros Hall. revert acc.
  induction Hall as [| p l [Hp0 Hp1] _ IH]; intros acc.
  - simpl. Lra.lra.
  - cbn [fold_left]. specialize (IH (acc + p)).
    change (length (p :: l)) with (S (length l)). rewrite S_INR. Lra.lra.
Qed.

Lemma mean_percent_range (l : list R) :
  l <> [] -> Forall (fun p => 0 <= p <= 100) l ->
  0 <= rsum l / rlen l <= 100.
Proof.
  intros Hne Hall. unfold rsum, rlen.
  pose proof (fold_sum_bounds l 0 Hall) as [Hlo Hhi].
  assert (Hn : 0 < INR (length l)).
  { destruct l; [congruence |]. apply lt_0_INR. simpl. lia. }
  split.
  - apply Rmult_le_pos; [Lra.lra |]. now apply Rlt_le, Rinv_0_lt_compat.
  - apply Rmult_le_reg_r with (r := INR (length l)); [exact Hn |].
    unfold Rdiv. rewrite Rmult_assoc, Rinv_l by Lra.lra. Lra.lra.
Qed.

Lemma rlen_nonzero {A : Type} (l : list A) : l <> [] -> rlen l <> 0.
Proof.
  intros Hne. unfold rlen. destruct l; [congruence |].
  apply not_0_INR. discriminate.
Qed.

(** C5. For every valid panel geometry (positive panel height and width,
    positive row and panel counts, positive field size, tilt between 0 and
    90 degrees) and every latitude, the per-day shadow coverage fraction
    lies in [0, 1], [_simulate_shadow_patterns] returns for every weather
    series, the average coverage it reports lies in [0, 100] percent, and
    so does every per-day percentage; on a series that is not empty the
    result is the one of [calculate_shadow_patterns]. *)
Theorem shadow_coverage_range (config : rdict) (weather_data : list rdict) :
  0 < rget config "panel_height" 2.5 ->
  0 < rget config "panel_width" 1 ->
  0 < rget config "panel_rows" 10 ->
  0 < rget config "panels_per_row" 10 ->
  0 < rget config "field_size" 10000 ->
  0 <= rget config "panel_angle" 30 <= 90 ->
  (forall i, exists c, coverage config i = inr c /\ 0 <= c <= 1)
  /\ exists data,
       _simulate_shadow_patterns config weather_data = inr data
       /\ (weather_data <> [] ->
           calculate_shadow_patterns weather_data config = inr data)
       /\ 0 <= average_shadow_coverage_percent data <= 100
       /\ forall percents,
            daily_shadow_coverage_percent data = Some percents ->
            length percents = length weather_data
            /\ Forall (fun p => 0 <= p <= 100) percents.
Proof.
  intros _ Hw Hr Hp Hf Ha. split; [now apply coverage_range |].
  destruct weather_data as [| day rest].
  - assert (Hempty : calculate_shadow_patterns [] config
                      = raise ZeroDivisionError).
    { unfold calculate_shadow_patterns. simpl.
      change (rlen (@nil R)) with 0. now rewrite rdiv_zero. }
    unfold _simulate_shadow_patterns. rewrite Hempty.
    eexists. split; [reflexivity |]. split; [congruence |].
    split; [simpl; Lra.lra | intros percents H; discriminate H].
  - destruct (shadow_days_range config Hw Hr Hp Hf Ha (day :: rest) 0)
      as (days & Hdays & Hlen & Hall).
    assert (Hne : days <> []) by (destruct days; [discriminate | congruence]).
    assert (Hcalc : exists data,
               calculate_shadow_patterns (day :: rest) config = inr data
               /\ average_shadow_coverage_percent data
                  = rsum (map day_coverage_percent days)
                    / rlen (map day_coverage_percent days)
               /\ daily_shadow_coverage_percent data
                  = Some (map day_coverage_percent days)).
    { unfold calculate_shadow_patterns. rewrite Hdays. simpl bind. cbv zeta.
      destruct days as [| d ds]; [congruence |].
      rewrite !rdiv_nonzero by (apply rlen_nonzero; discriminate).
      simpl. eexists. repeat split. }
    destruct Hcalc as (data & Hdata & Havg & Hdaily).
    exists data. split; [| split; [| split]].
    + unfold _simulate_shadow_patterns. now rewrite Hdata.
    + intros _. exact Hdata.
    + rewrite Havg. apply mean_percent_range; [| exact Hall].
      destruct days; [congruence | discriminate].
    + intros percents H. rewrite Hdaily in H. inversion H; subst.
      split; [now rewrite length_map | exact Hall].
Qed.

Lemma shadow_coverage_range_witness :
  (forall i, exists c, coverage ∅ i = inr c /\ 0 <= c <= 1)
  /\ exists data,
       _simulate_shadow_patterns ∅ two_days = inr data
       /\ (two_days <> [] -> calculate_shadow_patterns two_days ∅ = inr data)
       /\ 0 <= average_shadow_coverage_percent data <= 100
       /\ forall percents,
            daily_shadow_coverage_percent data = Some percents ->
            length percents = length two_days
            /\ Forall (fun p => 0 <= p <= 100) percents.
Proof.
  apply (shadow_coverage_range ∅ two_days);
    unfold rget; rewrite ?lookup_empty; simpl; try split; Lra.lra.
Defined.

(** The [except] branch of [_simulate_shadow_patterns] has no [min(1, _)]:
    on its own it reports more than 100 percent for a field smaller than
    the array. The theorem above shows that with a valid geometry this
    branch only runs on the empty series, where it reports 0. *)
Lemma fallback_coverage_not_clamped :
  exists data,
    fallback_shadow_patterns [∅] tiny_field_config = inr data
    /\ 100 < average_shadow_coverage_percent data.
Proof.
  assert (Hw : rget tiny_field_config "panel_width" 1 = 1) by reflexivity.
  assert (Hr : rget tiny_field_config "panel_rows" 10 = 10) by reflexivity.
  assert (Hp : rget tiny_field_config "panels_per_row" 10 = 10)
    by reflexivity.
  assert (Hf : rget tiny_field_config "field_size" 10000 = 1) by reflexivity.
  assert (Ha : rget tiny_field_config "panel_angle" 30 = 30) by reflexivity.
  assert (Harea : 100 <= shadow_area tiny_field_config 0).
  { unfold shadow_area. cbv zeta. rewrite Hw, Hr, Hp, Ha.
    pose proof (shadow_length_nonneg tiny_field_config 0) as Hl.
    assert (Hs : 0 <= sin (radians 30))
      by (apply sin_tilt_nonneg; Lra.lra).
    pose proof (Rmult_le_pos _ _ Hl Hs). Lra.lra. }
  unfold fallback_shadow_patterns. cbv zeta. simpl seq. simpl map.
  unfold rsum, rlen. simpl fold_left. simpl length. rewrite Hf.
  change (INR 1) with 1.
  rewrite !rdiv_nonzero by Lra.lra. simpl.
  rewrite rdiv_nonzero by Lra.lra. simpl.
  eexists. split; [reflexivity |]. simpl. Lra.lra.
Qed.

End ShadowFacts.

(** ** Guarded divisions: payback period, LCOE, capacity factor *)

Section SentinelFacts.
Import Py XFloat Finance Energy.

Lemma payback_period_value (capex net : Q) :
  payback_period capex net
  = ret (if Qlt_le_dec 0 net then Fin (capex / net) else PInf).
Proof.
  unfold payback_period. destruct (Qlt_le_dec 0 net) as [Hpos | Hneg].
  - rewrite div_nonzero by Lqa.lra. reflexivity.
  - reflexivity.
Qed.

Lemma lcoe_value (cost lifetime_energy : Q) :
  lcoe cost lifetime_energy
  = ret (if Qlt_le_dec 0 lifetime_energy
         then Fin (cost / lifetime_energy) else PInf).
Proof.
  unfold lcoe. destruct (Qlt_le_dec 0 lifetime_energy) as [Hpos | Hneg].
  - rewrite div_nonzero by Lqa.lra. reflexivity.
  - reflexivity.
Qed.

Lemma capacity_factor_value (avg pe pa n : Q) :
  capacity_factor avg pe pa n
  = ret (if Qlt_le_dec 0 (24 * pe * pa * n)
         then avg / (24 * pe * pa * n) else 0).
Proof.
  unfold capacity_factor.
  destruct (Qlt_le_dec 0 (pe * pa * n)) as [Hpos | Hneg];
    destruct (Qlt_le_dec 0 (24 * pe * pa * n)) as [Hpos' | Hneg'];
    try (exfalso; Lqa.lra).
  - rewrite div_nonzero by Lqa.lra. reflexivity.
  - reflexivity.
Qed.

(** The metrics in the dict that [_calculate_financial_metrics] returns
    are these values at the configuration's figures. *)
Lemma financial_metrics_sentinels (config : typed_dict)
    (m : financial_metrics) :
  _calculate_financial_metrics config = inr m ->
  let lifetime := get (values config) "project_lifetime" 25 in
  let lifetime_energy :=
    get (values config) "energy_production_annual" 40000 * lifetime in
  let lifetime_cost :=
    total_capex (values config)
    + total_opex_annual (values config) * lifetime in
  payback_period_years m
  = (if Qlt_le_dec 0 (net_profit_annual (values config))
     then Fin (total_capex (values config)
               / net_profit_annual (values config))
     else PInf)
  /\ fm_lcoe m
     = (if Qlt_le_dec 0 lifetime_energy
        then Fin (lifetime_cost / lifetime_energy) else PInf).
Proof.
  unfold _calculate_financial_metrics. cbv zeta.
  rewrite payback_period_value, lcoe_value. simpl bind.
  destruct (div _ (total_capex (values config))) as [e | roi];
    [discriminate |].
  simpl bind.
  destruct (range_from_1 _) as [e | years]; [discriminate |]. simpl bind.
  destruct (npv_loop _ _ _ _) as [e | v]; [discriminate |]. simpl bind.
  destruct (div _ (total_capex (values config))) as [e | irr];
    [discriminate |].
  simpl. intros H. inversion H; subst; simpl. split; reflexivity.
Qed.

(** The capacity factor in the dict that [_simulate_energy_production]
    returns is the guarded quotient of its average daily energy. *)
Lemma energy_production_capacity_factor
    (energy_model : option learned_model) (now : date) (config : dict)
    (weather_data : list dict) (r : energy_result) :
  _simulate_energy_production energy_model now config weather_data = inr r ->
  energy_capacity_factor r
  = (let d := 24 * get config "panel_efficiency" 0.2
              * get config "panel_area" 1.7
              * get config "num_panels" 100 in
     if Qlt_le_dec 0 d then average_daily_energy_kwh r / d else 0).
Proof.
  unfold _simulate_energy_production. cbv zeta.
  destruct (energy_daily energy_model config weather_data) as [e | daily];
    [discriminate |].
  simpl bind.
  destruct (match daily with
            | [] => ret 0
            | _ :: _ => div (sum daily) (inject_Z (Z.of_nat (length daily)))
            end) as [e | avg]; [discriminate |].
  simpl bind.
  destruct (_aggregate_monthly now daily weather_data) as [e | monthly];
    [discriminate |].
  simpl bind. rewrite capacity_factor_value. simpl.
  intros H. inversion H; subst; simpl. reflexivity.
Qed.

(** The loop of the net present value returns unless the discount rate
    is -1. *)
Lemma npv_loop_returns (net rate : Q) (years : list Z) (acc : Q) :
  ~ 1 + rate == 0 ->
  exists v, npv_loop net rate years acc = inr v.
Proof.
  intros Hr. revert acc. induction years as [| y rest IH]; intros acc; simpl.
  - eexists. reflexivity.
  - rewrite div_nonzero by (now apply Qpower_not_0). simpl. apply IH.
Qed.

(** No guarded division makes [_calculate_financial_metrics] raise. *)
Lemma financial_metrics_returns (config : typed_dict) (lifetime : Z) :
  ~ total_capex (values config) == 0 ->
  default (PyInt 25) (config !! "project_lifetime") = PyInt lifetime ->
  ~ 1 + get (values config) "discount_rate" 0.05 == 0 ->
  exists m, _calculate_financial_metrics config = inr m.
Proof.
  intros Hc Hl Hr. unfold _calculate_financial_metrics. cbv zeta.
  rewrite payback_period_value. simpl bind.
  rewrite (div_nonzero _ _ Hc). simpl bind.
  rewrite Hl. cbn [range_from_1 ret bind].
  destruct (npv_loop_returns (net_profit_annual (values config))
              (get (values config) "discount_rate" 0.05)
              (map (fun i => Z.of_nat i) (seq 1 (Z.to_nat lifetime)))
              (- total_capex (values config)) Hr) as (v & Hv).
  rewrite Hv. simpl bind. rewrite (div_nonzero _ _ Hc). simpl bind.
  rewrite lcoe_value. simpl. eexists. reflexivity.
Qed.

(** Nothing but the learned model, which is caught, and the monthly
    aggregation can make [_simulate_energy_production] raise. *)
Lemma energy_production_returns
    (energy_model : option learned_model) (now : date) (config : dict)
    (weather_data : list dict) (daily : list Q) (monthly : gmap Z Q) :
  energy_daily energy_model config weather_data = inr daily ->
  _aggregate_monthly now daily weather_data = inr monthly ->
  exists r,
    _simulate_energy_production energy_model now config weather_data = inr r.
Proof.
  intros Hdaily Hmonthly. unfold _simulate_energy_production. cbv zeta.
  rewrite Hdaily. simpl bind.
  assert (Havg : exists avg,
             match daily with
             | [] => ret 0
             | _ :: _ => div (sum daily) (inject_Z (Z.of_nat (length daily)))
             end = inr avg).
  { destruct daily as [| x l]; [eexists; reflexivity |].
    rewrite div_nonzero; [eexists; reflexivity |].
    intros H. unfold Qeq in H. simpl in H. lia. }
  destruct Havg as (avg & Havg). rewrite Havg. simpl bind.
  rewrite Hmonthly. simpl bind.
  rewrite capacity_factor_value. simpl. eexists. reflexivity.
Qed.

(** C6. The three guarded metrics never raise and produce the stated
    values, and these are the values of the returned dicts: whenever
    [_calculate_financial_metrics] returns, its payback_period_years is
    capex / net_profit_annual if net_profit_annual > 0 and +infinity
    otherwise, and its lcoe is lifetime cost / lifetime energy if the
    lifetime energy is > 0 and +infinity otherwise; whenever
    [_simulate_energy_production] returns, its capacity_factor is
    average_daily_energy / (24 * panel_efficiency * panel_area *
    num_panels) if that denominator is > 0 and 0 otherwise. Neither call
    raises on their account: the financial one returns for every
    configuration with cost items that are not negative, a capital expense
    that is not 0, a lifetime that is an int of at most 100 years and a
    discount rate between 0 and 1, whatever the profit and the lifetime
    energy; the energy one returns whenever its monthly aggregation
    does. *)
Theorem guarded_metrics_sentinels :
  (forall capex net : Q,
     payback_period capex net
     = inr (if Qlt_le_dec 0 net then Fin (capex / net) else PInf))
  /\ (forall cost lifetime_energy : Q,
        lcoe cost lifetime_energy
        = inr (if Qlt_le_dec 0 lifetime_energy
               then Fin (cost / lifetime_energy) else PInf))
  /\ (forall avg pe pa n : Q,
        capacity_factor avg pe pa n
        = inr (if Qlt_le_dec 0 (24 * pe * pa * n)
               then avg / (24 * pe * pa * n) else 0))
  /\ (forall (config : typed_dict) (m : financial_metrics),
        _calculate_financial_metrics config = inr m ->
        let capex := total_capex (values config) in
        let net := net_profit_annual (values config) in
        let lifetime := get (values config) "project_lifetime" 25 in
        let lifetime_energy :=
          get (values config) "energy_production_annual" 40000 * lifetime in
        let lifetime_cost :=
          capex + total_opex_annual (values config) * lifetime in
        payback_period_years m
        = (if Qlt_le_dec 0 net then Fin (capex / net) else PInf)
        /\ fm_lcoe m
           = (if Qlt_le_dec 0 lifetime_energy
              then Fin (lifetime_cost / lifetime_energy) else PInf))
  /\ (forall (energy_model : option learned_model) (now : date)
             (config : dict) (weather_data : list dict) (r : energy_result),
        _simulate_energy_production energy_model now config weather_data
        = inr r ->
        let denominator :=
          24 * get config "panel_efficiency" 0.2 * get config "panel_area" 1.7
          * get config "num_panels" 100 in
        energy_capacity_factor r
        = (if Qlt_le_dec 0 denominator
           then average_daily_energy_kwh r / denominator else 0))
  /\ (forall (config : typed_dict) (lifetime : Z),
        costs_not_negative (values config) ->
        ~ total_capex (values config) == 0 ->
        default (PyInt 25) (config !! "project_lifetime") = PyInt lifetime ->
        (lifetime <= 100)%Z ->
        0 <= get (values config) "discount_rate" 0.05 <= 1 ->
        exists m, _calculate_financial_metrics config = inr m)
  /\ (forall (energy_model : option learned_model) (now : date)
             (config : dict) (weather_data : list dict) (daily : list Q)
             (monthly : gmap Z Q),
        energy_daily energy_model config weather_data = inr daily ->
        _aggregate_monthly now daily weather_data = inr monthly ->
        exists r,
          _simulate_energy_production energy_model now config weather_data
          = inr r).
Proof.
  split; [| split; [| split; [| split; [| split; [| split]]]]].
  - exact payback_period_value.
  - exact lcoe_value.
  - exact capacity_factor_value.
  - exact financial_metrics_sentinels.
  - exact energy_production_capacity_factor.
  - intros config lifetime _ Hc Hl _ [Hr _].
    apply (financial_metrics_returns config lifetime Hc Hl). Lqa.lra.
  - exact energy_production_returns.
Qed.

(** A project that sells nothing has no payback and no cost of energy, and
    a field without panels has capacity factor 0; both calls return. *)
Lemma guarded_metrics_sentinels_witness :
  (exists m,
     _calculate_financial_metrics unprofitable_config = inr m
     /\ payback_period_years m = PInf /\ fm_lcoe m = PInf)
  /\ (exists r,
        _simulate_energy_production None mid_january no_panels_config
          [warm_clear_day] = inr r
        /\ energy_capacity_factor r = 0).
Proof.
  destruct guarded_metrics_sentinels
    as (_ & _ & _ & Hfinance & Henergy & Hfinance_returns & Henergy_returns).
  split.
  - destruct (Hfinance_returns unprofitable_config 25%Z) as (m & Hm).
    + vm_compute. repeat split; discriminate.
    + vm_compute. discriminate.
    + reflexivity.
    + lia.
    + vm_compute. split; discriminate.
    + destruct (Hfinance unprofitable_config m Hm) as [Hp Hl].
      exists m. split; [exact Hm |]. split.
      * rewrite Hp. reflexivity.
      * rewrite Hl. reflexivity.
  - edestruct (Henergy_returns None mid_january no_panels_config
                 [warm_clear_day]) as (r & Hr).
    + reflexivity.
    + vm_compute. reflexivity.
    + exists r. split; [exact Hr |].
      rewrite (Henergy None mid_january no_panels_config [warm_clear_day]
                 r Hr).
      reflexivity.
Defined.

(** Scenario C of the specification: no profit, no payback. *)
Example payback_without_profit (capex : Q) :
  payback_period capex 0 = inr PInf.
Proof. reflexivity. Qed.

(** With the default figures the yearly profit is 8200 and the capital
    expense 70000. *)
Example default_payback :
  exists m years,
    _calculate_financial_metrics ∅ = inr m
    /\ payback_period_years m = Fin years
    /\ years == 70000 / 8200.
Proof.
  destruct (_calculate_financial_metrics ∅) as [e | m] eqn:E;
    [vm_compute in E; discriminate E |].
  destruct (financial_metrics_sentinels ∅ m E) as [Hp _].
  exists m. eexists. split; [reflexivity |].
  split; [rewrite Hp; vm_compute; reflexivity | vm_compute; reflexivity].
Qed.

(** The return on investment and the approximate IRR divide by the capital
    expense without a guard: the call as a whole raises when it is zero. *)
Lemma financial_metrics_zero_capex (config : typed_dict) :
  total_capex (values config) == 0 ->
  _calculate_financial_metrics config = raise ZeroDivisionError.
Proof.
  intros Hc. unfold _calculate_financial_metrics. cbv zeta.
  rewrite payback_period_value. simpl bind.
  now rewrite (div_zero _ _ Hc).
Qed.

End SentinelFacts.

(** ** Water balance *)

Section WaterFacts.
Import Py XFloat Water.

Variable sqrt_nonneg : Q -> Q.

Lemma xadd_nan_l (x : xfloat) : xadd NaN x = NaN.
Proof. reflexivity. Qed.

Lemma xadd_nan_r (x : xfloat) : xadd x NaN = NaN.
Proof. now destruct x. Qed.

Lemma xmul_nan_r (x : xfloat) : xmul x NaN = NaN.
Proof. now destruct x. Qed.

Lemma fold_xadd_nan (l : list xfloat) : fold_left xadd l NaN = NaN.
Proof. induction l as [| x l IH]; simpl; [reflexivity | exact IH]. Qed.

(** One missing number spoils the sum, wherever it stands. *)
Lemma fold_xadd_with_nan (l : list xfloat) (acc : xfloat) :
  In NaN l -> fold_left xadd l acc = NaN.
Proof.
  revert acc. induction l as [| x l IH]; intros acc Hin; simpl in *.
  - contradiction.
  - destruct Hin as [Hx | Hin].
    + subst x. rewrite xadd_nan_r. apply fold_xadd_nan.
    + now apply IH.
Qed.

Lemma np_sqrt_negative (x : Q) : x < 0 -> np_sqrt sqrt_nonneg x = NaN.
Proof.
  intros Hx. unfold np_sqrt. destruct (Qlt_le_dec x 0); [reflexivity |].
  Lqa.lra.
Qed.

Lemma day_water_need_inverted (config day : dict) :
  get day "temperature_high" 25 < get day "temperature_low" 15 ->
  day_water_need sqrt_nonneg config day = NaN.
Proof.
  intros Hinv. unfold day_water_need. cbv zeta.
  rewrite np_sqrt_negative by Lqa.lra. reflexivity.
Qed.

(** [max(0, nan)] is 0: no comparison with a missing number holds. *)
Lemma day_irrigation_need_inverted (config day : dict) :
  get day "temperature_high" 25 < get day "temperature_low" 15 ->
  day_irrigation_need sqrt_nonneg config day = Fin 0.
Proof.
  intros Hinv. unfold day_irrigation_need. cbv zeta.
  now rewrite day_water_need_inverted.
Qed.

Lemma irrigation_volume_returns (needs : list xfloat) (total : xfloat)
    (efficiency : Q) :
  ~ efficiency == 0 ->
  irrigation_volume needs total efficiency
  = inr (xdiv_const total efficiency).
Proof.
  intros He. unfold irrigation_volume.
  destruct (Qeq_bool efficiency 0) eqn:E; [| reflexivity].
  apply Qeq_bool_iff in E. contradiction.
Qed.

Lemma day_water_need_cases (config day : dict) :
  (get day "temperature_high" 25 < get day "temperature_low" 15
   /\ day_water_need sqrt_nonneg config day = NaN)
  \/ (get day "temperature_low" 15 <= get day "temperature_high" 25
      /\ exists q, day_water_need sqrt_nonneg config day = Fin q).
Proof.
  unfold day_water_need, np_sqrt. cbv zeta.
  destruct (Qlt_le_dec _ 0) as [Hneg | Hpos].
  - left. split; [Lqa.lra | reflexivity].
  - right. split; [Lqa.lra |]. simpl. eexists. reflexivity.
Qed.

Lemma xmax_zero_finite (x : xfloat) :
  (x = NaN \/ exists q, x = Fin q) ->
  exists q, xmax (Fin 0) x = Fin q /\ 0 <= q.
Proof.
  intros [-> | (q & ->)].
  - exists 0. split; [reflexivity | Lqa.lra].
  - unfold xmax, xlt. destruct (Qlt_le_dec 0 q).
    + exists q. split; [reflexivity | Lqa.lra].
    + exists 0. split; [reflexivity | Lqa.lra].
Qed.

Lemma day_irrigation_need_finite (config day : dict) :
  exists q, day_irrigation_need sqrt_nonneg config day = Fin q /\ 0 <= q.
Proof.
  unfold day_irrigation_need. cbv zeta. apply xmax_zero_finite.
  destruct (day_water_need_cases config day) as [[_ ->] | [_ (q & ->)]].
  - left. reflexivity.
  - right. simpl. eexists. reflexivity.
Qed.

Lemma fold_xadd_finite (l : list xfloat) (acc : Q) :
  Forall (fun x => exists q, x = Fin q /\ 0 <= q) l -> 0 <= acc ->
  exists q, fold_left xadd l (Fin acc) = Fin q /\ 0 <= q.
Proof.
  intros Hall. revert acc.
  induction Hall as [| x l (q & -> & Hq) _ IH]; intros acc Hacc; simpl.
  - eauto.
  - apply IH. Lqa.lra.
Qed.

(** C9 (amended). For every weather series holding a day with
    temperature_high < temperature_low, [np.sqrt] receives a negative
    number and the day's water need is NaN, not a number and not an error;
    with an irrigation efficiency that is not zero the call returns, and
    the total water requirement and the water savings volume, which are
    computed from the sum of the daily water needs, are NaN. The irrigation
    need of such a day is max(0, NaN - precipitation) = 0, so the
    irrigation totals (need and volume) are numbers, not spoiled by it.
    The model has no guard requiring temperature_high >= temperature_low. *)
Theorem inverted_temperatures_give_nan
    (config : dict) (weather_data : list dict) (i : nat) (day : dict) :
  weather_data !! i = Some day ->
  get day "temperature_high" 25 < get day "temperature_low" 15 ->
  ~ get config "irrigation_efficiency" 0.85 == 0 ->
  day_water_need sqrt_nonneg config day = NaN
  /\ day_irrigation_need sqrt_nonneg config day = Fin 0
  /\ exists r,
       _simulate_water_usage sqrt_nonneg config weather_data = inr r
       /\ total_water_requirement_cubic_m r = NaN
       /\ water_savings_from_panels_cubic_m r = NaN
       /\ daily_irrigation_needs_mm r !! i = Some (Fin 0)
       /\ (exists q, total_irrigation_need_cubic_m r = Fin q)
       /\ (exists q, total_irrigation_volume_cubic_m r = Fin q).
Proof.
  intros Hday Hinv Heff.
  split; [now apply day_water_need_inverted |].
  split; [now apply day_irrigation_need_inverted |].
  unfold _simulate_water_usage. cbv zeta.
  rewrite irrigation_volume_returns by exact Heff. simpl bind.
  eexists. split; [reflexivity |]. simpl.
  assert (Hsum : xsum (map (day_water_need sqrt_nonneg config) weather_data)
                 = NaN).
  { apply fold_xadd_with_nan. apply in_map_iff. exists day. split.
    - now apply day_water_need_inverted.
    - apply list_elem_of_In. eapply list_elem_of_lookup_2. exact Hday. }
  rewrite Hsum. split; [reflexivity |]. split; [reflexivity |].
  split.
  { rewrite <- (day_irrigation_need_inverted config day Hinv).
    now apply lookup_map. }
  destruct (fold_xadd_finite
              (map (day_irrigation_need sqrt_nonneg config) weather_data) 0)
    as (q & Hq & _).
  { apply Forall_forall. intros x Hx. apply list_elem_of_In in Hx.
    apply in_map_iff in Hx. destruct Hx as (d & <- & _).
    apply day_irrigation_need_finite. }
  { Lqa.lra. }
  unfold xsum. rewrite Hq. simpl. split; eexists; reflexivity.
Qed.

End WaterFacts.

Section WaterExamples.
Import Py XFloat Water.

Lemma inverted_temperatures_give_nan_witness :
  day_water_need crude_sqrt ∅ inverted_day = NaN
  /\ day_irrigation_need crude_sqrt ∅ inverted_day = Fin 0
  /\ exists r,
       _simulate_water_usage crude_sqrt ∅ [inverted_day] = inr r
       /\ total_water_requirement_cubic_m r = NaN
       /\ water_savings_from_panels_cubic_m r = NaN
       /\ daily_irrigation_needs_mm r !! 0%nat = Some (Fin 0)
       /\ (exists q, total_irrigation_need_cubic_m r = Fin q)
       /\ (exists q, total_irrigation_volume_cubic_m r = Fin q).
Proof.
  apply (inverted_temperatures_give_nan crude_sqrt ∅ [inverted_day] 0
           inverted_day).
  - reflexivity.
  - vm_compute. reflexivity.
  - vm_compute. discriminate.
Defined.

(** On the series made of [inverted_day] alone the water requirement is
    NaN, but the irrigation need, which is derived from the same daily
    water need, totals 0 cubic metres, and so does the irrigation volume:
    not every total derived from the daily water need is NaN. *)
Lemma irrigation_total_counterexample :
  exists r,
    _simulate_water_usage crude_sqrt ∅ [inverted_day] = inr r
    /\ total_water_requirement_cubic_m r = NaN
    /\ daily_irrigation_needs_mm r = [Fin 0]
    /\ (exists q, total_irrigation_need_cubic_m r = Fin q /\ q == 0)
    /\ (exists q, total_irrigation_volume_cubic_m r = Fin q /\ q == 0)
    /\ total_irrigation_need_cubic_m r <> NaN
    /\ total_irrigation_volume_cubic_m r <> NaN.
Proof.
  eexists. split; [vm_compute; reflexivity |]. simpl.
  split; [reflexivity |]. split; [reflexivity |].
  split; [eexists; split; [vm_compute; reflexivity | reflexivity] |].
  split; [eexists; split; [vm_compute; reflexivity | reflexivity] |].
  split; vm_compute; discriminate.
Qed.

End WaterExamples.

(** ** Optimizer *)

Section OptimizerFacts.
Import Py Optimizer.

(** A loop that returns has run its body on every element, in order. *)
Lemma collect_inr {A B : Type} (f : A -> result B) (l : list A)
    (bs : list B) :
  collect f l = inr bs -> Forall2 (fun a b => f a = inr b) l bs.
Proof.
  revert bs. induction l as [| a l IH]; intros bs H; simpl in H.
  - inversion H. constructor.
  - destruct (f a) as [e | b] eqn:Hb; [discriminate |]. simpl in H.
    destruct (collect f l) as [e | bs'] eqn:Hbs; [discriminate |].
    simpl in H. inversion H; subst. constructor; [exact Hb | now apply IH].
Qed.

Lemma collect_total {A B : Type} (f : A -> result B) (l : list A) :
  Forall (fun a => exists b, f a = inr b) l ->
  exists bs, collect f l = inr bs.
Proof.
  induction 1 as [| a l (b & Hb) _ (bs & Hbs)]; simpl.
  - eexists. reflexivity.
  - rewrite Hb. simpl. rewrite Hbs. simpl. eexists. reflexivity.
Qed.

Lemma Forall2_nth_error {A B : Type} (P : A -> B -> Prop) (l : list A)
    (l' : list B) (j : nat) (a : A) :
  Forall2 P l l' -> nth_error l j = Some a ->
  exists b, nth_error l' j = Some b /\ P a b.
Proof.
  intros H. revert j. induction H as [| x y l l' Hxy _ IH]; intros [| j] Hj;
    simpl in *; try discriminate.
  - inversion Hj; subst. eauto.
  - now apply IH.
Qed.

(** The scan keeps the first position of the greatest score seen so far. *)
Lemma argmax_from_spec (rest pre : list Q) (best_idx : nat) (best : Q) :
  nth_error pre best_idx = Some best ->
  (forall j x, nth_error pre j = Some x -> x <= best) ->
  (forall j x, (j < best_idx)%nat -> nth_error pre j = Some x -> x < best) ->
  exists v,
    nth_error (pre ++ rest) (argmax_from best_idx best (length pre) rest)
    = Some v
    /\ (forall j x, nth_error (pre ++ rest) j = Some x -> x <= v)
    /\ (forall j x,
          (j < argmax_from best_idx best (length pre) rest)%nat ->
          nth_error (pre ++ rest) j = Some x -> x < v).
Proof.
  revert pre best_idx best.
  induction rest as [| s rest IH]; intros pre best_idx best Hbest Hmax Hfirst.
  - simpl. rewrite app_nil_r. eauto.
  - assert (Hlt : (best_idx < length pre)%nat)
      by (apply nth_error_Some; congruence).
    assert (Hsplit : forall j x,
               nth_error (pre ++ [s]) j = Some x ->
               ((j < length pre)%nat /\ nth_error pre j = Some x)
               \/ (j = length pre /\ x = s)).
    { intros j x Hj. destruct (Nat.lt_ge_cases j (length pre)) as [Hin | Hout].
      - left. split; [exact Hin |]. now rewrite nth_error_app1 in Hj.
      - right. rewrite nth_error_app2 in Hj by exact Hout.
        destruct (j - length pre)%nat as [| m] eqn:Em; simpl in Hj.
        + inversion Hj. split; [lia | reflexivity].
        + destruct m; discriminate. }
    simpl argmax_from.
    replace (pre ++ s :: rest) with ((pre ++ [s]) ++ rest)
      by (now rewrite <- app_assoc).
    replace (S (length pre)) with (length (pre ++ [s]))
      by (rewrite length_app; simpl; lia).
    destruct (Qlt_le_dec best s) as [Hnew | Hold]; apply IH.
    + rewrite nth_error_app2 by lia. now rewrite Nat.sub_diag.
    + intros j x Hj. destruct (Hsplit j x Hj) as [[_ Hin] | [_ ->]].
      * specialize (Hmax j x Hin). Lqa.lra.
      * Lqa.lra.
    + intros j x Hjlt Hj. destruct (Hsplit j x Hj) as [[_ Hin] | [-> _]].
      * specialize (Hmax j x Hin). Lqa.lra.
      * lia.
    + now rewrite nth_error_app1.
    + intros j x Hj. destruct (Hsplit j x Hj) as [[_ Hin] | [_ ->]].
      * now apply (Hmax j).
      * exact Hold.
    + intros j x Hjlt Hj. destruct (Hsplit j x Hj) as [[_ Hin] | [-> _]].
      * now apply (Hfirst j).
      * lia.
Qed.

Lemma argmax_spec (scores : list Q) (k : nat) :
  argmax scores = inr k ->
  exists v,
    nth_error scores k = Some v
    /\ (forall j x, nth_error scores j = Some x -> x <= v)
    /\ (forall j x, (j < k)%nat -> nth_error scores j = Some x -> x < v).
Proof.
  destruct scores as [| s rest]; simpl; [discriminate |].
  intros H. inversion H; subst k.
  apply (argmax_from_spec rest [s] 0%nat s).
  - reflexivity.
  - intros [| [| j]] x Hj; simpl in Hj; try discriminate.
    inversion Hj. Lqa.lra.
  - intros j x Hj. lia.
Qed.

(** The selection returns the first candidate of greatest score. *)
Lemma select_best_spec (score : candidate -> result Q)
    (candidates : list candidate) (best : candidate) :
  select_best score candidates = inr best ->
  exists k s_best,
    nth_error candidates k = Some best
    /\ score best = inr s_best
    /\ (forall j cand,
          nth_error candidates j = Some cand ->
          exists s, score cand = inr s /\ s <= s_best)
    /\ (forall j cand,
          (j < k)%nat -> nth_error candidates j = Some cand ->
          exists s, score cand = inr s /\ s < s_best).
Proof.
  unfold select_best. intros H.
  destruct (collect score candidates) as [e | scores] eqn:Hscores;
    [discriminate |].
  simpl in H. destruct (argmax scores) as [e | k] eqn:Hk; [discriminate |].
  simpl in H.
  destruct (nth_error candidates k) as [c |] eqn:Hc; [| discriminate].
  inversion H; subst c.
  apply collect_inr in Hscores.
  destruct (argmax_spec scores k Hk) as (v & Hv & Hmax & Hfirst).
  destruct (Forall2_nth_error _ _ _ _ _ Hscores Hc) as (s & Hs & Hscore).
  assert (s = v) by congruence. subst s.
  exists k, v. split; [exact Hc |]. split; [exact Hscore |]. split.
  - intros j cand Hj.
    destruct (Forall2_nth_error _ _ _ _ _ Hscores Hj) as (s & Hs' & Hscore').
    exists s. split; [exact Hscore' | now apply (Hmax j)].
  - intros j cand Hjk Hj.
    destruct (Forall2_nth_error _ _ _ _ _ Hscores Hj) as (s & Hs' & Hscore').
    exists s. split; [exact Hscore' | now apply (Hfirst j)].
Qed.

(** C7. For every constraint set, weather series, goal weights, random
    source and set of loaded models, the configuration returned by the
    optimizer's candidate search is one of the sampled candidates, its
    score is greater than or equal to the score of every sampled candidate,
    and every candidate sampled before it has a strictly smaller score:
    among the candidates of greatest score the first in sampling order is
    returned. *)
Theorem optimizer_returns_first_maximum
    (svc : ml_service) (rnd : random_source) (weather_data : list dict)
    (c : constraints) (goals : dict) (best : candidate) :
  optimize_system_configuration svc rnd weather_data c goals = inr best ->
  exists candidates k s_best,
    _generate_candidate_configurations rnd c default_num_candidates
    = inr candidates
    /\ nth_error candidates k = Some best
    /\ candidate_score svc weather_data goals best = inr s_best
    /\ (forall j cand,
          nth_error candidates j = Some cand ->
          exists s,
            candidate_score svc weather_data goals cand = inr s
            /\ s <= s_best)
    /\ (forall j cand,
          (j < k)%nat -> nth_error candidates j = Some cand ->
          exists s,
            candidate_score svc weather_data goals cand = inr s
            /\ s < s_best).
Proof.
  unfold optimize_system_configuration, _simplified_optimization,
    candidate_score.
  change 1000%nat with default_num_candidates.
  intros H.
  destruct (_generate_candidate_configurations rnd c default_num_candidates)
    as [e | candidates]; [destruct (optimization_model svc); discriminate |].
  exists candidates.
  destruct (optimization_model svc); simpl in H;
    destruct (select_best_spec _ candidates best H)
      as (k & s & Hk & Hs & Hmax & Hfirst);
    exists k, s; auto.
Qed.

(** *** The search returns *)

Lemma simplified_score_returns (goals : dict) (cand : candidate) :
  ~ panel_spacing cand == 0 ->
  exists s, simplified_score goals cand = inr s.
Proof.
  intros Hsp. unfold simplified_score. cbv zeta.
  rewrite (div_nonzero _ _ Hsp). simpl. eexists. reflexivity.
Qed.

Lemma select_best_returns (score : candidate -> result Q)
    (candidates : list candidate) :
  candidates <> [] ->
  Forall (fun cand => exists s, score cand = inr s) candidates ->
  exists best, select_best score candidates = inr best.
Proof.
  intros Hne Hsp. unfold select_best.
  destruct (collect_total score candidates Hsp) as (scores & Hs).
  rewrite Hs. simpl bind.
  pose proof (collect_inr _ _ _ Hs) as Hlen. apply Forall2_length in Hlen.
  destruct scores as [| s rest].
  - destruct candidates; [congruence | discriminate].
  - destruct (argmax_spec (s :: rest) _ eq_refl) as (v & Hv & _).
    simpl argmax. simpl bind.
    assert (Hk : (argmax_from 0 s 1 rest < length candidates)%nat).
    { rewrite Hlen. apply nth_error_Some. congruence. }
    apply nth_error_Some in Hk.
    destruct (nth_error candidates (argmax_from 0 s 1 rest)) as [b |];
      [eexists; reflexivity | congruence].
Qed.

Section WellFormedSampling.

Variable rnd : random_source.
Variable c : constraints.
Hypothesis sample_unit : forall k, 0 <= sample rnd k < 1.
Hypothesis pick_below : forall i n, (0 < n)%nat -> (pick rnd i n < n)%nat.
Hypothesis options_not_empty : tracking_options c <> Some [].
Hypothesis spacing_bounds :
  0 < get (bounds c) "min_panel_spacing" 3
  /\ get (bounds c) "min_panel_spacing" 3
     <= get (bounds c) "max_panel_spacing" 8.

Lemma generate_candidate_returns (i : nat) :
  exists cand,
    generate_candidate rnd c i = inr cand /\ 0 < panel_spacing cand.
Proof.
  unfold generate_candidate. cbv zeta.
  assert (Htrack : exists t,
             match tracking_options c with
             | Some options =>
                 match options with
                 | [] => raise (ValueError "high <= 0")
                 | _ :: _ =>
                     match nth_error options (pick rnd i (length options)) with
                     | Some t => ret t
                     | None => raise (ValueError "index out of range")
                     end
                 end
             | None => ret "fixed"%string
             end = inr t).
  { destruct (tracking_options c) as [[| o os] |]; [congruence | |].
    - assert (Hp : (pick rnd i (length (o :: os)) < length (o :: os))%nat)
        by (apply pick_below; simpl; lia).
      apply nth_error_Some in Hp.
      destruct (nth_error (o :: os) (pick rnd i (length (o :: os))));
        [eexists; reflexivity | congruence].
    - eexists. reflexivity. }
  destruct Htrack as (t & Ht). rewrite Ht. cbn [bind].
  eexists. split; [reflexivity |]. cbn [panel_spacing]. unfold uniform.
  destruct spacing_bounds as [Hlo Hhi].
  destruct (sample_unit (4 * i + 2)) as [Hu0 Hu1].
  set (lo := get (bounds c) "min_panel_spacing" 3) in *.
  set (hi := get (bounds c) "max_panel_spacing" 8) in *.
  assert (Hprod : 0 <= (hi - lo) * sample rnd (4 * i + 2))
    by (apply Qmult_le_0_compat; Lqa.lra).
  Lqa.lra.
Qed.

Lemma generate_candidates_returns (n : nat) :
  exists candidates,
    _generate_candidate_configurations rnd c n = inr candidates
    /\ length candidates = n
    /\ Forall (fun cand => ~ panel_spacing cand == 0) candidates.
Proof.
  unfold _generate_candidate_configurations.
  destruct (collect_total (generate_candidate rnd c) (seq 0 n)) as (l & Hl).
  { apply Forall_forall. intros i _.
    destruct (generate_candidate_returns i) as (cand & Hc & _). eauto. }
  exists l. split; [exact Hl |].
  pose proof (collect_inr _ _ _ Hl) as Hall. split.
  - pose proof Hall as Hlen. apply Forall2_length in Hlen.
    rewrite <- Hlen. apply length_seq.
  - clear Hl. induction Hall as [| i cand idxs l Hi _ IH]; constructor.
    + destruct (generate_candidate_returns i) as (cand' & Hc & Hpos).
      rewrite Hi in Hc. inversion Hc; subst. Lqa.lra.
    + exact IH.
Qed.

(** X23. With a random source that respects its ranges (samples in
    [0, 1), picks below the number of options), a list of tracking options
    that is absent or not empty and spacing bounds that are positive and
    ordered, the simplified search returns a configuration. *)
Lemma simplified_optimization_returns (weather_data : list dict)
    (goals : dict) :
  exists best, _simplified_optimization rnd weather_data c goals = inr best.
Proof.
  unfold _simplified_optimization.
  destruct (generate_candidates_returns default_num_candidates)
    as (candidates & Hgen & Hlen & Hsp).
  rewrite Hgen. simpl bind.
  apply select_best_returns.
  - intros ->. discriminate Hlen.
  - eapply Forall_impl; [exact Hsp |].
    intros cand. apply simplified_score_returns.
Qed.

End WellFormedSampling.

End OptimizerFacts.

Section OptimizerExamples.
Import Py Optimizer.

Lemma optimizer_returns_first_maximum_witness :
  exists best,
    optimize_system_configuration no_models cycling_source
      [warm_clear_day; mild_wet_day] two_tracking_options ∅ = inr best
    /\ exists candidates k s_best,
         _generate_candidate_configurations cycling_source
           two_tracking_options default_num_candidates = inr candidates
         /\ nth_error candidates k = Some best
         /\ candidate_score no_models [warm_clear_day; mild_wet_day] ∅ best
            = inr s_best
         /\ (forall j cand,
               nth_error candidates j = Some cand ->
               exists s,
                 candidate_score no_models [warm_clear_day; mild_wet_day] ∅
                   cand = inr s
                 /\ s <= s_best)
         /\ (forall j cand,
               (j < k)%nat -> nth_error candidates j = Some cand ->
               exists s,
                 candidate_score no_models [warm_clear_day; mild_wet_day] ∅
                   cand = inr s
                 /\ s < s_best).
Proof.
  eexists. split.
  - vm_compute. reflexivity.
  - apply (optimizer_returns_first_maximum no_models cycling_source
             [warm_clear_day; mild_wet_day] two_tracking_options ∅).
    vm_compute. reflexivity.
Defined.

(** The ranking by [_evaluate_configuration] returns on the same draws. *)
Example ranking_search_returns :
  exists best,
    optimize_system_configuration ranking_model_only cycling_source
      [warm_clear_day; mild_wet_day] two_tracking_options ∅ = inr best.
Proof. eexists. vm_compute. reflexivity. Qed.

(** Scenario D of the specification: when every bound has min = max, the
    candidates coincide and the first one is returned. *)
Example pinned_bounds_search :
  exists best,
    _simplified_optimization cycling_source [] pinned_constraints ∅ = inr best
    /\ generate_candidate cycling_source pinned_constraints 0 = inr best
    /\ panel_height best == 2 /\ panel_angle best == 30
    /\ panel_spacing best == 5 /\ irrigation_amount best == 4.
Proof.
  eexists. split; [vm_compute; reflexivity |].
  split; [vm_compute; reflexivity |].
  vm_compute. repeat split.
Qed.

End OptimizerExamples.

(** ** The status machine *)

Section OrchestratorFacts.
Import Py Orchestrator.

Context {params config weather timestamp : Type}.
Context {energy crop shadow water financial environmental : Type}.
Variable select_config : params -> result (option nat * config).
Variable get_weather : params -> result weather.
Variable sim_energy : config -> weather -> result energy.
Variable sim_crop : config -> weather -> result crop.
Variable sim_shadow : config -> weather -> result shadow.
Variable sim_water : config -> weather -> result water.
Variable fin_metrics : config -> result financial.
Variable env_metrics : config -> result environmental.
Variable now : timestamp.

Local Abbreviation pipeline :=
  (model_pipeline select_config get_weather sim_energy sim_crop sim_shadow
     sim_water fin_metrics env_metrics).
Local Abbreviation run :=
  (run_simulation select_config get_weather sim_energy sim_crop sim_shadow
     sim_water fin_metrics env_metrics now).

(** An unknown id: nothing is touched. *)
Lemma run_simulation_unknown (s : db) :
  row s = None -> run s = (inr tt, s).
Proof. intros H. unfold run_simulation. now rewrite H. Qed.

(** The full dict exists only if every step returned. *)
Lemma model_pipeline_all_or_nothing (p : params) (o : outputs) :
  pipeline p = inr o ->
  exists cid cfg w,
    select_config p = inr (cid, cfg)
    /\ get_weather p = inr w
    /\ sim_energy cfg w = inr (energy_production o)
    /\ sim_crop cfg w = inr (crop_yield o)
    /\ sim_shadow cfg w = inr (shadow_patterns o)
    /\ sim_water cfg w = inr (water_usage o)
    /\ fin_metrics cfg = inr (financial_metrics o)
    /\ env_metrics cfg = inr (environmental_metrics o)
    /\ configuration_id o = cid.
Proof.
  unfold model_pipeline. intros H.
  destruct (select_config p) as [? | [cid cfg]] eqn:E0; [discriminate |].
  simpl in H.
  destruct (get_weather p) as [? | w] eqn:E1; [discriminate |]. simpl in H.
  destruct (sim_energy cfg w) as [? | e] eqn:E2; [discriminate |].
  simpl in H.
  destruct (sim_crop cfg w) as [? | c] eqn:E3; [discriminate |]. simpl in H.
  destruct (sim_shadow cfg w) as [? | sh] eqn:E4; [discriminate |].
  simpl in H.
  destruct (sim_water cfg w) as [? | wa] eqn:E5; [discriminate |].
  simpl in H.
  destruct (fin_metrics cfg) as [? | f] eqn:E6; [discriminate |]. simpl in H.
  destruct (env_metrics cfg) as [? | en] eqn:E7; [discriminate |].
  simpl in H. inversion H; subst; simpl.
  exists cid, cfg, w. auto 10.
Qed.

(** C8. For every simulation run found in the database, whatever the steps
    of the model pipeline do, [run_simulation] returns without an
    exception and the row it commits is: if a step raised [e], status
    failed and a result that holds only the error; if no step raised,
    status completed, the full result and completed_at set. *)
Theorem run_simulation_outcome (s : db) (sim : simulation) :
  row s = Some sim ->
  exists final,
    run s = (inr tt, {| row := Some final; committed := Some final |})
    /\ sim_parameters final = sim_parameters sim
    /\ match pipeline (sim_parameters sim) with
       | inl e =>
           sim_status final = Failed
           /\ sim_results final = Some (ErrorOnly e)
           /\ sim_completed_at final = sim_completed_at sim
       | inr o =>
           sim_status final = Completed
           /\ sim_results final = Some (Full o)
           /\ sim_completed_at final = Some now
       end.
Proof.
  intros Hrow. unfold run_simulation. rewrite Hrow.
  unfold seq_action, try_catch, update, commit, lift. simpl. rewrite Hrow.
  simpl.
  destruct (model_pipeline _ _ _ _ _ _ _ _ (sim_parameters sim)) as [e | o];
    simpl; eexists; split; try reflexivity; simpl; auto.
Qed.

End OrchestratorFacts.

Section OrchestratorExamples.
Import Py Orchestrator.

Lemma run_simulation_outcome_witness :
  exists final,
    run_simulation (fun _ => ret (None, tt)) (fun _ => ret [1%nat])
      constant_step failing_crop_step constant_step constant_step
      (fun _ => ret 2%nat) (fun _ => ret 3%nat) 7%nat pending_db
    = (inr tt, {| row := Some final; committed := Some final |})
    /\ sim_parameters final = sim_parameters pending_run
    /\ sim_status final = Failed
    /\ sim_results final = Some (ErrorOnly ZeroDivisionError)
    /\ sim_completed_at final = sim_completed_at pending_run.
Proof.
  exact (run_simulation_outcome (fun _ => ret (None, tt))
           (fun _ => ret [1%nat]) constant_step failing_crop_step
           constant_step constant_step (fun _ => ret 2%nat)
           (fun _ => ret 3%nat) 7%nat pending_db pending_run eq_refl).
Defined.

End OrchestratorExamples.

(** * Part III: further properties of the services *)

(** ** Sums of daily series *)

Section SeriesFacts.
Import Py.

Lemma count_cons (x : Q) (l : list Q) : count (x :: l) == count l + 1.
Proof.
  unfold count. simpl length. rewrite Nat2Z.inj_succ, <- Z.add_1_r.
  now rewrite inject_Z_plus.
Qed.

Lemma count_nonneg (l : list Q) : 0 <= count l.
Proof.
  unfold count. change 0 with (inject_Z 0). rewrite <- Zle_Qle. lia.
Qed.

Lemma fold_sum_shift (l : list Q) (acc : Q) :
  fold_left Qplus l acc == acc + fold_left Qplus l 0.
Proof.
  revert acc. induction l as [| x l IH]; intros acc; simpl.
  - ring.
  - rewrite (IH (acc + x)), (IH (0 + x)). ring.
Qed.

Lemma sum_cons (x : Q) (l : list Q) : sum (x :: l) == x + sum l.
Proof. unfold sum. simpl. rewrite fold_sum_shift. ring. Qed.

(** A sum of values between [lo] and [hi] lies between [n * lo] and
    [n * hi]. *)
Lemma sum_bounds (lo hi : Q) (l : list Q) :
  Forall (fun x => lo <= x <= hi) l ->
  lo * count l <= sum l <= hi * count l.
Proof.
  induction 1 as [| x l [Hlo Hhi] _ [IHlo IHhi]].
  - unfold sum, count. cbn [fold_left length].
    change (inject_Z (Z.of_nat 0)) with 0. split; Lqa.lra.
  - rewrite sum_cons, count_cons. split; Lqa.lra.
Qed.

End SeriesFacts.

(** ** Energy production: empty series, cloud cover *)

Section EnergySummaryFacts.
Import Py Energy.

Lemma next_day_year (d : date) : (year (next_day d) <= year d + 1)%Z.
Proof.
  unfold next_day.
  destruct (day d <? days_in_month (year d) (month d))%Z; simpl; [lia |].
  destruct (month d <? 12)%Z; simpl; lia.
Qed.

(** The dates of a series that ends before the year 10000. *)
Lemma dates_from_returns (n : nat) (start : date) :
  (year start + Z.of_nat n <= 10000)%Z ->
  exists dates, dates_from start n = inr dates /\ length dates = n.
Proof.
  revert start. induction n as [| n IH]; intros start Hyear.
  - exists []. split; reflexivity.
  - cbn [dates_from].
    destruct (Z.ltb_spec 9999 (year start)) as [Hlate | _]; [lia |].
    destruct (IH (next_day start)) as (rest & Hrest & Hlen).
    { pose proof (next_day_year start). lia. }
    rewrite Hrest. exists (start :: rest). split; [reflexivity |].
    simpl. now rewrite Hlen.
Qed.

(** X1. Without a learned energy model, without a [ds] column and with
    dates that stay within the year 9999, [_simulate_energy_production]
    raises [AttributeError] on the empty weather series: the monthly
    aggregation fails there, although total, mean, peak and minimum are
    guarded for the empty series. On every other series it returns, with
    one daily value per weather record. *)
Theorem energy_production_needs_a_day (now : date) (config : dict)
    (weather_data : list dict) :
  has_ds weather_data = false ->
  (year now + Z.of_nat (length weather_data) <= 9999)%Z ->
  (weather_data = [] ->
   _simulate_energy_production None now config weather_data
   = raise AttributeError)
  /\ (weather_data <> [] ->
      exists r,
        _simulate_energy_production None now config weather_data = inr r
        /\ length (daily_production r) = length weather_data).
Proof.
  intros Hds Hyear. split.
  - intros ->. reflexivity.
  - intros Hne. unfold _simulate_energy_production. cbv zeta.
    unfold energy_daily, predict_energy_production, try_except.
    cbn [ret bind].
    set (daily := _simplified_energy_model weather_data config).
    assert (Hlen : length daily = length weather_data)
      by (unfold daily, _simplified_energy_model; apply length_map).
    assert (Havg : exists avg,
               match daily with
               | [] => ret 0
               | _ :: _ => div (sum daily) (inject_Z (Z.of_nat (length daily)))
               end = inr avg).
    { destruct daily as [| x l]; [eexists; reflexivity |].
      rewrite div_nonzero; [eexists; reflexivity |].
      intros H. unfold Qeq in H. simpl in H. lia. }
    destruct Havg as (avg & Havg). rewrite Havg. cbn [bind].
    unfold _aggregate_monthly. rewrite Hds.
    destruct (dates_from_returns (length daily)
                {| year := year now; month := month now; day := 1 |})
      as (dates & Hdates & Hcount).
    { cbn [year]. rewrite Hlen. lia. }
    rewrite Hdates. cbn [bind].
    destruct dates as [| d dates'].
    { exfalso. destruct weather_data; [congruence |].
      simpl in Hcount, Hlen. lia. }
    cbn [bind]. rewrite capacity_factor_value. cbn [bind ret].
    eexists. split; [reflexivity |]. exact Hlen.
Qed.

Lemma energy_production_needs_a_day_witness :
  _simulate_energy_production None mid_january ∅ [] = raise AttributeError
  /\ exists r,
       _simulate_energy_production None mid_january ∅
         [warm_clear_day; hot_clear_day] = inr r
       /\ length (daily_production r) = 2%nat.
Proof.
  split.
  - destruct (energy_production_needs_a_day mid_january ∅ []) as (H & _);
      [reflexivity | vm_compute; discriminate | apply H; reflexivity].
  - destruct (energy_production_needs_a_day mid_january ∅
                [warm_clear_day; hot_clear_day]) as (_ & H);
      [reflexivity | vm_compute; discriminate | apply H; discriminate].
Defined.

Lemma get_insert_other (d : dict) (k k' : string) (v dflt : Q) :
  k <> k' -> get (<[k := v]> d) k' dflt = get d k' dflt.
Proof. intros H. unfold get. now rewrite lookup_insert_ne. Qed.

Lemma get_insert_same (d : dict) (k : string) (v dflt : Q) :
  get (<[k := v]> d) k dflt = v.
Proof. unfold get. now rewrite lookup_insert_eq. Qed.

(** X2. Cloud cover attenuates the energy of [_simplified_energy_model]
    linearly: the energy of a day is (1 - 0.7 * cloud_cover) times the
    energy of the same day with a clear sky. With a cloud cover in [0, 1]
    and a clear-sky energy that is not negative, a day yields between 30 %
    and 100 % of its clear-sky energy. *)
Theorem cloud_cover_attenuation (config day : dict) :
  let clear := simplified_energy_day config (<["cloud_cover" := 0]> day) in
  let cloud_cover := get day "cloud_cover" 0 in
  simplified_energy_day config day == (1 - 0.7 * cloud_cover) * clear
  /\ (0 <= cloud_cover <= 1 -> 0 <= clear ->
      0.3 * clear <= simplified_energy_day config day <= clear).
Proof.
  cbv zeta.
  assert (Heq : simplified_energy_day config day
                == (1 - 0.7 * get day "cloud_cover" 0)
                   * simplified_energy_day config (<["cloud_cover" := 0]> day)).
  { unfold simplified_energy_day. cbv zeta.
    rewrite get_insert_same.
    rewrite !get_insert_other by discriminate. ring. }
  split; [exact Heq |].
  intros [Hc0 Hc1] Hclear. rewrite Heq.
  set (e := simplified_energy_day config (<["cloud_cover" := 0]> day)) in *.
  set (c := get day "cloud_cover" 0) in *.
  split; Lqa.nra.
Qed.

Lemma cloud_cover_attenuation_witness :
  0.3 * simplified_energy_day ∅ (<["cloud_cover" := 0]> overcast_day)
  <= simplified_energy_day ∅ overcast_day
  <= simplified_energy_day ∅ (<["cloud_cover" := 0]> overcast_day).
Proof.
  apply (cloud_cover_attenuation ∅ overcast_day).
  - vm_compute. split; discriminate.
  - vm_compute. discriminate.
Defined.

End EnergySummaryFacts.

(** ** Crop stresses *)

Section CropStressFacts.
Import Py Crop.

Lemma clamp_inside (x : Q) : 0.1 <= x <= 1 -> max 0.1 (min 1 x) == x.
Proof.
  intros [H0 H1]. unfold max, min.
  destruct (Qlt_le_dec x 1); destruct (Qlt_le_dec 0.1 _); Lqa.lra.
Qed.

Lemma clamp_below (x : Q) : x <= 0.1 -> max 0.1 (min 1 x) == 0.1.
Proof.
  intros H. unfold max, min.
  destruct (Qlt_le_dec x 1); destruct (Qlt_le_dec 0.1 _); Lqa.lra.
Qed.

Lemma clamp_above (x : Q) : 1 <= x -> max 0.1 (min 1 x) == 1.
Proof.
  intros H. unfold max, min.
  destruct (Qlt_le_dec x 1); destruct (Qlt_le_dec 0.1 _); Lqa.lra.
Qed.

Lemma clamp_lt_one (x : Q) : x < 1 -> max 0.1 (min 1 x) < 1.
Proof.
  intros H. unfold max, min.
  destruct (Qlt_le_dec x 1); destruct (Qlt_le_dec 0.1 _); Lqa.lra.
Qed.

(** X3. The temperature stress of the crop growth model is 1 exactly when
    the day's average temperature lies between the crop's optimal minimum
    and maximum; for a crop whose optimal minimum does not exceed its
    maximum, it is at its floor 0.1 once the average is 9 degrees or more
    outside that range. *)
Theorem temperature_stress_regimes (crop : crop_data) (day : dict) :
  let temp_avg :=
    (get day "temperature_high" 25 + get day "temperature_low" 15) / 2 in
  (ml_temp_stress crop day == 1
   <-> optimal_temp_min crop <= temp_avg <= optimal_temp_max crop)
  /\ (optimal_temp_min crop <= optimal_temp_max crop ->
      temp_avg <= optimal_temp_min crop - 9
      \/ optimal_temp_max crop + 9 <= temp_avg ->
      ml_temp_stress crop day == 0.1).
Proof.
  cbv zeta. unfold ml_temp_stress, raw_temp_stress. cbv zeta.
  set (t := (get day "temperature_high" 25 + get day "temperature_low" 15) / 2).
  set (lo := optimal_temp_min crop). set (hi := optimal_temp_max crop).
  split; [split |].
  - intros H.
    destruct (Qlt_le_dec t lo) as [Hlo | Hlo].
    + pose proof (clamp_lt_one (1 - (lo - t) / 10)) as Hc.
      assert (1 - (lo - t) / 10 < 1) by
        (assert (0 < (lo - t) / 10) by (apply Qlt_shift_div_l; Lqa.lra);
         Lqa.lra).
      specialize (Hc H0). Lqa.lra.
    + destruct (Qlt_le_dec hi t) as [Hhi | Hhi].
      * pose proof (clamp_lt_one (1 - (t - hi) / 10)) as Hc.
        assert (1 - (t - hi) / 10 < 1) by
          (assert (0 < (t - hi) / 10) by (apply Qlt_shift_div_l; Lqa.lra);
           Lqa.lra).
        specialize (Hc H0). Lqa.lra.
      * split; assumption.
  - intros [Hlo Hhi].
    destruct (Qlt_le_dec t lo); [Lqa.lra |].
    destruct (Qlt_le_dec hi t); [Lqa.lra |].
    apply clamp_above. Lqa.lra.
  - intros Horder [Hfar | Hfar].
    + destruct (Qlt_le_dec t lo); [| Lqa.lra].
      apply clamp_below.
      assert (0.9 <= (lo - t) / 10) by
        (apply Qle_shift_div_l; Lqa.lra).
      Lqa.lra.
    + destruct (Qlt_le_dec t lo); [Lqa.lra |].
      destruct (Qlt_le_dec hi t); [| Lqa.lra].
      apply clamp_below.
      assert (0.9 <= (t - hi) / 10) by
        (apply Qle_shift_div_l; Lqa.lra).
      Lqa.lra.
Qed.

Lemma temperature_stress_regimes_witness :
  ml_temp_stress default_crop_data frosty_day == 0.1.
Proof.
  apply (temperature_stress_regimes default_crop_data frosty_day).
  - vm_compute. discriminate.
  - left. vm_compute. discriminate.
Defined.

(** X4. With a positive water requirement, the water stress of
    [_simplified_crop_growth_model] is the ratio of the effective water
    (precipitation plus irrigation times efficiency) to the requirement,
    held at the floor 0.1 when the ratio is below it (in particular with
    neither rain nor irrigation) and at 1 when the effective water covers
    the requirement. *)
Theorem water_stress_regimes (config : dict) (crop : crop_data) (day : dict) :
  0 < water_requirement_mm_day crop ->
  let effective_water :=
    get day "precipitation" 0
    + get config "irrigation_amount" 5
      * get config "irrigation_efficiency" 0.85 in
  exists stress,
    ml_water_stress config crop day = inr stress
    /\ (effective_water <= 0.1 * water_requirement_mm_day crop ->
        stress == 0.1)
    /\ (water_requirement_mm_day crop <= effective_water -> stress == 1)
    /\ (0.1 * water_requirement_mm_day crop <= effective_water
        <= water_requirement_mm_day crop ->
        stress == effective_water / water_requirement_mm_day crop).
Proof.
  intros Hreq. cbv zeta. unfold ml_water_stress. cbv zeta.
  rewrite div_nonzero by Lqa.lra. simpl bind.
  set (ew := get day "precipitation" 0
             + get config "irrigation_amount" 5
               * get config "irrigation_efficiency" 0.85).
  set (wr := water_requirement_mm_day crop) in *.
  eexists. split; [reflexivity |]. split; [| split].
  - intros H. apply clamp_below. apply Qle_shift_div_r; Lqa.lra.
  - intros H. apply clamp_above. apply Qle_shift_div_l; Lqa.lra.
  - intros [H0 H1]. apply clamp_inside. split.
    + apply Qle_shift_div_l; Lqa.lra.
    + apply Qle_shift_div_r; Lqa.lra.
Qed.

Lemma water_stress_regimes_witness :
  exists stress,
    ml_water_stress dry_config default_crop_data dry_day = inr stress
    /\ stress == 0.1.
Proof.
  destruct (water_stress_regimes dry_config default_crop_data dry_day)
    as (stress & Hs & Hfloor & _).
  - vm_compute. reflexivity.
  - exists stress. split; [exact Hs |]. apply Hfloor.
    vm_compute. discriminate.
Defined.

End CropStressFacts.

(** ** Crop yield *)

Section CropYieldFacts.
Import Py Crop.

Lemma min_int_spec (a b : Z) : min_int a b = Z.min a b.
Proof. unfold min_int. destruct (Z.ltb_spec b a); lia. Qed.

Lemma slice_to_firstn {A : Type} (l : list A) (k : Z) :
  (0 <= k)%Z -> slice_to l k = firstn (Z.to_nat k) l.
Proof.
  intros Hk. unfold slice_to. destruct (Z.ltb_spec k 0); [lia | reflexivity].
Qed.

(** X5. The yield only reads the first growth_period_days growth factors:
    appending further days to a series that already spans the growth
    period does not change the result of [predict_crop_yield]. *)
Theorem yield_ignores_days_after_growth_period
    (daily_growth later : list Q) (config : dict) (crop : crop_data) :
  Z.of_nat (length daily_growth) = growth_period_days crop ->
  predict_crop_yield (daily_growth ++ later) config crop
  = predict_crop_yield daily_growth config crop.
Proof.
  intros Hlen. unfold predict_crop_yield, average_growth. cbv zeta.
  rewrite !min_int_spec, length_app, Nat2Z.inj_add, <- Hlen.
  rewrite Z.min_l by lia. rewrite Z.min_id.
  rewrite !slice_to_firstn by lia. rewrite Nat2Z.id.
  rewrite firstn_app, Nat.sub_diag, firstn_all. simpl. now rewrite app_nil_r.
Qed.

Lemma yield_ignores_days_after_growth_period_witness :
  predict_crop_yield ([0.5; 0.7] ++ [0.1; 0.1; 0.1]) ∅ two_day_crop
  = predict_crop_yield [0.5; 0.7] ∅ two_day_crop.
Proof.
  apply (yield_ignores_days_after_growth_period [0.5; 0.7] [0.1; 0.1; 0.1] ∅
           two_day_crop).
  reflexivity.
Defined.

Lemma Forall_firstn {A : Type} (P : A -> Prop) (n : nat) (l : list A) :
  Forall P l -> Forall P (firstn n l).
Proof.
  intros H. revert n. induction H as [| x l Hx _ IH]; intros [| n]; simpl;
    constructor; auto.
Qed.

Lemma sum_nonneg (l : list Q) : Forall (fun g => 0 <= g) l -> 0 <= sum l.
Proof.
  induction 1 as [| g l Hg _ IH].
  - unfold sum. simpl. Lqa.lra.
  - rewrite sum_cons. Lqa.lra.
Qed.

(** X6. For a series that is not empty and a positive growth period,
    [predict_crop_yield] returns; and if no growth factor is negative and
    the base yield (yield per plant times planting density times field
    size) is not negative, the yield is not negative either. *)
Theorem yield_is_defined_and_not_negative
    (daily_growth : list Q) (config : dict) (crop : crop_data) :
  daily_growth <> [] ->
  (0 < growth_period_days crop)%Z ->
  Forall (fun g => 0 <= g) daily_growth ->
  let base_yield :=
    typical_yield_per_plant crop * get config "planting_density" 25
    * get config "field_size" 10000 in
  0 <= base_yield ->
  exists y,
    predict_crop_yield daily_growth config crop = inr y /\ 0 <= y.
Proof.
  intros Hne Hp Hall. cbv zeta. intros Hbase.
  unfold predict_crop_yield, average_growth. cbv zeta.
  rewrite min_int_spec.
  set (n := Z.min (growth_period_days crop) (Z.of_nat (length daily_growth))).
  assert (Hn : (0 < n)%Z).
  { unfold n. destruct daily_growth; [congruence |]. simpl length. lia. }
  rewrite slice_to_firstn by lia.
  set (head := firstn (Z.to_nat n) daily_growth).
  assert (Hhead : 0 <= sum head)
    by (apply sum_nonneg; unfold head; now apply Forall_firstn).
  assert (Hcount : 0 < inject_Z n).
  { unfold Qlt. simpl. lia. }
  rewrite div_nonzero by Lqa.lra.
  cbn [bind ret]. eexists. split; [reflexivity |].
  apply Qmult_le_0_compat; [exact Hbase |].
  apply Qle_shift_div_l; [exact Hcount | Lqa.lra].
Qed.

Lemma yield_is_defined_and_not_negative_witness :
  exists y,
    predict_crop_yield [0.5; 0.7; 0.1] ∅ two_day_crop = inr y /\ 0 <= y.
Proof.
  apply (yield_is_defined_and_not_negative [0.5; 0.7; 0.1] ∅ two_day_crop).
  - discriminate.
  - reflexivity.
  - repeat constructor; vm_compute; discriminate.
  - vm_compute. discriminate.
Defined.

Lemma cycle_yields_bounds (random : nat -> Q) (y : Q) (indices : list nat) :
  (forall i, 0 <= random i < 1) -> 0 <= y ->
  Forall (fun c => 0.9 * y <= c <= 1.1 * y)
    (map (fun i => y * (0.9 + 0.2 * random i)) indices).
Proof.
  intros Hr Hy. induction indices as [| i rest IH]; simpl; constructor.
  - destruct (Hr i) as [H0 H1]. split; Lqa.nra.
  - exact IH.
Qed.

(** X7. Whenever [_simulate_crop_yield] returns, it reports 6 harvest
    cycles; if the random multipliers are drawn from [0, 1) and the yield
    of one harvest is not negative, every cycle yield lies between 90 % and
    110 % of it and the annual yield between 5.4 and 6.6 times it. *)
Theorem annual_yield_range
    (crop_model : option learned_model) (random : nat -> Q) (config : dict)
    (weather_data : list dict) (r : crop_result) :
  _simulate_crop_yield crop_model random config weather_data = inr r ->
  (forall i, 0 <= random i < 1) ->
  0 <= yield_per_harvest_kg r ->
  number_of_harvest_cycles r = 6%Z
  /\ length (harvest_cycle_yields_kg r) = 6%nat
  /\ Forall (fun c => 0.9 * yield_per_harvest_kg r <= c
                      <= 1.1 * yield_per_harvest_kg r)
       (harvest_cycle_yields_kg r)
  /\ 5.4 * yield_per_harvest_kg r <= total_annual_yield_kg r
     <= 6.6 * yield_per_harvest_kg r.
Proof.
  unfold _simulate_crop_yield. cbv zeta. intros H Hr Hy.
  destruct (total_yield crop_model config weather_data) as [e | y];
    [discriminate |].
  simpl bind in H.
  destruct (div _ (get config "field_size" 10000)) as [e | per_sqm];
    [discriminate |].
  simpl in H. inversion H; subst; clear H. simpl in *.
  pose proof (cycle_yields_bounds random y [0; 1; 2; 3; 4; 5]%nat Hr Hy)
    as Hall.
  split; [reflexivity |]. split; [reflexivity |]. split; [exact Hall |].
  pose proof (sum_bounds _ _ _ Hall) as [Hlo Hhi].
  unfold count in Hlo, Hhi. simpl length in Hlo, Hhi.
  change (inject_Z (Z.of_nat 6)) with 6 in Hlo, Hhi.
  simpl map in Hlo, Hhi. split; Lqa.lra.
Qed.

Lemma annual_yield_range_witness :
  exists r,
    _simulate_crop_yield None (fun _ => 0.5) ∅ [mild_wet_day] = inr r
    /\ number_of_harvest_cycles r = 6%Z
    /\ length (harvest_cycle_yields_kg r) = 6%nat
    /\ Forall (fun c => 0.9 * yield_per_harvest_kg r <= c
                        <= 1.1 * yield_per_harvest_kg r)
         (harvest_cycle_yields_kg r)
    /\ 5.4 * yield_per_harvest_kg r <= total_annual_yield_kg r
       <= 6.6 * yield_per_harvest_kg r.
Proof.
  eexists. split; [vm_compute; reflexivity |].
  apply (annual_yield_range None (fun _ => 0.5) ∅ [mild_wet_day]).
  - vm_compute. reflexivity.
  - intros i. split; vm_compute; [discriminate | reflexivity].
  - vm_compute. discriminate.
Defined.

Lemma simplified_crop_growth_returns (config : dict) (crop : crop_data)
    (weather_data : list dict) :
  ~ water_requirement_mm_day crop == 0 ->
  exists growth,
    _simplified_crop_growth_model weather_data config crop = inr growth
    /\ length growth = length weather_data.
Proof.
  intros Hreq. induction weather_data as [| day rest (g & Hg & Hlen)]; simpl.
  - exists []. split; reflexivity.
  - destruct (ml_water_stress_range config crop day Hreq) as (w & Hw & _).
    unfold ml_growth_day. cbv zeta. rewrite Hw. simpl. rewrite Hg. simpl.
    eexists. split; [reflexivity |]. simpl. congruence.
Qed.

(** X8. When no crop model is loaded, on every weather series that is not
    empty and every configuration whose field size is not zero,
    [_simulate_crop_yield] returns and the yield of one harvest is the one
    that [predict_crop_yield] computes from the growth factors of
    [_simplified_crop_growth_model]: the simple model of the [except]
    branch is not used. *)
Theorem crop_yield_uses_service_path
    (random : nat -> Q) (config : dict) (day : dict) (rest : list dict) :
  ~ get config "field_size" 10000 == 0 ->
  exists growth y r,
    _simplified_crop_growth_model (day :: rest) config default_crop_data
    = inr growth
    /\ predict_crop_yield growth config default_crop_data = inr y
    /\ _simulate_crop_yield None random config (day :: rest) = inr r
    /\ yield_per_harvest_kg r = y.
Proof.
  intros Hfield.
  destruct (simplified_crop_growth_returns config default_crop_data
              (day :: rest)) as (growth & Hg & Hlen).
  { vm_compute. discriminate. }
  destruct (predict_crop_yield_nonempty growth config default_crop_data)
    as (y & Hy).
  { destruct growth; [discriminate | discriminate]. }
  { reflexivity. }
  exists growth, y. unfold _simulate_crop_yield, total_yield. cbv zeta.
  unfold predict_crop_growth. rewrite Hg. simpl bind. rewrite Hy.
  simpl try_except. simpl bind.
  rewrite (div_nonzero _ _ Hfield). simpl bind.
  eexists. split; [reflexivity |]. split; [reflexivity |].
  split; reflexivity.
Qed.

Lemma crop_yield_uses_service_path_witness :
  exists growth y r,
    _simplified_crop_growth_model [mild_wet_day; dry_day] ∅ default_crop_data
    = inr growth
    /\ predict_crop_yield growth ∅ default_crop_data = inr y
    /\ _simulate_crop_yield None (fun _ => 0.5) ∅ [mild_wet_day; dry_day]
       = inr r
    /\ yield_per_harvest_kg r = y.
Proof.
  apply (crop_yield_uses_service_path (fun _ => 0.5) ∅ mild_wet_day [dry_day]).
  vm_compute. discriminate.
Defined.

End CropYieldFacts.

(** ** Shadow series *)

Section ShadowSeriesFacts.
Import Py Shadow.
Local Open Scope R_scope.

Lemma declination_periodic (i : nat) : declination (i + 365) = declination i.
Proof.
  unfold declination. cbv zeta.
  replace (Z.of_nat (i + 365) mod 365)%Z with (Z.of_nat i mod 365)%Z;
    [reflexivity |].
  rewrite Nat2Z.inj_add. change (Z.of_nat 365) with (1 * 365)%Z.
  now rewrite Z.mod_add by lia.
Qed.

(** X9. The shadow model repeats itself every 365 days of the series: the
    noon shadow length, the shadow area and the coverage of day [i + 365]
    are those of day [i], for every configuration. *)
Theorem shadow_repeats_yearly (config : rdict) (i : nat) :
  shadow_length config (i + 365) = shadow_length config i
  /\ shadow_area config (i + 365) = shadow_area config i
  /\ coverage config (i + 365) = coverage config i.
Proof.
  assert (Hl : shadow_length config (i + 365) = shadow_length config i).
  { unfold shadow_length. cbv zeta. now rewrite declination_periodic. }
  assert (Ha : shadow_area config (i + 365) = shadow_area config i).
  { unfold shadow_area. cbv zeta. now rewrite Hl. }
  split; [exact Hl |]. split; [exact Ha |].
  unfold coverage. cbv zeta. now rewrite Ha.
Qed.

(** X10. For a valid geometry (positive width, counts and field size, tilt
    between 0 and 90 degrees) the shadow area of every day is at least the
    footprint of the array, panel_width * panels_per_row * panel_rows, and
    the day's coverage is at least min(1, footprint / field_size). *)
Theorem shadow_covers_footprint (config : rdict) (i : nat) :
  0 < rget config "panel_width" 1 ->
  0 < rget config "panel_rows" 10 ->
  0 < rget config "panels_per_row" 10 ->
  0 < rget config "field_size" 10000 ->
  0 <= rget config "panel_angle" 30 <= 90 ->
  let footprint :=
    rget config "panel_width" 1 * rget config "panels_per_row" 10
    * rget config "panel_rows" 10 in
  footprint <= shadow_area config i
  /\ exists c,
       coverage config i = inr c
       /\ rmin 1 (footprint / rget config "field_size" 10000) <= c.
Proof.
  intros Hw Hr Hp Hf Ha. cbv zeta.
  assert (Harea : rget config "panel_width" 1 * rget config "panels_per_row" 10
                  * rget config "panel_rows" 10 <= shadow_area config i).
  { unfold shadow_area. cbv zeta.
    pose proof (shadow_length_nonneg config i) as Hl.
    pose proof (sin_tilt_nonneg _ Ha) as Hs.
    pose proof (Rmult_le_pos _ _ Hl Hs) as Hls.
    apply Rmult_le_compat_r; [Lra.lra |].
    apply Rmult_le_compat_r; [Lra.lra |]. Lra.lra. }
  split; [exact Harea |].
  unfold coverage. cbv zeta. rewrite rdiv_nonzero by Lra.lra. simpl.
  eexists. split; [reflexivity |].
  assert (Hratio : rget config "panel_width" 1
                   * rget config "panels_per_row" 10
                   * rget config "panel_rows" 10
                   / rget config "field_size" 10000
                   <= shadow_area config i / rget config "field_size" 10000).
  { apply Rmult_le_compat_r; [| exact Harea].
    now apply Rlt_le, Rinv_0_lt_compat. }
  unfold rmin.
  destruct (Rlt_dec _ 1); destruct (Rlt_dec _ 1); Lra.lra.
Qed.

Lemma shadow_covers_footprint_witness :
  rget tiny_field_config "panel_width" 1
  * rget tiny_field_config "panels_per_row" 10
  * rget tiny_field_config "panel_rows" 10
  <= shadow_area tiny_field_config 0
  /\ exists c,
       coverage tiny_field_config 0 = inr c
       /\ rmin 1 (rget tiny_field_config "panel_width" 1
                  * rget tiny_field_config "panels_per_row" 10
                  * rget tiny_field_config "panel_rows" 10
                  / rget tiny_field_config "field_size" 10000) <= c.
Proof.
  assert (Hw : rget tiny_field_config "panel_width" 1 = 1) by reflexivity.
  assert (Hr : rget tiny_field_config "panel_rows" 10 = 10) by reflexivity.
  assert (Hp : rget tiny_field_config "panels_per_row" 10 = 10)
    by reflexivity.
  assert (Hf : rget tiny_field_config "field_size" 10000 = 1) by reflexivity.
  assert (Ha : rget tiny_field_config "panel_angle" 30 = 30) by reflexivity.
  apply (shadow_covers_footprint tiny_field_config 0).
  - rewrite Hw. Lra.lra.
  - rewrite Hr. Lra.lra.
  - rewrite Hp. Lra.lra.
  - rewrite Hf. Lra.lra.
  - rewrite Ha. Lra.lra.
Defined.

Lemma rfold_max_ge_acc (l : list R) (x : R) : x <= fold_left rmax l x.
Proof.
  revert x. induction l as [| a l IH]; intros x; simpl; [Lra.lra |].
  pose proof (IH (rmax x a)). pose proof (rmax_lower x a). Lra.lra.
Qed.

Lemma rmax_upper_r (a b : R) : b <= rmax a b.
Proof. unfold rmax. destruct (Rlt_dec a b); Lra.lra. Qed.

Lemma rfold_max_ge_elem (l : list R) (x e : R) :
  In e l -> e <= fold_left rmax l x.
Proof.
  revert x. induction l as [| a l IH]; intros x Hin; simpl in *; [easy |].
  destruct Hin as [-> | Hin].
  - pose proof (rfold_max_ge_acc l (rmax x e)).
    pose proof (rmax_upper_r x e). Lra.lra.
  - now apply IH.
Qed.

Lemma rmin_lower_l (a b : R) : rmin a b <= a.
Proof. unfold rmin. destruct (Rlt_dec b a); Lra.lra. Qed.

Lemma rmin_lower_r (a b : R) : rmin a b <= b.
Proof. unfold rmin. destruct (Rlt_dec b a); Lra.lra. Qed.

Lemma rfold_min_le_acc (l : list R) (x : R) : fold_left rmin l x <= x.
Proof.
  revert x. induction l as [| a l IH]; intros x; simpl; [Lra.lra |].
  pose proof (IH (rmin x a)). pose proof (rmin_lower_l x a). Lra.lra.
Qed.

Lemma rfold_min_le_elem (l : list R) (x e : R) :
  In e l -> fold_left rmin l x <= e.
Proof.
  revert x. induction l as [| a l IH]; intros x Hin; simpl in *; [easy |].
  destruct Hin as [-> | Hin].
  - pose proof (rfold_min_le_acc l (rmin x e)).
    pose proof (rmin_lower_r x e). Lra.lra.
  - now apply IH.
Qed.

Lemma rfold_min_nonneg (l : list R) (x : R) :
  0 <= x -> Forall (fun e => 0 <= e) l -> 0 <= fold_left rmin l x.
Proof.
  intros Hx Hl. revert x Hx.
  induction Hl as [| a l Ha _ IH]; intros x Hx; simpl.
  - exact Hx.
  - apply IH. unfold rmin. destruct (Rlt_dec a x); Lra.lra.
Qed.

Lemma rfold_sum_bounds (lo hi : R) (l : list R) (acc : R) :
  Forall (fun p => lo <= p <= hi) l ->
  acc + lo * INR (length l) <= fold_left Rplus l acc
  <= acc + hi * INR (length l).
Proof.
  intros Hall. revert acc.
  induction Hall as [| p l [Hp0 Hp1] _ IH]; intros acc.
  - simpl. Lra.lra.
  - cbn [fold_left]. specialize (IH (acc + p)).
    change (length (p :: l)) with (S (length l)). rewrite S_INR. Lra.lra.
Qed.

Lemma rmean_bounds (lo hi : R) (l : list R) :
  l <> [] -> Forall (fun p => lo <= p <= hi) l ->
  lo <= rsum l / rlen l <= hi.
Proof.
  intros Hne Hall. unfold rsum, rlen.
  pose proof (rfold_sum_bounds lo hi l 0 Hall) as [Hlo Hhi].
  assert (Hn : 0 < INR (length l)).
  { destruct l; [congruence |]. apply lt_0_INR. simpl. lia. }
  split.
  - apply Rmult_le_reg_r with (r := INR (length l)); [exact Hn |].
    unfold Rdiv. rewrite Rmult_assoc, Rinv_l by Lra.lra. Lra.lra.
  - apply Rmult_le_reg_r with (r := INR (length l)); [exact Hn |].
    unfold Rdiv. rewrite Rmult_assoc, Rinv_l by Lra.lra. Lra.lra.
Qed.

(** X11. Whenever [calculate_shadow_patterns] returns, it reports one
    shadow length and one area per weather record, no shadow length is
    negative, and the minimum, the average and the maximum shadow length
    are ordered: 0 <= minimum <= average <= maximum. *)
Theorem shadow_length_summary (weather_data : list rdict) (config : rdict)
    (data : shadow_data) :
  calculate_shadow_patterns weather_data config = inr data ->
  length (daily_shadow_lengths_m data) = length weather_data
  /\ length (daily_shadow_areas_sqm data) = length weather_data
  /\ Forall (fun len => 0 <= len) (daily_shadow_lengths_m data)
  /\ 0 <= minimum_shadow_length_m data
  /\ minimum_shadow_length_m data <= average_shadow_length_m data
  /\ average_shadow_length_m data <= maximum_shadow_length_m data.
Proof.
  unfold calculate_shadow_patterns. intros H.
  destruct (shadow_days config 0 weather_data) as [e | days] eqn:Hdays;
    [discriminate |].
  simpl bind in H. cbv zeta in H.
  assert (Hshape : length days = length weather_data
                   /\ Forall (fun len => 0 <= len) (map day_length days)).
  { clear H. revert days Hdays. generalize 0%nat.
    induction weather_data as [| w rest IH]; intros i days Hdays;
      simpl in Hdays.
    - inversion Hdays. split; [reflexivity | constructor].
    - destruct (coverage config i) as [e | c]; [discriminate |].
      simpl in Hdays.
      destruct (shadow_days config (S i) rest) as [e | ds] eqn:Hrest;
        [discriminate |].
      simpl in Hdays. inversion Hdays; subst.
      destruct (IH (S i) ds Hrest) as [Hlen Hall].
      split; [simpl; congruence |].
      simpl. constructor; [apply shadow_length_nonneg | exact Hall]. }
  destruct Hshape as [Hlen Hnonneg].
  destruct days as [| d ds].
  - simpl in H. change (rlen (@nil R)) with 0 in H. rewrite rdiv_zero in H.
    discriminate.
  - rewrite !rdiv_nonzero in H by (apply rlen_nonzero; discriminate).
    simpl in H. inversion H; subst; clear H. simpl.
    set (x := day_length d) in *. set (l := map day_length ds) in *.
    assert (Hbounds : Forall (fun e => fold_left rmin l x <= e
                                       <= fold_left rmax l x) (x :: l)).
    { apply Forall_forall. intros e He. apply list_elem_of_In in He.
      destruct He as [<- | He].
      - split; [apply rfold_min_le_acc | apply rfold_max_ge_acc].
      - split; [now apply rfold_min_le_elem | now apply rfold_max_ge_elem]. }
    pose proof (rmean_bounds _ _ (x :: l) ltac:(discriminate) Hbounds)
      as [Hlo Hhi].
    split; [simpl in Hlen; rewrite <- Hlen; unfold l;
            now rewrite length_map |].
    split; [simpl in Hlen; rewrite <- Hlen; now rewrite length_map |].
    split; [exact Hnonneg |].
    split; [| split; [exact Hlo | exact Hhi]].
    assert (Hmin : Forall (fun e => 0 <= e) (x :: l)) by exact Hnonneg.
    inversion Hmin; subst. now apply rfold_min_nonneg.
Qed.

Lemma shadow_length_summary_witness :
  exists data,
    calculate_shadow_patterns two_days ∅ = inr data
    /\ length (daily_shadow_lengths_m data) = length two_days
    /\ length (daily_shadow_areas_sqm data) = length two_days
    /\ Forall (fun len => 0 <= len) (daily_shadow_lengths_m data)
    /\ 0 <= minimum_shadow_length_m data
    /\ minimum_shadow_length_m data <= average_shadow_length_m data
    /\ average_shadow_length_m data <= maximum_shadow_length_m data.
Proof.
  assert (Hf : rget ∅ "field_size" 10000 = 10000) by reflexivity.
  assert (H : exists data, calculate_shadow_patterns two_days ∅ = inr data).
  { unfold calculate_shadow_patterns, two_days, shadow_days, coverage.
    cbv zeta. rewrite Hf. rewrite !rdiv_nonzero by Lra.lra. simpl bind.
    cbv zeta. rewrite !rdiv_nonzero by (apply rlen_nonzero; discriminate).
    simpl. eexists. reflexivity. }
  destruct H as (data & Hdata). exists data. split; [exact Hdata |].
  exact (shadow_length_summary two_days ∅ data Hdata).
Defined.

End ShadowSeriesFacts.

(** ** Water balance: which values can be NaN *)

Section WaterNumberFacts.
Import Py XFloat Water.

Variable sqrt_nonneg : Q -> Q.

Lemma fold_xadd_numbers (l : list xfloat) (acc : Q) :
  Forall (fun x => exists q, x = Fin q) l ->
  exists q, fold_left xadd l (Fin acc) = Fin q.
Proof.
  intros Hall. revert acc.
  induction Hall as [| x l (q & ->) _ IH]; intros acc; simpl.
  - eauto.
  - apply IH.
Qed.

(** X12. Whenever [_simulate_water_usage] returns, every daily irrigation
    need it reports is a number that is not negative, also on days whose
    water need is NaN; with a field size that is not negative, so is the
    total irrigation need. *)
Theorem irrigation_needs_are_numbers
    (config : dict) (weather_data : list dict) (r : water_result) :
  _simulate_water_usage sqrt_nonneg config weather_data = inr r ->
  length (daily_irrigation_needs_mm r) = length weather_data
  /\ Forall (fun x => exists q, x = Fin q /\ 0 <= q)
       (daily_irrigation_needs_mm r)
  /\ (0 <= get config "field_size" 10000 ->
      exists q, total_irrigation_need_cubic_m r = Fin q /\ 0 <= q).
Proof.
  unfold _simulate_water_usage. cbv zeta. intros H.
  destruct (irrigation_volume _ _ _) as [e | v]; [discriminate |].
  simpl in H. inversion H; subst; clear H. simpl.
  assert (Hall : Forall (fun x => exists q, x = Fin q /\ 0 <= q)
                   (map (day_irrigation_need sqrt_nonneg config)
                      weather_data)).
  { apply Forall_forall. intros x Hx. apply list_elem_of_In in Hx.
    apply in_map_iff in Hx. destruct Hx as (day & <- & _).
    apply day_irrigation_need_finite. }
  split; [apply length_map |]. split; [exact Hall |].
  intros Hfield.
  destruct (fold_xadd_finite _ 0 Hall) as (q & Hq & Hq0); [Lqa.lra |].
  unfold xsum. rewrite Hq. simpl. eexists. split; [reflexivity |].
  apply Qmult_le_0_compat; [now apply Qmult_le_0_compat |].
  vm_compute. discriminate.
Qed.

Lemma inverted_or_ordered (weather_data : list dict) :
  Exists (fun day => get day "temperature_high" 25
                     < get day "temperature_low" 15) weather_data
  \/ Forall (fun day => get day "temperature_low" 15
                        <= get day "temperature_high" 25) weather_data.
Proof.
  induction weather_data as [| day rest [IH | IH]].
  - right. constructor.
  - left. now apply Exists_cons_tl.
  - destruct (Qlt_le_dec (get day "temperature_high" 25)
                (get day "temperature_low" 15)) as [Hinv | Hok].
    + left. now apply Exists_cons_hd.
    + right. now constructor.
Qed.

(** X13. Whenever [_simulate_water_usage] returns, the total water
    requirement is NaN exactly when some day of the series has
    temperature_high < temperature_low; otherwise it is a number. *)
Theorem water_requirement_nan_iff_inverted_day
    (config : dict) (weather_data : list dict) (r : water_result) :
  _simulate_water_usage sqrt_nonneg config weather_data = inr r ->
  (total_water_requirement_cubic_m r = NaN
   <-> Exists (fun day => get day "temperature_high" 25
                          < get day "temperature_low" 15) weather_data)
  /\ (Forall (fun day => get day "temperature_low" 15
                         <= get day "temperature_high" 25) weather_data ->
      exists q, total_water_requirement_cubic_m r = Fin q).
Proof.
  unfold _simulate_water_usage. cbv zeta. intros H.
  destruct (irrigation_volume _ _ _) as [e | v]; [discriminate |].
  simpl in H. inversion H; subst; clear H. simpl.
  assert (Hnum : Forall (fun day => get day "temperature_low" 15
                                    <= get day "temperature_high" 25)
                   weather_data ->
                 exists q,
                   xdiv_const
                     (xmul (xsum (map (day_water_need sqrt_nonneg config)
                                    weather_data))
                        (Fin (get config "field_size" 10000))) 1000
                   = Fin q).
  { intros Hall.
    destruct (fold_xadd_numbers
                (map (day_water_need sqrt_nonneg config) weather_data) 0)
      as (q & Hq).
    { apply Forall_forall. intros x Hx. apply list_elem_of_In in Hx.
      apply in_map_iff in Hx. destruct Hx as (day & <- & Hday).
      apply list_elem_of_In in Hday.
      rewrite Forall_forall in Hall. specialize (Hall day Hday).
      destruct (day_water_need_cases sqrt_nonneg config day)
        as [[Hinv _] | [_ Hfin]]; [Lqa.lra | exact Hfin]. }
    unfold xsum. rewrite Hq. simpl. eexists. reflexivity. }
  split; [split |].
  - intros Hnan.
    destruct (inverted_or_ordered weather_data) as [Hex | Hall];
      [exact Hex |].
    destruct (Hnum Hall) as (q & Hq). congruence.
  - intros Hex. apply Exists_exists in Hex. destruct Hex as (day & Hday & Hinv).
    unfold xsum. rewrite fold_xadd_with_nan; [reflexivity |].
    apply in_map_iff. exists day. split.
    + now apply day_water_need_inverted.
    + now apply list_elem_of_In.
  - exact Hnum.
Qed.

End WaterNumberFacts.

Section WaterNumberExamples.
Import Py XFloat Water.

Lemma irrigation_needs_are_numbers_witness :
  exists r,
    _simulate_water_usage crude_sqrt ∅ [inverted_day; mild_wet_day] = inr r
    /\ length (daily_irrigation_needs_mm r) = 2%nat
    /\ Forall (fun x => exists q, x = Fin q /\ 0 <= q)
         (daily_irrigation_needs_mm r)
    /\ exists q, total_irrigation_need_cubic_m r = Fin q /\ 0 <= q.
Proof.
  destruct (_simulate_water_usage crude_sqrt ∅ [inverted_day; mild_wet_day])
    as [e | r] eqn:Hr; [vm_compute in Hr; discriminate Hr |].
  destruct (irrigation_needs_are_numbers crude_sqrt ∅
              [inverted_day; mild_wet_day] r Hr) as (Hlen & Hall & Htot).
  exists r. split; [reflexivity |].
  split; [exact Hlen |]. split; [exact Hall |].
  apply Htot. vm_compute. discriminate.
Defined.

Lemma water_requirement_nan_iff_inverted_day_witness :
  exists r q,
    _simulate_water_usage crude_sqrt ∅ [mild_wet_day; dry_day] = inr r
    /\ total_water_requirement_cubic_m r = Fin q.
Proof.
  destruct (_simulate_water_usage crude_sqrt ∅ [mild_wet_day; dry_day])
    as [e | r] eqn:Hr; [vm_compute in Hr; discriminate Hr |].
  destruct (water_requirement_nan_iff_inverted_day crude_sqrt ∅
              [mild_wet_day; dry_day] r Hr) as [_ Hnum].
  destruct Hnum as (q & Hq).
  - repeat constructor; vm_compute; discriminate.
  - exists r, q. split; [reflexivity | exact Hq].
Defined.

End WaterNumberExamples.

(** ** Financial metrics *)

Section FinanceFacts.
Import Py XFloat Finance.

Lemma npv_loop_raises (net rate : Q) (y : Z) (rest : list Z) (acc : Q) :
  1 + rate == 0 -> (0 < y)%Z ->
  npv_loop net rate (y :: rest) acc = raise ZeroDivisionError.
Proof.
  intros Hr Hy. simpl. rewrite div_zero; [reflexivity |].
  rewrite Hr. apply Qpower_0. lia.
Qed.

(** X14. Where [_calculate_financial_metrics] raises, for a configuration
    whose cost items and panel count are not negative: a division-by-zero
    error when the total capital expense is 0 (the ROI division is not
    guarded); otherwise a [TypeError] when project_lifetime is a float
    (it is the bound of a [range]); otherwise a division-by-zero error
    when the discount rate is -1 and the lifetime is at least one year
    (the first NPV term divides by (1 + rate) ** 1). *)
Theorem financial_metrics_failures (config : typed_dict) :
  costs_not_negative (values config) ->
  (total_capex (values config) == 0 ->
   _calculate_financial_metrics config = raise ZeroDivisionError)
  /\ (~ total_capex (values config) == 0 ->
      forall lifetime : Q,
        config !! "project_lifetime" = Some (PyFloat lifetime) ->
        _calculate_financial_metrics config = raise TypeError)
  /\ (~ total_capex (values config) == 0 ->
      forall lifetime : Z,
        default (PyInt 25) (config !! "project_lifetime") = PyInt lifetime ->
        (1 <= lifetime)%Z ->
        1 + get (values config) "discount_rate" 0.05 == 0 ->
        _calculate_financial_metrics config = raise ZeroDivisionError).
Proof.
  intros _. split; [apply financial_metrics_zero_capex |]. split.
  - intros Hc lifetime Hl. unfold _calculate_financial_metrics. cbv zeta.
    rewrite payback_period_value. simpl bind.
    rewrite (div_nonzero _ _ Hc). simpl bind.
    rewrite Hl. reflexivity.
  - intros Hc lifetime Hl Hpos Hr. unfold _calculate_financial_metrics.
    cbv zeta. rewrite payback_period_value. simpl bind.
    rewrite (div_nonzero _ _ Hc). simpl bind.
    rewrite Hl. cbn [range_from_1 ret bind].
    destruct (Z.to_nat lifetime) as [| n] eqn:En; [lia |].
    simpl seq. simpl map.
    rewrite npv_loop_raises; [reflexivity | exact Hr | lia].
Qed.

Lemma financial_metrics_failures_witness :
  _calculate_financial_metrics free_equipment_config
  = raise ZeroDivisionError
  /\ _calculate_financial_metrics float_lifetime_config = raise TypeError
  /\ _calculate_financial_metrics total_discount_config
     = raise ZeroDivisionError.
Proof.
  split; [| split].
  - destruct (financial_metrics_failures free_equipment_config) as (H & _).
    + vm_compute. repeat split; discriminate.
    + apply H. vm_compute. reflexivity.
  - destruct (financial_metrics_failures float_lifetime_config)
      as (_ & H & _).
    + vm_compute. repeat split; discriminate.
    + apply (H ltac:(vm_compute; discriminate) 25). reflexivity.
  - destruct (financial_metrics_failures total_discount_config)
      as (_ & _ & H).
    + vm_compute. repeat split; discriminate.
    + apply (H ltac:(vm_compute; discriminate) 25%Z).
      * reflexivity.
      * lia.
      * vm_compute. reflexivity.
Defined.

Lemma npv_loop_sign (net rate : Q) (years : list Z) (acc v : Q) :
  0 < 1 + rate ->
  npv_loop net rate years acc = inr v ->
  (0 <= net -> acc <= v) /\ (net <= 0 -> v <= acc).
Proof.
  intros Hrate. revert acc.
  induction years as [| y rest IH]; intros acc H; simpl in H.
  - inversion H; subst. split; intros _; Lqa.lra.
  - pose proof (Qpower_0_lt (1 + rate) y Hrate) as Hpow.
    rewrite div_nonzero in H by Lqa.lra. simpl bind in H.
    destruct (IH _ H) as [Hup Hdown].
    set (p := Qpower (1 + rate) y) in *.
    split; intros Hnet.
    + assert (0 <= net / p) by (apply Qle_shift_div_l; Lqa.lra).
      specialize (Hup Hnet). Lqa.lra.
    + assert (net / p <= 0) by (apply Qle_shift_div_r; Lqa.lra).
      specialize (Hdown Hnet). Lqa.lra.
Qed.

(** X16. Whenever [_calculate_financial_metrics] returns for a discount
    rate above -1, the net present value it reports lies on the side of
    minus the capital expense that the annual net profit points to: npv is
    at least -total_capex when net_profit_annual is not negative and at
    most -total_capex when net_profit_annual is not positive. *)
Theorem npv_side_follows_profit (config : typed_dict)
    (m : financial_metrics) :
  _calculate_financial_metrics config = inr m ->
  - 1 < get (values config) "discount_rate" 0.05 ->
  (0 <= fm_net_profit_annual m -> - fm_total_capex m <= npv m)
  /\ (fm_net_profit_annual m <= 0 -> npv m <= - fm_total_capex m).
Proof.
  intros H Hrate.
  unfold _calculate_financial_metrics in H. cbv zeta in H.
  rewrite payback_period_value in H. simpl bind in H.
  destruct (div _ (total_capex (values config))) as [e | roi];
    [discriminate |].
  simpl bind in H.
  destruct (range_from_1 _) as [e | years]; [discriminate |].
  simpl bind in H.
  destruct (npv_loop _ _ _ _) as [e | v] eqn:Hv; [discriminate |].
  simpl bind in H.
  destruct (div _ (total_capex (values config))) as [e | irr];
    [discriminate |].
  simpl bind in H. rewrite lcoe_value in H. simpl in H.
  inversion H; subst; clear H. simpl.
  apply npv_loop_sign in Hv; [exact Hv | Lqa.lra].
Qed.

Lemma npv_side_follows_profit_witness :
  (exists m,
     _calculate_financial_metrics ∅ = inr m
     /\ - fm_total_capex m <= npv m)
  /\ (exists m,
        _calculate_financial_metrics unprofitable_config = inr m
        /\ npv m <= - fm_total_capex m).
Proof.
  split.
  - destruct (_calculate_financial_metrics ∅) as [e | m] eqn:Hm;
      [vm_compute in Hm; discriminate Hm |].
    exists m. split; [reflexivity |].
    destruct (npv_side_follows_profit ∅ m Hm) as (H & _).
    + vm_compute. reflexivity.
    + apply H. vm_compute in Hm. injection Hm as <-.
      vm_compute. discriminate.
  - destruct (_calculate_financial_metrics unprofitable_config)
      as [e | m] eqn:Hm; [vm_compute in Hm; discriminate Hm |].
    exists m. split; [reflexivity |].
    destruct (npv_side_follows_profit unprofitable_config m Hm) as (_ & H).
    + vm_compute. reflexivity.
    + apply H. vm_compute in Hm. injection Hm as <-.
      vm_compute. discriminate.
Defined.

End FinanceFacts.

(** ** Environmental metrics *)

Section EnvironmentFacts.
Import Py Environment.

(** X17. [_calculate_environmental_metrics] raises a division-by-zero
    error when the yearly avoided emissions (annual energy times grid
    carbon intensity) are 0 and when the field size is 0; otherwise it
    returns, also for a conventional water usage of 0, where the reported
    water savings percentage is 0. *)
Theorem environmental_metrics_defined (config : dict) :
  let annual_avoided :=
    get config "energy_production_annual" 40000
    * get config "grid_carbon_intensity" 0.5 in
  (annual_avoided == 0 ->
   _calculate_environmental_metrics config = raise ZeroDivisionError)
  /\ (get config "field_size" 10000 == 0 ->
      _calculate_environmental_metrics config = raise ZeroDivisionError)
  /\ (~ annual_avoided == 0 -> ~ get config "field_size" 10000 == 0 ->
      exists m,
        _calculate_environmental_metrics config = inr m
        /\ (get config "conventional_water_usage" 700 <= 0 ->
            env_water_savings_percent m = 0)).
Proof.
  cbv zeta. split; [| split].
  - intros Ha. unfold _calculate_environmental_metrics. cbv zeta.
    now rewrite (div_zero _ _ Ha).
  - intros Hf. unfold _calculate_environmental_metrics. cbv zeta.
    unfold div at 1.
    destruct (Qeq_bool (get config "energy_production_annual" 40000
                        * get config "grid_carbon_intensity" 0.5) 0);
      [reflexivity |].
    simpl bind. now rewrite (div_zero _ _ Hf).
  - intros Ha Hf. unfold _calculate_environmental_metrics. cbv zeta.
    rewrite (div_nonzero _ _ Ha). simpl bind.
    rewrite (div_nonzero _ _ Hf). simpl bind.
    destruct (Qlt_le_dec 0 (get config "conventional_water_usage" 700))
      as [Hpos | Hneg].
    + rewrite div_nonzero by Lqa.lra. simpl.
      eexists. split; [reflexivity |]. intros H. Lqa.lra.
    + simpl. eexists. split; [reflexivity |]. reflexivity.
Qed.

Lemma environmental_metrics_defined_witness :
  _calculate_environmental_metrics idle_array_config
  = raise ZeroDivisionError
  /\ exists m, _calculate_environmental_metrics ∅ = inr m.
Proof.
  split.
  - destruct (environmental_metrics_defined idle_array_config) as (H & _).
    apply H. vm_compute. reflexivity.
  - destruct (environmental_metrics_defined ∅) as (_ & _ & H).
    destruct H as (m & Hm & _).
    + vm_compute. discriminate.
    + vm_compute. discriminate.
    + exists m. exact Hm.
Defined.

(** X18. Whenever [_calculate_environmental_metrics] returns for a system
    whose yearly avoided emissions are positive, the net carbon benefit
    over the project lifetime is not negative exactly when the carbon
    payback time is at most the project lifetime. *)
Theorem carbon_benefit_iff_payback_within_lifetime
    (config : dict) (m : environmental_metrics) :
  _calculate_environmental_metrics config = inr m ->
  0 < get config "energy_production_annual" 40000
      * get config "grid_carbon_intensity" 0.5 ->
  (0 <= net_carbon_benefit_kg m
   <-> carbon_payback_years m <= get config "project_lifetime" 25).
Proof.
  unfold _calculate_environmental_metrics. cbv zeta. intros H Hpos.
  rewrite div_nonzero in H by Lqa.lra. simpl bind in H.
  destruct (div _ (get config "field_size" 10000)) as [e | land];
    [discriminate |].
  simpl bind in H.
  destruct (if Qlt_le_dec 0 (get config "conventional_water_usage" 700)
            then _ else _) as [e | pct]; [discriminate |].
  simpl in H. inversion H; subst; clear H. simpl.
  set (annual := get config "energy_production_annual" 40000
                 * get config "grid_carbon_intensity" 0.5) in *.
  set (total := get config "system_carbon_footprint" 50
                * get config "num_panels" 100).
  set (L := get config "project_lifetime" 25).
  assert (Hnet : get config "energy_production_annual" 40000 * L
                 * get config "grid_carbon_intensity" 0.5 - total
                 == L * annual - total) by (unfold annual; ring).
  rewrite Hnet. split.
  - intros Hb. apply Qle_shift_div_r; [exact Hpos | Lqa.lra].
  - intros Hp.
    assert (H : total / annual * annual <= L * annual)
      by (apply Qmult_le_compat_r; Lqa.lra).
    assert (Hc : total / annual * annual == total)
      by (field; Lqa.lra).
    rewrite Hc in H. Lqa.lra.
Qed.

Lemma carbon_benefit_iff_payback_within_lifetime_witness :
  exists m,
    _calculate_environmental_metrics ∅ = inr m
    /\ (0 <= net_carbon_benefit_kg m
        <-> carbon_payback_years m <= get ∅ "project_lifetime" 25).
Proof.
  destruct (_calculate_environmental_metrics ∅) as [e | m] eqn:Hm;
    [vm_compute in Hm; discriminate Hm |].
  exists m. split; [reflexivity |].
  apply (carbon_benefit_iff_payback_within_lifetime ∅ m Hm).
  vm_compute. reflexivity.
Defined.

End EnvironmentFacts.

(** ** Candidate sampling and scoring *)

Section SamplingFacts.
Import Py Optimizer.

Lemma uniform_within (rnd : random_source) (k : nat) (low high : Q) :
  0 <= sample rnd k < 1 -> low <= high ->
  low <= uniform rnd k low high <= high.
Proof.
  intros [Hu0 Hu1] Hle. unfold uniform.
  set (u := sample rnd k) in *.
  assert (Hd : 0 <= high - low) by Lqa.lra.
  set (d := high - low) in *.
  assert (0 <= d * u) by (apply Qmult_le_0_compat; Lqa.lra).
  assert (d * u <= d) by Lqa.nra.
  assert (Hhigh : high == low + d) by (unfold d; ring).
  split; [| rewrite Hhigh]; Lqa.lra.
Qed.

(** X19. When the random source draws from [0, 1) and every minimum of
    the constraints is at most its maximum, every candidate that
    [_generate_candidate_configurations] returns has its height, angle,
    spacing and irrigation within the bounds and a tracking type taken
    from the options ([fixed] when there are none), and the list holds
    exactly [num_candidates] candidates. *)
Theorem candidates_within_constraints
    (rnd : random_source) (c : constraints) (num_candidates : nat)
    (candidates : list candidate) :
  (forall k, 0 <= sample rnd k < 1) ->
  get (bounds c) "min_panel_height" 1.5 <= get (bounds c) "max_panel_height" 4 ->
  get (bounds c) "min_panel_angle" 10 <= get (bounds c) "max_panel_angle" 40 ->
  get (bounds c) "min_panel_spacing" 3
    <= get (bounds c) "max_panel_spacing" 8 ->
  get (bounds c) "min_irrigation" 0 <= get (bounds c) "max_irrigation" 10 ->
  _generate_candidate_configurations rnd c num_candidates = inr candidates ->
  length candidates = num_candidates
  /\ Forall (within_constraints c) candidates.
Proof.
  intros Hu Hh Ha Hs Hi Hgen.
  unfold _generate_candidate_configurations in Hgen.
  apply collect_inr in Hgen. split.
  - pose proof Hgen as Hlen. apply Forall2_length in Hlen.
    rewrite <- Hlen. apply length_seq.
  - induction Hgen as [| i cand idxs l Hcand _ IH]; constructor; [| exact IH].
    unfold generate_candidate in Hcand. cbv zeta in Hcand.
    destruct (match tracking_options c with
              | Some options => _
              | None => _
              end) as [e | t] eqn:Ht; [discriminate |].
    cbn [bind] in Hcand. inversion Hcand; subst; clear Hcand.
    unfold within_constraints. cbn [panel_height panel_angle panel_spacing
      irrigation_amount tracking_type].
    repeat split; try (now apply uniform_within).
    destruct (tracking_options c) as [[| o os] |].
    + discriminate.
    + destruct (nth_error (o :: os) (pick rnd i (length (o :: os))))
        as [t' |] eqn:Hn; [| discriminate].
      inversion Ht; subst. eapply nth_error_In. exact Hn.
    + now inversion Ht.
Qed.

Lemma candidates_within_constraints_witness :
  exists candidates,
    _generate_candidate_configurations cycling_source two_tracking_options 5
    = inr candidates
    /\ length candidates = 5%nat
    /\ Forall (within_constraints two_tracking_options) candidates.
Proof.
  eexists. split; [vm_compute; reflexivity |].
  apply (candidates_within_constraints cycling_source two_tracking_options).
  - intros k. unfold cycling_source, sample. split.
    + apply Qle_shift_div_l; [reflexivity |].
      rewrite Qmult_0_l. change 0 with (inject_Z 0). rewrite <- Zle_Qle.
      apply Nat2Z.is_nonneg.
    + apply Qlt_shift_div_r; [reflexivity |].
      rewrite Qmult_1_l. change 11 with (inject_Z 11). rewrite <- Zlt_Qlt.
      pose proof (Nat.mod_upper_bound (7 * k) 11). lia.
  - vm_compute. discriminate.
  - vm_compute. discriminate.
  - vm_compute. discriminate.
  - vm_compute. discriminate.
  - vm_compute. reflexivity.
Defined.

Lemma candidate_config_irrigation (cand : candidate) (dflt : Q) :
  get (candidate_config cand) "irrigation_amount" dflt
  = irrigation_amount cand.
Proof. reflexivity. Qed.

Lemma candidate_config_other (cand : candidate) (k : string) (dflt : Q) :
  k <> "panel_height"%string -> k <> "panel_angle"%string ->
  k <> "panel_spacing"%string -> k <> "irrigation_amount"%string ->
  get (candidate_config cand) k dflt = dflt.
Proof.
  intros H1 H2 H3 H4. unfold candidate_config, get. cbn [list_to_map foldr].
  rewrite !lookup_insert_ne by (intros E; symmetry in E; contradiction).
  now rewrite lookup_empty.
Qed.

(** X20. When neither an energy model nor a crop model is loaded, the
    score of [_evaluate_configuration] depends on a candidate through its
    irrigation amount alone: two candidates with the same irrigation
    amount get the same score, whatever their panel height, angle, spacing
    and tracking type. *)
Theorem evaluation_ignores_geometry
    (svc : ml_service) (c1 c2 : candidate) (weather_data : list dict)
    (goals : dict) :
  energy_model svc = None -> crop_model svc = None ->
  irrigation_amount c1 = irrigation_amount c2 ->
  _evaluate_configuration svc c1 weather_data goals
  = _evaluate_configuration svc c2 weather_data goals.
Proof.
  intros He Hc Hirr. unfold _evaluate_configuration. cbv zeta.
  rewrite He, Hc.
  assert (Henergy : Energy._simplified_energy_model weather_data
                      (candidate_config c1)
                    = Energy._simplified_energy_model weather_data
                        (candidate_config c2)).
  { unfold Energy._simplified_energy_model. apply map_ext. intros day.
    unfold Energy.simplified_energy_day. cbv zeta.
    now rewrite !candidate_config_other by discriminate. }
  assert (Hgrowth : Crop._simplified_crop_growth_model weather_data
                      (candidate_config c1) Crop.default_crop_data
                    = Crop._simplified_crop_growth_model weather_data
                        (candidate_config c2) Crop.default_crop_data).
  { clear Henergy. induction weather_data as [| day rest IH];
      [reflexivity |].
    cbn [Crop._simplified_crop_growth_model]. rewrite IH.
    assert (Hday : Crop.ml_growth_day (candidate_config c1)
                     Crop.default_crop_data day
                   = Crop.ml_growth_day (candidate_config c2)
                       Crop.default_crop_data day).
    { unfold Crop.ml_growth_day, Crop.ml_water_stress, Crop.ml_shade_stress.
      cbv zeta. rewrite !candidate_config_irrigation, Hirr.
      now rewrite !candidate_config_other by discriminate. }
    now rewrite Hday. }
  unfold Energy.predict_energy_production, Crop.predict_crop_growth.
  rewrite Henergy, Hgrowth. simpl bind.
  destruct (Crop._simplified_crop_growth_model _ _ _) as [e | growth];
    [reflexivity |].
  simpl bind. unfold Crop.predict_crop_yield. cbv zeta.
  now rewrite !candidate_config_other by discriminate.
Qed.

Lemma evaluation_ignores_geometry_witness :
  _evaluate_configuration ranking_model_only low_flat_candidate
    [warm_clear_day; mild_wet_day] ∅
  = _evaluate_configuration ranking_model_only tall_steep_candidate
      [warm_clear_day; mild_wet_day] ∅.
Proof.
  apply (evaluation_ignores_geometry ranking_model_only low_flat_candidate
           tall_steep_candidate); reflexivity.
Defined.

(** X21. The score of [_simplified_optimization] is a weighted sum of an
    energy score that is at most 1, and equal to 1 exactly at a panel angle
    of 30 degrees, and of a crop score that lies between 0.7 and 1 for a
    panel height that is not negative and a positive spacing. *)
Theorem simplified_score_components (goals : dict) (cand : candidate) :
  0 <= panel_height cand -> 0 < panel_spacing cand ->
  exists energy_score crop_score s,
    simplified_score goals cand = inr s
    /\ s == get goals "energy" 0.5 * energy_score
            + get goals "crop" 0.5 * crop_score
    /\ energy_score <= 1
    /\ (energy_score == 1 <-> panel_angle cand == 30)
    /\ 0.7 <= crop_score <= 1.
Proof.
  intros Hh Hs. unfold simplified_score. cbv zeta.
  rewrite div_nonzero by Lqa.lra. simpl bind.
  eexists. eexists. eexists. split; [reflexivity |].
  split; [reflexivity |].
  assert (Habs : 0 <= abs (panel_angle cand - 30)
                 /\ (abs (panel_angle cand - 30) == 0
                     <-> panel_angle cand == 30)).
  { unfold abs. destruct (Qlt_le_dec (panel_angle cand - 30) 0);
      split; try Lqa.lra; split; intros; Lqa.lra. }
  destruct Habs as [Hnonneg Hzero].
  set (a := abs (panel_angle cand - 30)) in *.
  assert (Hdiv : 0 <= a / 30) by (apply Qle_shift_div_l; Lqa.lra).
  split; [Lqa.lra |]. split.
  - split.
    + intros H. apply Hzero.
      assert (Ha : a / 30 == 0) by Lqa.lra.
      assert (Hm : a / 30 * 30 == a) by (field; discriminate).
      rewrite Ha in Hm. Lqa.lra.
    + intros H. apply Hzero in H. rewrite H. vm_compute. reflexivity.
  - assert (Hratio : 0 <= panel_height cand / panel_spacing cand)
      by (apply Qle_shift_div_l; Lqa.lra).
    set (r := panel_height cand / panel_spacing cand) in *.
    unfold min. destruct (Qlt_le_dec (r * 1.5) 1); split; Lqa.lra.
Qed.

Lemma simplified_score_components_witness :
  exists energy_score crop_score s,
    simplified_score ∅ tall_steep_candidate = inr s
    /\ s == get ∅ "energy" 0.5 * energy_score
            + get ∅ "crop" 0.5 * crop_score
    /\ energy_score <= 1
    /\ (energy_score == 1 <-> panel_angle tall_steep_candidate == 30)
    /\ 0.7 <= crop_score <= 1.
Proof.
  apply (simplified_score_components ∅ tall_steep_candidate).
  - vm_compute. discriminate.
  - vm_compute. reflexivity.
Defined.

End SamplingFacts.

(** ** Re-running a simulation *)

Section RerunFacts.
Import Py Orchestrator Router.

Context {params config weather timestamp : Type}.
Context {energy crop shadow water financial environmental : Type}.
Variable select_config : params -> result (option nat * config).
Variable get_weather : params -> result weather.
Variable sim_energy : config -> weather -> result energy.
Variable sim_crop : config -> weather -> result crop.
Variable sim_shadow : config -> weather -> result shadow.
Variable sim_water : config -> weather -> result water.
Variable fin_metrics : config -> result financial.
Variable env_metrics : config -> result environmental.

Local Abbreviation session :=
  (@db params timestamp energy crop shadow water financial environmental).
Local Abbreviation sim_row :=
  (@simulation params timestamp energy crop shadow water financial
     environmental).
Local Abbreviation pipeline :=
  (model_pipeline select_config get_weather sim_energy sim_crop sim_shadow
     sim_water fin_metrics env_metrics).
Local Abbreviation run :=
  (run_simulation select_config get_weather sim_energy sim_crop sim_shadow
     sim_water fin_metrics env_metrics).

(** What [run_simulation] leaves behind for a row that exists. *)
Lemma run_simulation_final (now : timestamp) (s : session) (sim : sim_row) :
  row s = Some sim ->
  run now s
  = (inr tt,
     let final :=
       match pipeline (sim_parameters sim) with
       | inl e => {| sim_status := Failed;
                     sim_parameters := sim_parameters sim;
                     sim_results := Some (ErrorOnly e);
                     sim_completed_at := sim_completed_at sim |}
       | inr o => {| sim_status := Completed;
                     sim_parameters := sim_parameters sim;
                     sim_results := Some (Full o);
                     sim_completed_at := Some now |}
       end in
     {| row := Some final; committed := Some final |}).
Proof.
  intros Hrow. unfold run_simulation. rewrite Hrow.
  unfold seq_action, try_catch, update, commit, lift. simpl. rewrite Hrow.
  simpl.
  destruct (model_pipeline _ _ _ _ _ _ _ _ (sim_parameters sim)) as [e | o];
    reflexivity.
Qed.

(** X24. A run requested through the endpoint on a simulation that is not
    running, followed by the background run, ends in one of two ways: if
    the pipeline returns [o], the results endpoint answers [o]; if a step
    raises, the row is failed with no completion time and the results
    endpoint answers 400. *)
Theorem requested_run_outcome (now : timestamp) (s : session)
    (sim : sim_row) :
  row s = Some sim ->
  is_running (sim_status sim) = false ->
  let after_request := snd (request_run s) in
  let after_run := snd (run now after_request) in
  fst (request_run s)
  = Ok {| sim_status := Pending;
          sim_parameters := sim_parameters sim;
          sim_results := None;
          sim_completed_at := None |}
  /\ match pipeline (sim_parameters sim) with
     | inr o => get_simulation_results after_run = Ok o
     | inl e =>
         get_simulation_results after_run = BadRequest
         /\ exists final,
              row after_run = Some final
              /\ sim_status final = Failed
              /\ sim_results final = Some (ErrorOnly e)
              /\ sim_completed_at final = None
     end.
Proof.
  intros Hrow Hnot. cbv zeta. unfold request_run. rewrite Hrow, Hnot.
  cbn [fst snd]. split; [reflexivity |].
  erewrite run_simulation_final by reflexivity. cbn [snd sim_parameters].
  cbv zeta.
  destruct (pipeline (sim_parameters sim)) as [e | o].
  - split; [reflexivity |]. eexists. split; [reflexivity |].
    repeat split.
  - reflexivity.
Qed.

(** While a simulation is running, the run and delete endpoints
    answer 400 and leave the session as it is, and the results endpoint
    answers 400. *)
Theorem running_simulation_is_protected (s : session) (sim : sim_row) :
  row s = Some sim ->
  sim_status sim = Running ->
  request_run s = (BadRequest, s)
  /\ delete_simulation s = (BadRequest, s)
  /\ get_simulation_results s = BadRequest.
Proof.
  intros Hrow Hst.
  unfold request_run, delete_simulation, get_simulation_results.
  rewrite Hrow, Hst. repeat split.
Qed.

End RerunFacts.

Section RerunExamples.
Import Py Orchestrator Router.

Lemma requested_run_outcome_witness :
  get_simulation_results
    (snd (run_simulation (fun _ => ret (None, tt)) (fun _ => ret [1%nat])
            constant_step failing_crop_step constant_step constant_step
            (fun _ => ret 2%nat) (fun _ => ret 3%nat) 7%nat
            (snd (request_run pending_db))))
  = BadRequest.
Proof.
  destruct (requested_run_outcome (fun _ => ret (None, tt))
              (fun _ => ret [1%nat]) constant_step failing_crop_step
              constant_step constant_step (fun _ => ret 2%nat)
              (fun _ => ret 3%nat) 7%nat pending_db pending_run eq_refl
              eq_refl) as [_ [H _]].
  exact H.
Defined.

Lemma running_simulation_is_protected_witness :
  request_run running_db = (BadRequest, running_db)
  /\ delete_simulation running_db = (BadRequest, running_db)
  /\ get_simulation_results running_db = BadRequest.
Proof.
  exact (running_simulation_is_protected running_db running_run eq_refl
           eq_refl).
Defined.

End RerunExamples.

(** ** Synthetic weather *)

Section SyntheticWeatherFacts.
Import Py Shadow SyntheticWeather.
Local Open Scope R_scope.

Lemma seasonal_factor_range (day_of_year : Z) :
  0 <= seasonal_factor day_of_year <= 1.
Proof.
  unfold seasonal_factor.
  pose proof (SIN_bound (radians (IZR (day_of_year - 15) / 365 * 360)))
    as [Hlo Hhi].
  split; Lra.lra.
Qed.

Lemma clamp_between (lo hi x : R) :
  lo <= hi -> lo <= rmin hi (rmax lo x) <= hi.
Proof.
  intros H. unfold rmin, rmax.
  destruct (Rlt_dec lo x); destruct (Rlt_dec _ hi); Lra.lra.
Qed.

End SyntheticWeatherFacts.

Section SyntheticSeriesFacts.
Import Py Shadow SyntheticWeather.
Local Open Scope R_scope.

Lemma synthetic_day_plausible (lat lng : R) (day_of_year : Z) (d : draws) :
  0 <= u_temp d <= 1 -> 0 <= rain_amount d -> 0 <= wind_gamma d ->
  plausible (synthetic_day lat lng day_of_year d).
Proof.
  intros [Hu0 Hu1] Hrain Hwind.
  pose proof (seasonal_factor_range day_of_year) as [Hs0 Hs1].
  unfold plausible, synthetic_day. cbv zeta.
  cbn [cloud_cover solar_radiation humidity precipitation wind_speed
       temperature_high temperature_low].
  set (sf := seasonal_factor day_of_year) in *.
  split; [apply clamp_between; Lra.lra |].
  split; [apply rmax_lower |].
  split; [apply clamp_between; Lra.lra |].
  split; [destruct (Rlt_dec _ (u_rain_gate d)); Lra.lra |].
  repeat split; Lra.lra.
Qed.

(** X25. [generate_synthetic_weather] returns one record per requested
    day, and 7 records when the requested duration is not positive. When
    the temperature draw lies in [0, 1] and the rain and wind draws are not
    negative, every record has a cloud cover in [0, 1], a solar radiation
    of at least 0.1, a humidity in [10, 100], a precipitation that is not
    negative, a wind speed of at least 2, a high temperature in [13, 42], a
    low temperature in [3.4, 21.6], and a high temperature that exceeds the
    low one by at least 9.6 degrees, whatever the calendar and the
    location. *)
Theorem synthetic_weather_plausible
    (day_of_year : nat -> Z) (draw : nat -> draws) (location : rdict)
    (duration_days : Z) :
  (forall i, 0 <= u_temp (draw i) <= 1
             /\ 0 <= rain_amount (draw i)
             /\ 0 <= wind_gamma (draw i)) ->
  length (generate_synthetic_weather day_of_year draw location duration_days)
  = Z.to_nat (if (duration_days <=? 0)%Z then 7%Z else duration_days)
  /\ Forall plausible
       (generate_synthetic_weather day_of_year draw location duration_days).
Proof.
  intros Hdraw. unfold generate_synthetic_weather. cbv zeta. split.
  - now rewrite length_map, length_seq.
  - apply Forall_forall. intros r Hr. apply list_elem_of_In in Hr.
    apply in_map_iff in Hr. destruct Hr as (i & <- & _).
    destruct (Hdraw i) as (Hu & Hrain & Hwind).
    now apply synthetic_day_plausible.
Qed.

Lemma synthetic_weather_plausible_witness :
  length (generate_synthetic_weather from_new_year steady_draws ∅ 0) = 7%nat
  /\ Forall plausible
       (generate_synthetic_weather from_new_year steady_draws ∅ 0).
Proof.
  apply (synthetic_weather_plausible from_new_year steady_draws ∅ 0).
  intros i. unfold steady_draws. simpl. repeat split; Lra.lra.
Defined.

End SyntheticSeriesFacts.

(** ** The prediction endpoint *)

Section PredictionEndpointFacts.
Import Py CropPrediction.

(** The crop dict of the endpoint holds the yield per square metre under
    another key than the one that [predict_crop_yield] reads. *)
Lemma crop_dict_lacks_yield_per_plant (c : crop_row) :
  crop_dict c !! "typical_yield_per_plant" = None.
Proof.
  unfold crop_dict. cbn [list_to_map foldr].
  rewrite !lookup_insert_ne by discriminate. apply lookup_empty.
Qed.

Lemma predict_crop_yield_key_error (daily_growth : list Q) (config : dict)
    (c : crop_row) :
  predict_crop_yield daily_growth config (crop_dict c)
  = inl (KeyError "typical_yield_per_plant").
Proof.
  unfold predict_crop_yield, item. cbv zeta.
  now rewrite crop_dict_lacks_yield_per_plant.
Qed.

(** X26. The yield prediction endpoint never answers with a prediction:
    without the crop it answers 404, without weather records 400, and
    otherwise 500, because [predict_crop_yield] looks up
    [typical_yield_per_plant] in a crop dict that holds
    [typical_yield_per_sqm] instead; this is so for every crop row, every
    request, every weather series and whether or not a crop model is
    loaded. *)
Theorem predict_endpoint_never_answers {body : Type}
    (crop_model : option (list dict -> result (list Q)))
    (crop : option crop_row) (panel_config : dict) (weather_data : list dict)
    (finish : list Q -> Q -> outcome body) :
  (forall answer,
     predict_endpoint crop_model crop panel_config weather_data finish
     <> Router.Ok answer)
  /\ (forall c, crop = Some c -> weather_data <> [] ->
      predict_endpoint crop_model crop panel_config weather_data finish
      = Router.ServerError).
Proof.
  assert (Hserver : forall c, crop = Some c -> weather_data <> [] ->
            predict_endpoint crop_model crop panel_config weather_data finish
            = Router.ServerError).
  { intros c -> Hne. unfold predict_endpoint.
    destruct weather_data as [| day rest]; [congruence |]. cbv zeta.
    destruct (predict_crop_growth crop_model (day :: rest) panel_config
                (crop_dict c)) as [e | growth]; [reflexivity |].
    cbn [and_then]. now rewrite predict_crop_yield_key_error. }
  split; [| exact Hserver].
  intros answer. destruct crop as [c |]; [| discriminate].
  destruct weather_data as [| day rest]; [discriminate |].
  rewrite (Hserver c eq_refl) by discriminate. discriminate.
Qed.

Lemma predict_endpoint_never_answers_witness :
  predict_endpoint None (Some lettuce_row) ∅ [mild_wet_day]
    (fun _ total_yield => inr total_yield)
  = Router.ServerError.
Proof.
  destruct (predict_endpoint_never_answers None (Some lettuce_row) ∅
              [mild_wet_day] (fun _ total_yield => inr total_yield))
    as [_ H].
  apply (H lettuce_row); [reflexivity | discriminate].
Defined.

End PredictionEndpointFacts.

(** ** When the search fails, and when it cannot *)

Section SearchErrorFacts.
Import Py Optimizer.

Lemma collect_first_raises {A B : Type} (f : A -> result B) (a : A)
    (rest : list A) (e : exn) :
  f a = inl e -> collect f (a :: rest) = inl e.
Proof. intros H. simpl. now rewrite H. Qed.

(** X22. [_simplified_optimization] raises a [ValueError] when the
    constraints hold an empty list of tracking options (from
    [np.random.randint(0, 0)]), and a division-by-zero error when there are
    no tracking options and both spacing bounds are 0 (every candidate
    then has a spacing of 0, by which the score divides). *)
Theorem simplified_optimization_failures
    (rnd : random_source) (weather_data : list dict) (c : constraints)
    (goals : dict) :
  (tracking_options c = Some [] ->
   _simplified_optimization rnd weather_data c goals
   = raise (ValueError "high <= 0"))
  /\ (tracking_options c = None ->
      get (bounds c) "min_panel_spacing" 3 == 0 ->
      get (bounds c) "max_panel_spacing" 8 == 0 ->
      _simplified_optimization rnd weather_data c goals
      = raise ZeroDivisionError).
Proof.
  split.
  - intros Hopt. unfold _simplified_optimization,
      _generate_candidate_configurations, default_num_candidates.
    change (seq 0 1000) with (0%nat :: seq 1 999).
    rewrite (collect_first_raises _ _ _ (ValueError "high <= 0"));
      [reflexivity |].
    unfold generate_candidate. cbv zeta. now rewrite Hopt.
  - intros Hopt Hlo Hhi. unfold _simplified_optimization.
    assert (Hgen : forall idxs, exists candidates,
               collect (generate_candidate rnd c) idxs = inr candidates
               /\ length candidates = length idxs
               /\ Forall (fun cand => panel_spacing cand == 0) candidates).
    { intros idxs.
      induction idxs as [| i idxs (l & Hl & Hlen & Hall)].
      - exists []. repeat split. constructor.
      - cbn [collect]. unfold generate_candidate at 1. cbv zeta. rewrite Hopt.
        cbn [bind]. rewrite Hl. cbn [bind]. eexists.
        split; [reflexivity |]. split; [simpl; congruence |].
        constructor; [| exact Hall].
        cbn [panel_spacing]. unfold uniform. rewrite Hlo, Hhi. ring. }
    unfold _generate_candidate_configurations.
    destruct (Hgen (seq 0 default_num_candidates))
      as (candidates & Hc & Hlen & Hall).
    rewrite length_seq in Hlen.
    rewrite Hc. cbn [bind]. unfold select_best.
    destruct candidates as [| cand rest]; [discriminate Hlen |].
    inversion Hall as [| ? ? Hzero _]; subst.
    rewrite (collect_first_raises _ _ _ ZeroDivisionError); [reflexivity |].
    unfold simplified_score. cbv zeta. now rewrite (div_zero _ _ Hzero).
Qed.

Lemma simplified_optimization_failures_witness :
  _simplified_optimization cycling_source [] no_tracking_options ∅
  = raise (ValueError "high <= 0")
  /\ _simplified_optimization cycling_source [] touching_rows ∅
     = raise ZeroDivisionError.
Proof.
  split.
  - destruct (simplified_optimization_failures cycling_source []
                no_tracking_options ∅) as [H _].
    apply H. reflexivity.
  - destruct (simplified_optimization_failures cycling_source []
                touching_rows ∅) as [_ H].
    apply H; [reflexivity | vm_compute; reflexivity ..].
Defined.

Lemma cycling_source_unit (k : nat) : 0 <= sample cycling_source k < 1.
Proof.
  unfold cycling_source, sample. split.
  - apply Qle_shift_div_l; [reflexivity |].
    rewrite Qmult_0_l. change 0 with (inject_Z 0). rewrite <- Zle_Qle.
    apply Nat2Z.is_nonneg.
  - apply Qlt_shift_div_r; [reflexivity |].
    rewrite Qmult_1_l. change 11 with (inject_Z 11). rewrite <- Zlt_Qlt.
    pose proof (Nat.mod_upper_bound (7 * k) 11). lia.
Qed.

(** An instance of the return of the simplified search. *)
Lemma simplified_optimization_returns_witness :
  exists best,
    _simplified_optimization cycling_source [warm_clear_day]
      two_tracking_options ∅ = inr best.
Proof.
  apply (simplified_optimization_returns cycling_source two_tracking_options).
  - apply cycling_source_unit.
  - intros i n Hn. unfold cycling_source, pick.
    apply Nat.mod_upper_bound. lia.
  - discriminate.
  - vm_compute. split; [reflexivity | discriminate].
Defined.

End SearchErrorFacts.

(** ** The weather of a run *)

Section WeatherSourceFacts.
Import Py Shadow SyntheticWeather WeatherSource.

Lemma synthetic_not_empty (day_of_year : nat -> Z) (draw : nat -> draws)
    (location : rdict) (duration : Z) :
  generate_synthetic_weather day_of_year draw location duration <> [].
Proof.
  unfold generate_synthetic_weather. cbv zeta. intros H.
  apply (f_equal (@length _)) in H. rewrite length_map, length_seq in H.
  simpl in H. destruct (Z.leb_spec duration 0); lia.
Qed.

(** X27. The weather series that [_get_weather_data] hands to the models
    is never empty: stored rows found by a non-zero id are returned as
    they are, also when custom data is given; without them, custom data
    that is not empty; and in every other case a synthetic series, which
    holds at least one day. *)
Theorem weather_of_a_run_is_never_empty
    (stored : Z -> list weather_record) (day_of_year : nat -> Z)
    (draw : nat -> draws) (p : weather_params) :
  _get_weather_data stored day_of_year draw p <> []
  /\ (forall id, weather_data_id p = Some id -> id <> 0%Z ->
      stored id <> [] ->
      _get_weather_data stored day_of_year draw p = stored id)
  /\ (forall id, weather_data_id p = Some id -> id <> 0%Z ->
      stored id = [] ->
      _get_weather_data stored day_of_year draw p
      = synthetic day_of_year draw p)
  /\ (forall custom,
        (weather_data_id p = None \/ weather_data_id p = Some 0%Z) ->
        custom_weather_data p = Some custom -> custom <> [] ->
        _get_weather_data stored day_of_year draw p = custom).
Proof.
  unfold _get_weather_data. cbv zeta. split; [| split; [| split]].
  - destruct (weather_data_id p) as [id |].
    + destruct (id =? 0)%Z.
      * destruct (custom_weather_data p) as [[| w ws] |];
          try discriminate; apply synthetic_not_empty.
      * destruct (stored id); [apply synthetic_not_empty | discriminate].
    + destruct (custom_weather_data p) as [[| w ws] |];
        try discriminate; apply synthetic_not_empty.
  - intros id -> Hid Hrows. destruct (Z.eqb_spec id 0); [contradiction |].
    destruct (stored id); [contradiction | reflexivity].
  - intros id -> Hid Hrows. destruct (Z.eqb_spec id 0); [contradiction |].
    now rewrite Hrows.
  - intros custom [-> | ->] -> Hne; simpl;
      (destruct custom; [contradiction | reflexivity]).
Qed.

Lemma weather_of_a_run_is_never_empty_witness :
  _get_weather_data (fun _ => []) from_new_year steady_draws stale_id_params
  = synthetic from_new_year steady_draws stale_id_params.
Proof.
  destruct (weather_of_a_run_is_never_empty (fun _ => []) from_new_year
              steady_draws stale_id_params) as (_ & _ & H & _).
  apply (H 12%Z); [reflexivity | discriminate | reflexivity].
Defined.

End WeatherSourceFacts.
